(** * LearnFlow backend: the Assessment & Progress Engine

    A shallow embedding of the parts of the LearnFlow API that move a student's
    exercise submission, progress rollup and quiz submission through their
    lifecycle, and of the Kafka event notifier those transitions trigger:

    - [app/routes/auth.py]        the identity helpers every handler starts with,
    - [app/services/kafka_service.py]   [KafkaService],
    - [app/services/exercise_service.py] [SubmissionService], [ProgressService]
      and the lookups and listings of [ExerciseService],
    - [app/routes/submissions.py] [evaluate_submission] and the handlers that
      create and read submissions,
    - [app/routes/progress.py]    the two progress listings,
    - [app/routes/quizzes.py]     [submit_answer], [complete_quiz], and
      [get_quiz], [delete_quiz], [start_quiz], [get_submission].

    Python integers are [Z], text is [string] (the code points of a Latin-1
    text), a nullable column is an [option], a table is the list of its rows in storage order, a Python
    [float] is an IEEE binary64 value ([spec_float] at precision 53), and a
    handler is a function from the store to the new store and a result that is
    either a value or the exception raised.

    The file has three parts: the code (modules named after the source files and their classes), the
    vocabulary in which the properties are stated together with the sample
    stores and requests, and the properties with their proofs. *)

From Stdlib Require Import ZArith NArith List String Ascii Bool Lia.
From Stdlib Require Import DecimalString DecimalPos.
From Stdlib Require DecimalFacts QArith.
From Stdlib Require Import Uint63 Floats.
Import ListNotations.

Set Warnings "-register-all".

Local Open Scope string_scope.
Local Open Scope Z_scope.
Local Open Scope list_scope.

(* ================================================================== *)
(** * Python primitives used by the handlers *)
(* ================================================================== *)

Module Py.

(** ** Text: [str.lower], [str.strip], [str.split], [str.startswith], [in]

    A [string] is the sequence of the code points of a Python [str], each
    below 256: the Latin-1 texts, which is what Starlette makes of a header. *)

(** [str.isspace] on one code point: TAB..CR, FS..US, the space, NEL (U+0085)
    and the no-break space (U+00A0). *)
Definition isspace (c : ascii) : bool :=
  let n := N_of_ascii c in
  (((9 <=? n) && (n <=? 13)) || ((28 <=? n) && (n <=? 32))
   || (n =? 133) || (n =? 160))%N.

(** [str.lower] on one code point: A..Z and the capital letters U+00C0..U+00DE
    (the multiplication sign U+00D7 is not one) move 32 places up. *)
Definition lower_char (c : ascii) : ascii :=
  let n := N_of_ascii c in
  if (((65 <=? n) && (n <=? 90))
      || ((192 <=? n) && (n <=? 222) && negb (n =? 215)))%N
  then ascii_of_N (n + 32) else c.

Fixpoint lower (s : string) : string :=
  match s with
  | EmptyString => EmptyString
  | String c s' => String (lower_char c) (lower s')
  end.

Fixpoint lstrip (s : string) : string :=
  match s with
  | EmptyString => EmptyString
  | String c s' => if isspace c then lstrip s' else s
  end.

Fixpoint rstrip (s : string) : string :=
  match s with
  | EmptyString => EmptyString
  | String c s' =>
      match rstrip s' with
      | EmptyString => if isspace c then EmptyString else String c EmptyString
      | r => String c r
      end
  end.

Definition strip (s : string) : string := rstrip (lstrip s).

(** [s.startswith(p)] *)
Definition startswith (s p : string) : bool := String.prefix p s.

(** [sub in s] *)
Fixpoint contains (sub s : string) : bool :=
  String.prefix sub s ||
  match s with
  | EmptyString => false
  | String _ s' => contains sub s'
  end.

(** [s.split(sep)] for a one-character separator. *)
Fixpoint split (sep : ascii) (s : string) : list string :=
  match s with
  | EmptyString => [EmptyString]
  | String c s' =>
      if Ascii.eqb c sep then EmptyString :: split sep s'
      else match split sep s' with
           | h :: t => String c h :: t
           | [] => [String c EmptyString]
           end
  end.

(** ** [int(str)] in base 10: surrounding whitespace, an optional sign,
    digits, single underscores between digits, and no more than
    [sys.get_int_max_str_digits()] digits. [None] is [ValueError]. *)

(** The whitespace [int()] skips around the literal: TAB..CR and the space,
    and U+0085 and U+00A0, which it turns into spaces before it reads a text
    that is not ASCII (FS..US are not skipped here, unlike in [str.strip]). *)
Definition isspace_c (c : ascii) : bool :=
  let n := N_of_ascii c in
  (((9 <=? n) && (n <=? 13)) || (n =? 32) || (n =? 133) || (n =? 160))%N.

Fixpoint skip_spaces (s : string) : string :=
  match s with
  | EmptyString => EmptyString
  | String c s' => if isspace_c c then skip_spaces s' else s
  end.

Fixpoint all_spaces (s : string) : bool :=
  match s with
  | EmptyString => true
  | String c s' => isspace_c c && all_spaces s'
  end.

Definition digit_val (c : ascii) : option Z :=
  let n := N_of_ascii c in
  if ((48 <=? n) && (n <=? 57))%N then Some (Z.of_N n - 48) else None.

Fixpoint parse_digits (s : string) (acc : Z) (after_digit : bool) : option Z :=
  match s with
  | EmptyString => if after_digit then Some acc else None
  | String c s' =>
      if Ascii.eqb c "_"%char then
        if after_digit then parse_digits s' acc false else None
      else match digit_val c with
           | Some d => parse_digits s' (10 * acc + d) true
           | None => if after_digit && all_spaces s then Some acc else None
           end
  end.

(** The default of [sys.get_int_max_str_digits()]; the code never changes it. *)
Definition max_str_digits : Z := 4300.

(** The digits among the digits and underscores a text starts with. *)
Fixpoint count_digits (s : string) : Z :=
  match s with
  | EmptyString => 0
  | String c s' =>
      if Ascii.eqb c "_"%char then count_digits s'
      else match digit_val c with
           | Some _ => 1 + count_digits s'
           | None => 0
           end
  end.

(** The digits after the sign: refused when there are too many of them. *)
Definition parse_literal (s : string) : option Z :=
  if max_str_digits <? count_digits s then None else parse_digits s 0 false.

Definition int_of_str (s : string) : option Z :=
  match skip_spaces s with
  | String "+" r => parse_literal r
  | String "-" r => option_map Z.opp (parse_literal r)
  | t => parse_literal t
  end.

(** ** Exceptions *)

Inductive ValueError : Type :=
| InvalidSessionFormat                      (* ValueError("Invalid session format") *)
| InvalidLiteralForInt (s : string)         (* raised by int(parts[1]) *)
| ExceedsMaxStrDigits (digits : Z)          (* raised by int(parts[1]) *)
| CannotConvertNaN.                         (* raised by int(nan) *)

(** No underscore before the first digit, after the last one or next to
    another one, in the digits and underscores a text starts with. *)
Fixpoint underscores_between_digits (s : string) (after_digit : bool) : bool :=
  match s with
  | EmptyString => after_digit
  | String c s' =>
      if Ascii.eqb c "_"%char then after_digit && underscores_between_digits s' false
      else match digit_val c with
           | Some _ => underscores_between_digits s' true
           | None => after_digit
           end
  end.

(** The [ValueError] of [int(s)] when it raises one: the underscores are
    checked first, then the number of digits, then what follows them. *)
Definition int_error (s : string) : ValueError :=
  let literal :=
    match skip_spaces s with
    | String "+" r => r
    | String "-" r => r
    | t => t
    end in
  if underscores_between_digits literal false && (max_str_digits <? count_digits literal)
  then ExceedsMaxStrDigits (count_digits literal)
  else InvalidLiteralForInt s.

(** The [detail] of an [HTTPException]: a literal, or the f-string
    ["Invalid session: {str(ve)}"] of [get_current_user_payload]. *)
Inductive Detail : Type :=
| Text (s : string)
| InvalidSession (ve : ValueError).

Inductive Exception : Type :=
| HTTPException (status_code : Z) (detail : Detail)
| ZeroDivisionError
| OverflowError
| ValueErr (ve : ValueError)
| TypeError (operator left right : string)  (* an operator not supported between two types *)
| AttributeError (object_type attribute : string)
| KafkaError (msg : string).                (* anything aiokafka raises *)

Inductive Result (A : Type) : Type :=
| Ok (a : A)
| Raise (e : Exception).
Arguments Ok {A} a.
Arguments Raise {A} e.

Definition bind {A B} (r : Result A) (k : A -> Result B) : Result B :=
  match r with
  | Ok a => k a
  | Raise e => Raise e
  end.

(** ** Floating point: [int / int], [float * int], [int(float)] *)

Definition prec : Z := 53.
Definition emax : Z := 1024.
Definition float := spec_float.

(** [float(n)]: the nearest binary64 value, ties to even. *)
Definition float_of_int (n : Z) : Result float :=
  match binary_normalize prec emax n 0 false with
  | S754_infinity _ => Raise OverflowError
  | x => Ok x
  end.

(** [a / b] on two [int]s: the correctly rounded quotient. *)
Definition int_truediv (a b : Z) : Result float :=
  match a, b with
  | _, Z0 => Raise ZeroDivisionError
  | Z0, _ => Ok (S754_zero (b <? 0))
  | _, _ =>
      match SFdiv prec emax
              (S754_finite (a <? 0) (Z.to_pos (Z.abs a)) 0)
              (S754_finite (b <? 0) (Z.to_pos (Z.abs b)) 0) with
      | S754_infinity _ => Raise OverflowError
      | q => Ok q
      end
  end.

(** [x * n] for a [float] x and an [int] n. *)
Definition float_mul_int (x : float) (n : Z) : Result float :=
  bind (float_of_int n) (fun y => Ok (SFmul prec emax x y)).

(** [int(x)]: truncation towards zero. *)
Definition int_of_float (x : float) : Result Z :=
  match x with
  | S754_zero _ => Ok 0
  | S754_infinity _ => Raise OverflowError
  | S754_nan => Raise (ValueErr CannotConvertNaN)
  | S754_finite s m e =>
      let a := if 0 <=? e then Z.shiftl (Zpos m) e else Z.shiftr (Zpos m) (- e) in
      Ok (if s then - a else a)
  end.

End Py.

Import Py.

Declare Scope py_scope.
Delimit Scope py_scope with py.
Notation "x <- c ;; k" := (Py.bind c (fun x => k))
  (at level 61, c at next level, right associativity) : py_scope.

(* ================================================================== *)
(** * JSON payloads ([answer_text], [correct_answer]) *)
(* ================================================================== *)

(** The values [json.loads] yields: [None], a [bool], an [int], a [float], a
    [str] (a text of code points below 256 here), a [list], or a [dict], kept
    as the list of its items in insertion order (the keys of a [dict] differ
    pairwise). *)
Inductive Json : Type :=
| JNull
| JBool (b : bool)
| JInt (n : Z)
| JFloat (x : Py.float)
| JStr (s : string)
| JList (l : list Json)
| JObject (items : list (string * Json)).

Module PyJson.

(** ** Python's [==] *)

(** [int(b)] for a [bool]: [True == 1] and [False == 0]. *)
Definition int_of_bool (b : bool) : Z := if b then 1 else 0.

(** [x == y] on two [float]s: no NaN equals anything, the two zeros are
    equal, and finite values are compared as the numbers they are. *)
Definition float_eq (x y : Py.float) : bool :=
  match x, y with
  | S754_zero _, S754_zero _ => true
  | S754_infinity s, S754_infinity t => Bool.eqb s t
  | S754_finite s m e, S754_finite t n f =>
      Bool.eqb s t
      && (if e <=? f then Z.pos m =? Z.pos n * 2 ^ (f - e)
          else Z.pos m * 2 ^ (e - f) =? Z.pos n)
  | _, _ => false
  end.

(** [x == n] for a [float] and an [int]: the comparison is exact, whatever
    the size of [n]. *)
Definition float_eq_int (x : Py.float) (n : Z) : bool :=
  match x with
  | S754_zero _ => n =? 0
  | S754_finite s m e =>
      let v := if s then Z.neg m else Z.pos m in
      if 0 <=? e then n =? v * 2 ^ e else n * 2 ^ (- e) =? v
  | _ => false
  end.

(** [d.get(k)] on the items of a [dict]. *)
Definition lookup (k : string) (items : list (string * Json)) : option Json :=
  option_map snd (find (fun kv => String.eqb (fst kv) k) items).

(** [x is y] for two values [json.loads] made: its NaN is one object, the
    constant [json.decoder.NaN] (no other value differs from itself). *)
Definition same_object_nan (a b : Json) : bool :=
  match a, b with
  | JFloat S754_nan, JFloat S754_nan => true
  | _, _ => false
  end.

(** [a == b]. [bool] is a subclass of [int] and numbers are compared by
    value, so [True == 1 == 1.0]; a [str] equals only a [str], a [list] only
    a [list] of pairwise equal items, a [dict] only a [dict] with the same
    keys and equal values, whatever the order. Items and values are compared
    with [x is y or x == y], which lets the NaN inside a container equal
    itself. *)
Fixpoint eq (a b : Json) {struct a} : bool :=
  match a, b with
  | JNull, JNull => true
  | JBool x, JBool y => Bool.eqb x y
  | JBool x, JInt n => int_of_bool x =? n
  | JBool x, JFloat y => float_eq_int y (int_of_bool x)
  | JInt n, JBool y => n =? int_of_bool y
  | JInt n, JInt m => n =? m
  | JInt n, JFloat y => float_eq_int y n
  | JFloat x, JBool y => float_eq_int x (int_of_bool y)
  | JFloat x, JInt n => float_eq_int x n
  | JFloat x, JFloat y => float_eq x y
  | JStr s, JStr t => String.eqb s t
  | JList l, JList m =>
      (fix eq_list (l : list Json) (m : list Json) {struct l} : bool :=
         match l, m with
         | [], [] => true
         | x :: l', y :: m' => (same_object_nan x y || eq x y) && eq_list l' m'
         | _, _ => false
         end) l m
  | JObject l, JObject m =>
      Nat.eqb (List.length l) (List.length m)
      && (fix eq_items (l : list (string * Json)) : bool :=
            match l with
            | [] => true
            | (k, v) :: l' =>
                match lookup k m with
                | Some w => same_object_nan v w || eq v w
                | None => false
                end && eq_items l'
            end) l
  | _, _ => false
  end.

(** ** [str] and [repr] *)

(** [str(n)] for an [int]. *)
Definition str_of_int (n : Z) : string :=
  DecimalString.NilZero.string_of_int (Z.to_int n).

(** *** [repr(x)] for a [float]: the shortest decimal text that [float()]
    reads back as [x], the one nearest to [x] if there are several. *)

(** [10 ^ p <= num / den], for any integer p. *)
Definition le_pow10 (p num den : Z) : bool :=
  if 0 <=? p then 10 ^ p * den <=? num else den <=? num * 10 ^ (- p).

(** The largest [p] at or below [start] with [10 ^ p <= num / den]. *)
Fixpoint floor_log10_from (fuel : nat) (start num den : Z) : Z :=
  match fuel with
  | O => start
  | S fuel' =>
      if le_pow10 start num den then start
      else floor_log10_from fuel' (start - 1) num den
  end.

(** The decimal exponent of [num / den]: log2 is within one of the binary
    exponent, and log10(2) is a little below 1234/4096. *)
Definition floor_log10 (num den : Z) : Z :=
  floor_log10_from 8 ((Z.log2 num - Z.log2 den + 1) * 1234 / 4096 + 1) num den.

(** [c * 10 ^ k] without the zeros [c] ends with. *)
Fixpoint drop_zeros (fuel : nat) (c k : Z) : Z * Z :=
  match fuel with
  | O => (c, k)
  | S fuel' =>
      if (c mod 10 =? 0) && negb (c =? 0) then drop_zeros fuel' (c / 10) (k + 1)
      else (c, k)
  end.

(** The two [n]-digit decimals [c * 10 ^ k] next to [vn / den], a value at
    or above [10 ^ p]: one that reads back as the float, if there is one.
    The texts that read back as the float are those between [ln / den] and
    [hn / den], the points halfway to its neighbours, which count when the
    float's own mantissa is even; of two candidates the nearer one is taken,
    the even one when they are equally near. *)
Definition candidate (vn ln hn den : Z) (inclusive : bool) (p : Z) (n : Z)
  : option (Z * Z) :=
  let k := p - n + 1 in
  let up := if 0 <=? k then 1 else 10 ^ (- k) in
  let step := if 0 <=? k then 10 ^ k * den else den in
  let within c :=
    if inclusive then (ln * up <=? c * step) && (c * step <=? hn * up)
    else (ln * up <? c * step) && (c * step <? hn * up) in
  let lo := (vn * up) / step in
  let hi := lo + 1 in
  let below := vn * up - lo * step in
  let above := hi * step - vn * up in
  match within lo, within hi with
  | true, true =>
      Some (if below <? above then lo
            else if above <? below then hi
            else if Z.even lo then lo else hi, k)
  | true, false => Some (lo, k)
  | false, true => Some (hi, k)
  | false, false => None
  end.

(** The first number of digits, from [n] on, with such a candidate; 17
    digits always have one. *)
Fixpoint shortest_from (fuel : nat) (vn ln hn den : Z) (inclusive : bool) (p n : Z)
  : Z * Z :=
  match fuel with
  | O => (0, 0)
  | S fuel' =>
      match candidate vn ln hn den inclusive p n with
      | Some ck => ck
      | None => shortest_from fuel' vn ln hn den inclusive p (n + 1)
      end
  end.

(** The shortest decimal [c * 10 ^ k] that reads back as the binary64 value
    [m * 2 ^ e]. Its lower neighbour is half as far as the upper one when
    [m] is the smallest mantissa of its exponent. Everything is counted in
    quarters of [2 ^ e]. *)
Definition shortest (m : positive) (e : Z) : Z * Z :=
  let narrow := (Z.pos m =? 2 ^ 52) && (-1074 <? e) in
  let below := if narrow then 1 else 2 in
  let scale := if 0 <=? e - 2 then 2 ^ (e - 2) else 1 in
  let den := if 0 <=? e - 2 then 1 else 2 ^ (2 - e) in
  let vn := 4 * Z.pos m * scale in
  let ln := (4 * Z.pos m - below) * scale in
  let hn := (4 * Z.pos m + 2) * scale in
  let '(c, k) := shortest_from 17 vn ln hn den (Z.even (Z.pos m))
                               (floor_log10 vn den) 1 in
  drop_zeros 20 c k.

Fixpoint zeros (n : nat) : string :=
  match n with
  | O => EmptyString
  | S n' => String "0" (zeros n')
  end.

(** [digits] with the decimal point after [point] of them, as [repr] prints a
    float: exponent notation below 1e-4 and from 1e16 on. *)
Definition format (digits : string) (point : Z) : string :=
  let n := Z.of_nat (String.length digits) in
  if (point <=? -4) || (16 <? point) then
    let exponent := point - 1 in
    let mantissa :=
      match digits with
      | String d EmptyString => String d EmptyString
      | String d rest => String d (String "." rest)
      | EmptyString => EmptyString
      end in
    let sign := if exponent <? 0 then "-" else "+" in
    let pad := if Z.abs exponent <? 10 then "0" else "" in
    (mantissa ++ "e" ++ sign ++ pad ++ str_of_int (Z.abs exponent))%string
  else if point <=? 0 then
    ("0." ++ zeros (Z.to_nat (- point)) ++ digits)%string
  else if n <=? point then
    (digits ++ zeros (Z.to_nat (point - n)) ++ ".0")%string
  else
    (String.substring 0 (Z.to_nat point) digits ++ "."
     ++ String.substring (Z.to_nat point) (Z.to_nat (n - point)) digits)%string.

Definition float_repr (x : Py.float) : string :=
  match x with
  | S754_zero s => if s then "-0.0" else "0.0"
  | S754_infinity s => if s then "-inf" else "inf"
  | S754_nan => "nan"
  | S754_finite s m e =>
      let '(c, k) := shortest m e in
      let digits := str_of_int c in
      let sign := if s then "-" else "" in
      (sign ++ format digits (k + Z.of_nat (String.length digits)))%string
  end.

(** *** [repr(s)] for a [str] *)

Definition hex_digit (n : N) : ascii :=
  if (n <? 10)%N then ascii_of_N (48 + n) else ascii_of_N (87 + n).

(** [c.isprintable()] on one code point: the control characters, the
    no-break space and the soft hyphen are not. *)
Definition isprintable (c : ascii) : bool :=
  let n := N_of_ascii c in
  negb ((n <? 32) || ((127 <=? n) && (n <=? 160)) || (n =? 173))%N.

(** One character of [repr(s)] inside the quote [q]. *)
Definition repr_char (q c : ascii) : string :=
  let n := N_of_ascii c in
  if Ascii.eqb c q || Ascii.eqb c "\"%char then String "\"%char (String c EmptyString)
  else if (n =? 9)%N then "\t"
  else if (n =? 10)%N then "\n"
  else if (n =? 13)%N then "\r"
  else if negb (isprintable c) then
    String "\"%char (String "x"%char
      (String (hex_digit (n / 16)) (String (hex_digit (n mod 16)) EmptyString)))
  else String c EmptyString.

Fixpoint repr_chars (q : ascii) (s : string) : string :=
  match s with
  | EmptyString => EmptyString
  | String c s' => (repr_char q c ++ repr_chars q s')%string
  end.

Definition single_quote : ascii := ascii_of_N 39.
Definition double_quote : ascii := ascii_of_N 34.

(** [repr(s)] for a [str]: single quotes, unless the text has a single quote
    and no double quote. *)
Definition repr_str (s : string) : string :=
  let q := if Py.contains (String single_quote EmptyString) s
              && negb (Py.contains (String double_quote EmptyString) s)
           then double_quote else single_quote in
  String q (repr_chars q s ++ String q EmptyString)%string.

Fixpoint repr (a : Json) : string :=
  match a with
  | JNull => "None"
  | JBool true => "True"
  | JBool false => "False"
  | JInt n => str_of_int n
  | JFloat x => float_repr x
  | JStr s => repr_str s
  | JList l =>
      ("[" ++
       (fix items (l : list Json) : string :=
          match l with
          | [] => EmptyString
          | [x] => repr x
          | x :: l' => repr x ++ ", " ++ items l'
          end) l ++ "]")%string
  | JObject l =>
      ("{" ++
       (fix items (l : list (string * Json)) : string :=
          match l with
          | [] => EmptyString
          | [(k, v)] => repr_str k ++ ": " ++ repr v
          | (k, v) :: l' => repr_str k ++ ": " ++ repr v ++ ", " ++ items l'
          end) l ++ "}")%string
  end.

(** [str(a)]: a [str] is itself, everything else prints as its [repr]. *)
Definition str (a : Json) : string :=
  match a with
  | JStr s => s
  | _ => repr a
  end.

End PyJson.

(* ================================================================== *)
(** * app/models/models.py *)
(* ================================================================== *)

(** [datetime] values, as seconds; every [datetime.utcnow()] a function reads
    is an argument of its model. *)
Definition datetime : Type := Z.

Module ExerciseSubmission.
Record t : Type := Build {
  id : Z;
  student_id : Z;
  exercise_id : Z;
  code : string;
  language : string;
  status : string;                  (* draft, submitted, passing, failing *)
  score : option Z;                 (* 0-100 *)
  feedback : option string;
  completed_at : option datetime }.
End ExerciseSubmission.

Module Progress.
Record t : Type := Build {
  id : Z;
  student_id : Z;
  exercise_id : Z;
  status : string;                  (* not_started, in_progress, completed, mastered *)
  attempts : Z;
  best_score : option Z;
  completed_at : option datetime }.
End Progress.

Module Quiz.
Record t : Type := Build {
  id : Z;
  title : string;
  teacher_id : option Z;
  passing_score : option Z }.       (* Percentage; the column is nullable *)
End Quiz.

Module QuizQuestion.
Record t : Type := Build {
  id : Z;
  quiz_id : Z;
  question_type : string;           (* multiple_choice, true_false, short_answer, code *)
  correct_answer : Json;
  points : Z }.
End QuizQuestion.

Module QuizSubmission.
Record t : Type := Build {
  id : Z;
  student_id : Z;
  quiz_id : Z;
  started_at : datetime;
  completed_at : option datetime;
  score : option Z;                 (* 0-100 *)
  passed : bool }.
End QuizSubmission.

Module QuizAnswer.
Record t : Type := Build {
  id : Z;
  submission_id : Z;
  question_id : Z;
  answer_text : Json;
  is_correct : bool;
  points_earned : Z;
  answered_at : datetime }.
End QuizAnswer.

(** The session's view of the store: one list of rows per table. *)
Module Database.
Record t : Type := Build {
  exercise_submissions : list ExerciseSubmission.t;
  progress : list Progress.t;
  quizzes : list Quiz.t;
  quiz_questions : list QuizQuestion.t;
  quiz_submissions : list QuizSubmission.t;
  quiz_answers : list QuizAnswer.t }.
End Database.

Module Query.

(** [query.first()] *)
Definition first {A} (p : A -> bool) (rows : list A) : option A := List.find p rows.

(** [query.all()] *)
Definition all {A} (p : A -> bool) (rows : list A) : list A := List.filter p rows.

(** Attribute assignments on the object [first()] returned, flushed by
    [db.commit()]: the first row the filter selects is rewritten. *)
Fixpoint update_first {A} (p : A -> bool) (f : A -> A) (rows : list A) : list A :=
  match rows with
  | [] => []
  | r :: rows' => if p r then f r :: rows' else r :: update_first p f rows'
  end.

(** [db.delete(obj)] on the object [first()] returned. *)
Fixpoint delete_first {A} (p : A -> bool) (rows : list A) : list A :=
  match rows with
  | [] => []
  | r :: rows' => if p r then rows' else r :: delete_first p rows'
  end.

(** The integer primary key an INSERT assigns, the keys in use given: 1 in
    an empty table, else one more than the largest (which is below the
    largest INTEGER as long as the table is not full). *)
Definition next_id (ids : list Z) : Z :=
  match ids with
  | [] => 1
  | id :: ids' => 1 + fold_right Z.max id ids'
  end.

(** Python's [sum] over integers. *)
Definition sum (l : list Z) : Z := fold_left Z.add l 0.

End Query.

(** What the SQLite driver makes of the integers of a statement. *)
Module Sqlite.

(** An INTEGER holds a signed 64-bit value. *)
Definition fits (n : Z) : bool := (- 2 ^ 63 <=? n) && (n <? 2 ^ 63).

(** Binding the parameters of a statement: [sqlite3] raises [OverflowError]
    ("Python int too large to convert to SQLite INTEGER") when one of them
    does not fit, and the statement is not run. *)
Definition bind (parameters : list Z) : Result unit :=
  if forallb fits parameters then Ok tt else Raise OverflowError.

End Sqlite.

(* ================================================================== *)
(** * app/routes/auth.py *)
(* ================================================================== *)

Module Auth.

(** What the helpers read of a [Request]: [request.url.path] and the
    [X-Session-ID] header. *)
Record Request : Type := {
  url_path : string;
  x_session_id : option string }.

Record Payload : Type := {
  user_id : Z;
  email : string;
  role : string }.

Definition protected_endpoints : list string :=
  [ "/api/auth/me";
    "/api/auth/change-password";
    "/api/auth/me/teacher";
    "/api/quizzes/teacher";
    "/api/quizzes/";
    "/api/analytics/students";
    "/api/analytics/student/";
    "/api/topics/";
    "/api/exercises";
    "/api/exercises/";
    "/api/chat/sessions";
    "/api/chat/messages" ].

Definition skip_auth_endpoints : list string :=
  [ "/api/auth/login"; "/api/auth/login/teacher";
    "/api/auth/register"; "/api/auth/register/teacher" ].

Definition is_protected (path : string) : bool :=
  existsb (Py.startswith path) protected_endpoints
  || existsb (Py.contains "/teacher") [path].

Definition should_skip_auth (path : string) : bool :=
  existsb (Py.startswith path) skip_auth_endpoints.

Definition HTTP_401_UNAUTHORIZED : Z := 401.
Definition HTTP_403_FORBIDDEN : Z := 403.
Definition HTTP_404_NOT_FOUND : Z := 404.
Definition HTTP_500_INTERNAL_SERVER_ERROR : Z := 500.

(** The session format is "ROLE|USERID|EMAIL". *)
Definition parse_session (session_id : string) : Result Payload :=
  match Py.split "|"%char session_id with
  | [role; uid; email] =>
      match Py.int_of_str uid with
      | Some user_id => Ok {| user_id := user_id; email := email; role := role |}
      | None => Raise (ValueErr (Py.int_error uid))
      end
  | _ => Raise (ValueErr InvalidSessionFormat)
  end.

Definition get_current_user_payload (request : Request) : Result Payload :=
  if is_protected (url_path request) && negb (should_skip_auth (url_path request)) then
    match x_session_id request with
    | None | Some EmptyString =>
        Raise (HTTPException HTTP_401_UNAUTHORIZED (Text "Not authenticated"))
    | Some session_id =>
        match parse_session session_id with
        | Ok payload => Ok payload
        | Raise (ValueErr ve) =>
            Raise (HTTPException HTTP_401_UNAUTHORIZED (InvalidSession ve))
        | Raise _ =>
            Raise (HTTPException HTTP_401_UNAUTHORIZED (Text "Invalid authentication"))
        end
    end
  else
    Ok {| user_id := 0; email := ""; role := "anonymous" |}.

Definition get_current_teacher_id (request : Request) : Result Z :=
  (payload <- get_current_user_payload request ;;
   if user_id payload =? 0 then
     Raise (HTTPException HTTP_401_UNAUTHORIZED (Text "Not authenticated"))
   else if negb (String.eqb (role payload) "teacher") then
     Raise (HTTPException HTTP_403_FORBIDDEN (Text "Access denied: Teachers only"))
   else Ok (user_id payload))%py.

End Auth.

Import Auth.

(** A handler's [try: ... except HTTPException: raise; except Exception:
    raise HTTPException(500, detail)]. *)
Definition reraise_as_500 {A} (detail : string) (r : Result A) : Result A :=
  match r with
  | Ok a => Ok a
  | Raise (HTTPException c d) => Raise (HTTPException c d)
  | Raise _ => Raise (HTTPException HTTP_500_INTERNAL_SERVER_ERROR (Text detail))
  end.

(* ================================================================== *)
(** * app/services/kafka_service.py *)
(* ================================================================== *)

Module Kafka.

Inductive Value : Type :=
| VNone
| VInt (n : Z)
| VStr (s : string)
| VTime (t : datetime).             (* datetime.isoformat() *)

Definition Event : Type := list (string * Value).

(** How the broker behaves while one call runs: whether
    [AIOKafkaProducer(...).start()] and [send_and_wait] return or raise. *)
Record Transport : Type := {
  start_succeeds : bool;
  send_succeeds : bool }.

Definition unreachable : Transport :=
  {| start_succeeds := false; send_succeeds := false |}.

(** A started producer, bound to [settings.kafka_bootstrap_servers]. *)
Inductive AIOKafkaProducer : Type :=
| Producer (bootstrap_servers : string).

Definition kafka_bootstrap_servers : string := "localhost:9092".

(** The class attributes of [KafkaService]. *)
Record KafkaService : Type := {
  _producer : option AIOKafkaProducer;
  _is_disabled : bool }.

Definition initial : KafkaService :=
  {| _producer := None; _is_disabled := false |}.

Inductive Level : Type := DEBUG | INFO | WARNING | ERROR.

(** What a call does to the outside world, in order. *)
Inductive Effect : Type :=
| Connect (ok : bool)                                  (* producer.start() *)
| Send (topic : string) (key : option string) (event : Event) (ok : bool)
| Stop                                                 (* producer.stop() *)
| Log (level : Level).

Definition start (net : Transport) : Result AIOKafkaProducer :=
  if start_succeeds net then Ok (Producer kafka_bootstrap_servers)
  else Raise (KafkaError "KafkaConnectionError").

Definition send_and_wait (net : Transport) : Result unit :=
  if send_succeeds net then Ok tt else Raise (KafkaError "KafkaTimeoutError").

Definition get_producer (net : Transport) (cls : KafkaService)
  : KafkaService * list Effect * Result (option AIOKafkaProducer) :=
  if _is_disabled cls then (cls, [], Ok None)
  else
    match _producer cls with
    | None =>
        match start net with
        | Ok p =>
            ({| _producer := Some p; _is_disabled := _is_disabled cls |},
             [Connect true; Log INFO], Ok (Some p))
        | Raise _ =>
            ({| _producer := None; _is_disabled := true |},
             [Connect false; Log WARNING], Ok None)
        end
    | Some p => (cls, [], Ok (Some p))
    end.

Definition close_producer (cls : KafkaService) : KafkaService * list Effect :=
  match _producer cls with
  | Some _ =>
      ({| _producer := None; _is_disabled := _is_disabled cls |}, [Stop; Log INFO])
  | None => (cls, [])
  end.

Definition publish_event (net : Transport) (topic : string) (event : Event)
           (key : option string) (cls : KafkaService)
  : KafkaService * list Effect * Result unit :=
  let '(cls', fx, got) := get_producer net cls in
  let body : list Effect * Result unit :=
    match got with
    | Raise e => ([], Raise e)
    | Ok None => ([Log DEBUG], Ok tt)
    | Ok (Some producer) =>
        (* key.encode('utf-8') if key else None *)
        let key := match key with Some EmptyString => None | k => k end in
        match send_and_wait net with
        | Ok _ => ([Send topic key event true; Log DEBUG], Ok tt)
        | Raise e => ([Send topic key event false], Raise e)
        end
    end in
  match body with
  | (fx', Ok _) => (cls', fx ++ fx', Ok tt)
  | (fx', Raise _) => (cls', fx ++ fx' ++ [Log ERROR], Ok tt)   (* except Exception *)
  end.

Definition publish_submission_event (net : Transport) (now : datetime)
           (student_id exercise_id submission_id : Z) (status : string)
           (cls : KafkaService) :=
  let event : Event :=
    [ ("event_type", VStr "submission");
      ("student_id", VInt student_id);
      ("exercise_id", VInt exercise_id);
      ("submission_id", VInt submission_id);
      ("status", VStr status);
      ("timestamp", VTime now) ] in
  publish_event net "exercise-submissions" event
                (Some (PyJson.str_of_int submission_id)) cls.

Definition publish_progress_event (net : Transport) (now : datetime)
           (student_id exercise_id : Z) (status : string) (score : option Z)
           (cls : KafkaService) :=
  let event : Event :=
    [ ("event_type", VStr "progress_update");
      ("student_id", VInt student_id);
      ("exercise_id", VInt exercise_id);
      ("status", VStr status);
      ("score", match score with Some n => VInt n | None => VNone end);
      ("timestamp", VTime now) ] in
  publish_event net "progress-updates" event
                (Some (PyJson.str_of_int student_id ++ ":"
                       ++ PyJson.str_of_int exercise_id)%string) cls.

End Kafka.

(* ================================================================== *)
(** * app/services/exercise_service.py *)
(* ================================================================== *)

(** What [db.commit()] leaves behind when a session rewrote one table. *)
Module Store.

Import Database.

Definition set_exercise_submissions (db : Database.t) (rows : list ExerciseSubmission.t) :=
  {| exercise_submissions := rows;
     progress := progress db;
     quizzes := quizzes db;
     quiz_questions := quiz_questions db;
     quiz_submissions := quiz_submissions db;
     quiz_answers := quiz_answers db |}.

Definition set_progress (db : Database.t) (rows : list Progress.t) :=
  {| exercise_submissions := exercise_submissions db;
     progress := rows;
     quizzes := quizzes db;
     quiz_questions := quiz_questions db;
     quiz_submissions := quiz_submissions db;
     quiz_answers := quiz_answers db |}.

Definition set_quiz_submissions (db : Database.t) (rows : list QuizSubmission.t) :=
  {| exercise_submissions := exercise_submissions db;
     progress := progress db;
     quizzes := quizzes db;
     quiz_questions := quiz_questions db;
     quiz_submissions := rows;
     quiz_answers := quiz_answers db |}.

Definition set_quiz_answers (db : Database.t) (rows : list QuizAnswer.t) :=
  {| exercise_submissions := exercise_submissions db;
     progress := progress db;
     quizzes := quizzes db;
     quiz_questions := quiz_questions db;
     quiz_submissions := quiz_submissions db;
     quiz_answers := rows |}.

End Store.

Import Store.

Module SubmissionService.

Import ExerciseSubmission.

Definition by_id (submission_id : Z) (s : ExerciseSubmission.t) : bool :=
  id s =? submission_id.

Definition get_submission (db : Database.t) (submission_id : Z)
  : option ExerciseSubmission.t :=
  Query.first (by_id submission_id) (Database.exercise_submissions db).

Definition update_submission_status (now : datetime) (db : Database.t)
           (submission_id : Z) (status : string)
           (score : option Z) (feedback : option string)
  : Database.t * option ExerciseSubmission.t :=
  match Query.first (by_id submission_id) (Database.exercise_submissions db) with
  | None => (db, None)
  | Some submission =>
      let submission' :=
        {| id := id submission;
           student_id := student_id submission;
           exercise_id := exercise_id submission;
           code := code submission;
           language := language submission;
           status := status;
           score := match score with
                    | Some n => Some n
                    | None => ExerciseSubmission.score submission
                    end;
           feedback := match feedback with
                       | Some f => Some f
                       | None => ExerciseSubmission.feedback submission
                       end;
           completed_at := if String.eqb status "passing" then Some now
                           else completed_at submission |} in
      (set_exercise_submissions db
         (Query.update_first (by_id submission_id) (fun _ => submission')
                             (Database.exercise_submissions db)),
       Some submission')
  end.

End SubmissionService.

Module ProgressService.

Import Progress.

Definition for_pair (student exercise : Z) (p : Progress.t) : bool :=
  (student_id p =? student) && (exercise_id p =? exercise).

Definition create_progress (db : Database.t) (student exercise : Z)
  : Database.t * Progress.t :=
  let progress :=
    {| id := Query.next_id (map id (Database.progress db));
       student_id := student;
       exercise_id := exercise;
       status := "in_progress";
       attempts := 0;
       best_score := None;
       completed_at := None |} in
  (set_progress db (Database.progress db ++ [progress]), progress).

Definition update_progress (now : datetime) (db : Database.t)
           (student exercise : Z) (status : string) (score : option Z)
  : Database.t * Progress.t :=
  let '(db1, progress) :=
    match Query.first (for_pair student exercise) (Database.progress db) with
    | Some progress => (db, progress)
    | None => create_progress db student exercise
    end in
  let progress' :=
    {| id := id progress;
       student_id := student_id progress;
       exercise_id := exercise_id progress;
       status := status;
       attempts := attempts progress + 1;
       best_score :=
         match score with
         | Some s =>
             match best_score progress with
             | None => Some s
             | Some best => if best <? s then Some s else Some best
             end
         | None => best_score progress
         end;
       completed_at := if String.eqb status "completed" then Some now
                       else completed_at progress |} in
  (set_progress db1
     (Query.update_first (for_pair student exercise) (fun _ => progress')
                         (Database.progress db1)),
   progress').

End ProgressService.

(* ================================================================== *)
(** * app/routes/submissions.py *)
(* ================================================================== *)

Record World : Type := {
  db : Database.t;
  kafka : Kafka.KafkaService }.

Module Submissions.

Import Kafka.

(** The clock readings and broker behaviour one request meets, in the order
    the handler consumes them. *)
Record Env : Type := {
  now_submission : datetime;
  now_progress : datetime;
  now_submission_event : datetime;
  now_progress_event : datetime;
  net_submission_event : Transport;
  net_progress_event : Transport }.

Record Response : Type := {
  message : string;
  submission : option ExerciseSubmission.t }.

(** PUT /api/submissions/{submission_id}/evaluate *)
Definition evaluate_path (submission_id : Z) : string :=
  ("/api/submissions/" ++ PyJson.str_of_int submission_id ++ "/evaluate")%string.

(** Inside [evaluate_submission] the name [status] is the handler's [str]
    parameter, which hides the [fastapi.status] module: [status.HTTP_...] is
    an attribute lookup on a string. *)
Definition status_attribute (attribute : string) : Result Z :=
  Raise (AttributeError "str" attribute).

(** [raise HTTPException(status_code=status.<attribute>, detail=...)] *)
Definition raise_http {A} (attribute detail : string) : Result A :=
  (status_code <- status_attribute attribute ;;
   Raise (HTTPException status_code (Text detail)))%py.

(** The handler's [except HTTPException: raise] and [except Exception: raise
    HTTPException(status.HTTP_500_INTERNAL_SERVER_ERROR, ...)]. *)
Definition handle {A} (r : Result A) : Result A :=
  match r with
  | Ok a => Ok a
  | Raise (HTTPException c d) => Raise (HTTPException c d)
  | Raise _ => raise_http "HTTP_500_INTERNAL_SERVER_ERROR" "Failed to evaluate submission"
  end.

Definition evaluate_submission (env : Env) (submission_id : Z) (status : string)
           (request : Request) (score : option Z) (feedback : option string)
           (w : World) : World * list Effect * Result Response :=
  match get_current_teacher_id request with
  | Raise e => (w, [], handle (Raise e))
  | Ok current_teacher_id =>
      match SubmissionService.get_submission (db w) submission_id with
      | None =>
          (w, [], handle (raise_http "HTTP_404_NOT_FOUND" "Submission not found"))
      | Some submission =>
          let '(db1, updated_submission) :=
            SubmissionService.update_submission_status
              (now_submission env) (db w) submission_id status score feedback in
          let '(db2, _) :=
            ProgressService.update_progress
              (now_progress env) db1
              (ExerciseSubmission.student_id submission)
              (ExerciseSubmission.exercise_id submission) status score in
          let '(k1, fx1, r1) :=
            publish_submission_event
              (net_submission_event env) (now_submission_event env)
              (ExerciseSubmission.student_id submission)
              (ExerciseSubmission.exercise_id submission)
              submission_id status (kafka w) in
          match r1 with
          | Raise e => ({| db := db2; kafka := k1 |}, fx1, handle (Raise e))
          | Ok _ =>
              let '(k2, fx2, r2) :=
                publish_progress_event
                  (net_progress_event env) (now_progress_event env)
                  (ExerciseSubmission.student_id submission)
                  (ExerciseSubmission.exercise_id submission)
                  status score k1 in
              match r2 with
              | Raise e => ({| db := db2; kafka := k2 |}, fx1 ++ fx2, handle (Raise e))
              | Ok _ =>
                  ({| db := db2; kafka := k2 |}, fx1 ++ fx2,
                   Ok {| message := "Submission evaluated";
                         submission := updated_submission |})
              end
          end
      end
  end.

End Submissions.

(* ================================================================== *)
(** * app/routes/quizzes.py *)
(* ================================================================== *)

Module Quizzes.

Record QuizAnswerCreate : Type := {
  question_id : Z;
  answer_text : Json }.

Definition submission_of (submission_id current_user_id : Z)
           (s : QuizSubmission.t) : bool :=
  (QuizSubmission.id s =? submission_id)
  && (QuizSubmission.student_id s =? current_user_id).

Definition question_of (question quiz_id : Z) (q : QuizQuestion.t) : bool :=
  (QuizQuestion.id q =? question) && (QuizQuestion.quiz_id q =? quiz_id).

Definition answer_of (submission_id question : Z) (a : QuizAnswer.t) : bool :=
  (QuizAnswer.submission_id a =? submission_id)
  && (QuizAnswer.question_id a =? question).

(** "Determine if answer is correct": [is_correct] of [submit_answer]. *)
Definition is_correct (question : QuizQuestion.t) (answer_text : Json) : bool :=
  if String.eqb (QuizQuestion.question_type question) "multiple_choice" then
    PyJson.eq answer_text (QuizQuestion.correct_answer question)
  else if String.eqb (QuizQuestion.question_type question) "true_false" then
    PyJson.eq answer_text (QuizQuestion.correct_answer question)
  else if String.eqb (QuizQuestion.question_type question) "short_answer" then
    String.eqb (Py.strip (Py.lower (PyJson.str answer_text)))
               (Py.strip (Py.lower (PyJson.str (QuizQuestion.correct_answer question))))
  else false.

Definition points_earned (question : QuizQuestion.t) (answer_text : Json) : Z :=
  if is_correct question answer_text then QuizQuestion.points question else 0.

(** POST /api/quizzes/{quiz_id}/submissions/{submission_id}/answer *)
Definition submit_answer (now : datetime) (quiz_id submission_id : Z)
           (answer : QuizAnswerCreate) (request : Request) (db : Database.t)
  : Database.t * Result QuizAnswer.t :=
  match get_current_user_payload request with
  | Raise e => (db, reraise_as_500 "Failed to submit answer" (Raise e))
  | Ok current_user =>
      if negb (String.eqb (role current_user) "student") then
        (db, Raise (HTTPException HTTP_403_FORBIDDEN
                      (Text "Only students can submit answers")))
      else
        match Sqlite.bind [submission_id; user_id current_user] with
        | Raise e => (db, reraise_as_500 "Failed to submit answer" (Raise e))
        | Ok _ =>
        match Query.first (submission_of submission_id (user_id current_user))
                          (Database.quiz_submissions db) with
        | None =>
            (db, Raise (HTTPException HTTP_404_NOT_FOUND
                 (Text "Submission not found or does not belong to current student")))
        | Some submission =>
            match Sqlite.bind [question_id answer; quiz_id] with
            | Raise e => (db, reraise_as_500 "Failed to submit answer" (Raise e))
            | Ok _ =>
            match Query.first (question_of (question_id answer) quiz_id)
                              (Database.quiz_questions db) with
            | None =>
                (db, Raise (HTTPException HTTP_404_NOT_FOUND (Text "Question not found")))
            | Some question =>
                let existing_answer :=
                  Query.first (answer_of submission_id (question_id answer))
                              (Database.quiz_answers db) in
                let kept :=
                  match existing_answer with
                  | Some _ =>
                      Query.delete_first (answer_of submission_id (question_id answer))
                                         (Database.quiz_answers db)
                  | None => Database.quiz_answers db
                  end in
                let db_answer :=
                  {| QuizAnswer.id :=
                       Query.next_id (map QuizAnswer.id (Database.quiz_answers db));
                     QuizAnswer.submission_id := submission_id;
                     QuizAnswer.question_id := question_id answer;
                     QuizAnswer.answer_text := answer_text answer;
                     QuizAnswer.is_correct := is_correct question (answer_text answer);
                     QuizAnswer.points_earned :=
                       points_earned question (answer_text answer);
                     QuizAnswer.answered_at := now |} in
                (set_quiz_answers db (kept ++ [db_answer]), Ok db_answer)
            end
            end
        end
        end
  end.

(** [score = int((total_points / max_score) * 100)] *)
Definition score_of (total_points max_score : Z) : Result Z :=
  (q <- Py.int_truediv total_points max_score ;;
   x <- Py.float_mul_int q 100 ;;
   Py.int_of_float x)%py.

Definition total_points (db : Database.t) (submission_id : Z) : Z :=
  Query.sum (map QuizAnswer.points_earned
                 (Query.all (fun a => QuizAnswer.submission_id a =? submission_id)
                            (Database.quiz_answers db))).

(** [sum(p[0] for p in max_points) or 1] *)
Definition max_score (db : Database.t) (quiz_id : Z) : Z :=
  let s := Query.sum (map QuizQuestion.points
                          (Query.all (fun q => QuizQuestion.quiz_id q =? quiz_id)
                                     (Database.quiz_questions db))) in
  if s =? 0 then 1 else s.

(** [score >= quiz.passing_score]: a NULL pass mark is [None], which an
    [int] cannot be compared with. *)
Definition passed_of (score : Z) (passing_score : option Z) : Result bool :=
  match passing_score with
  | Some threshold => Ok (threshold <=? score)
  | None => Raise (TypeError ">=" "int" "NoneType")
  end.

(** POST /api/quizzes/{quiz_id}/submissions/{submission_id}/complete *)
Definition complete_quiz (now : datetime) (quiz_id submission_id : Z)
           (request : Request) (db : Database.t)
  : Database.t * Result QuizSubmission.t :=
  match get_current_user_payload request with
  | Raise e => (db, reraise_as_500 "Failed to complete quiz" (Raise e))
  | Ok current_user =>
      if negb (String.eqb (role current_user) "student") then
        (db, Raise (HTTPException HTTP_403_FORBIDDEN
                      (Text "Only students can complete quizzes")))
      else
        match Sqlite.bind [submission_id; user_id current_user] with
        | Raise e => (db, reraise_as_500 "Failed to complete quiz" (Raise e))
        | Ok _ =>
        match Query.first (submission_of submission_id (user_id current_user))
                          (Database.quiz_submissions db) with
        | None =>
            (db, Raise (HTTPException HTTP_404_NOT_FOUND
                 (Text "Submission not found or does not belong to current student")))
        | Some submission =>
            match Sqlite.bind [quiz_id] with
            | Raise e => (db, reraise_as_500 "Failed to complete quiz" (Raise e))
            | Ok _ =>
            match Query.first (fun q => Quiz.id q =? quiz_id) (Database.quizzes db) with
            | None =>
                (db, Raise (HTTPException HTTP_404_NOT_FOUND (Text "Quiz not found")))
            | Some quiz =>
                match score_of (total_points db submission_id)
                               (max_score db quiz_id) with
                | Raise e =>
                    (* except Exception: db.rollback() *)
                    (db, reraise_as_500 "Failed to complete quiz" (Raise e))
                | Ok score =>
                    match passed_of score (Quiz.passing_score quiz) with
                    | Raise e => (db, reraise_as_500 "Failed to complete quiz" (Raise e))
                    | Ok passed =>
                        let submission' :=
                          {| QuizSubmission.id := QuizSubmission.id submission;
                             QuizSubmission.student_id :=
                               QuizSubmission.student_id submission;
                             QuizSubmission.quiz_id := QuizSubmission.quiz_id submission;
                             QuizSubmission.started_at :=
                               QuizSubmission.started_at submission;
                             QuizSubmission.completed_at := Some now;
                             QuizSubmission.score := Some score;
                             QuizSubmission.passed := passed |} in
                        (* db.commit() binds the score of the UPDATE *)
                        match Sqlite.bind [score] with
                        | Raise e =>
                            (db, reraise_as_500 "Failed to complete quiz" (Raise e))
                        | Ok _ =>
                            (set_quiz_submissions db
                               (Query.update_first
                                  (submission_of submission_id (user_id current_user))
                                  (fun _ => submission') (Database.quiz_submissions db)),
                             Ok submission')
                        end
                    end
                end
            end
            end
        end
        end
  end.

End Quizzes.

(* ================================================================== *)
(** * app/routes/auth.py: the dependencies built on the payload *)
(* ================================================================== *)

Module AuthDependencies.

Definition get_current_user_id (request : Request) : Result Z :=
  (payload <- get_current_user_payload request ;;
   if user_id payload =? 0 then
     Raise (HTTPException HTTP_401_UNAUTHORIZED (Text "Not authenticated"))
   else Ok (user_id payload))%py.

Definition get_current_user_role (request : Request) : Result string :=
  (payload <- get_current_user_payload request ;;
   if negb (existsb (String.eqb (role payload)) ["student"; "teacher"]) then
     Raise (HTTPException HTTP_401_UNAUTHORIZED (Text "Invalid user role"))
   else Ok (role payload))%py.

End AuthDependencies.

(* ================================================================== *)
(** * app/services/kafka_service.py: chat messages *)
(* ================================================================== *)

Module KafkaChat.

Import Kafka.

Definition publish_chat_message (net : Transport) (now : datetime)
           (session_id student_id : Z) (role content : string)
           (cls : KafkaService) :=
  let event : Event :=
    [ ("event_type", VStr "chat_message");
      ("session_id", VInt session_id);
      ("student_id", VInt student_id);
      ("role", VStr role);
      ("content", VStr content);
      ("timestamp", VTime now) ] in
  publish_event net "chat-messages" event (Some (PyJson.str_of_int session_id)) cls.

End KafkaChat.

(* ================================================================== *)
(** * app/models/models.py: the tables the handlers below only read *)
(* ================================================================== *)

Module Student.
Record t : Type := Build {
  id : Z;
  email : string;
  name : string;
  is_active : bool }.
End Student.

Module Exercise.
Record t : Type := Build {
  id : Z;
  title : string;
  difficulty_level : string;        (* easy, medium, hard *)
  topic : string }.
End Exercise.

Module Directory.
Record t : Type := Build {
  students : list Student.t;
  exercises : list Exercise.t }.
End Directory.

(** [query.offset(skip).limit(limit)] on SQLite, the database of
    [settings.database_url]: a negative OFFSET counts as 0 and a negative
    LIMIT as no limit. *)
Module Page.

Definition offset {A} (skip : Z) (rows : list A) : list A :=
  skipn (Z.to_nat skip) rows.

Definition limit {A} (n : Z) (rows : list A) : list A :=
  if n <? 0 then rows else firstn (Z.to_nat n) rows.

End Page.

(* ================================================================== *)
(** * app/services/exercise_service.py: lookups, listings and statistics *)
(* ================================================================== *)

Module ExerciseService.

Definition get_exercise (dir : Directory.t) (exercise_id : Z) : option Exercise.t :=
  Query.first (fun e => Exercise.id e =? exercise_id) (Directory.exercises dir).




End ExerciseService.

Module SubmissionListing.

Import ExerciseSubmission.

Definition create_submission (db : Database.t) (student_id exercise_id : Z)
           (code language : string) : Database.t * ExerciseSubmission.t :=
  let submission :=
    {| id := Query.next_id (map id (Database.exercise_submissions db));
       student_id := student_id;
       exercise_id := exercise_id;
       code := code;
       language := language;
       status := "submitted";
       score := None;
       feedback := None;
       completed_at := None |} in
  (set_exercise_submissions db (Database.exercise_submissions db ++ [submission]),
   submission).

Definition get_student_submissions (db : Database.t) (student skip limit : Z)
  : list ExerciseSubmission.t :=
  Page.limit limit
    (Page.offset skip
       (Query.all (fun s => student_id s =? student) (Database.exercise_submissions db))).

Definition get_exercise_submissions (db : Database.t) (exercise skip limit : Z)
  : list ExerciseSubmission.t :=
  Page.limit limit
    (Page.offset skip
       (Query.all (fun s => exercise_id s =? exercise) (Database.exercise_submissions db))).

End SubmissionListing.

Module ProgressStats.

Import Progress.

Definition get_student_progress (db : Database.t) (student skip limit : Z)
  : list Progress.t :=
  Page.limit limit
    (Page.offset skip
       (Query.all (fun p => student_id p =? student) (Database.progress db))).

(** The value of ["average_score"]: the [int] 0 of the [else] branch, or
    the [float] the division gives. *)
Inductive Number : Type :=
| Int (n : Z)
| Float (x : Py.float).

Record Stats : Type := {
  total_exercises : Z;
  completed_exercises : Z;
  mastered_exercises : Z;
  average_score : Number;
  total_attempts : Z }.

Definition get_student_stats (db : Database.t) (student : Z) : Result Stats :=
  let rows := Database.progress db in
  let total :=
    Z.of_nat (List.length (Query.all (fun p => student_id p =? student) rows)) in
  let completed :=
    Z.of_nat (List.length
                (Query.all (fun p => (student_id p =? student)
                                     && String.eqb (status p) "completed") rows)) in
  let mastered :=
    Z.of_nat (List.length
                (Query.all (fun p => (student_id p =? student)
                                     && String.eqb (status p) "mastered") rows)) in
  let avg_score_query :=
    Query.all (fun p => (student_id p =? student)
                        && match best_score p with Some _ => true | None => false end)
              rows in
  (avg_score <-
     match avg_score_query with
     | [] => Ok (Int 0)
     | _ :: _ =>
         q <- Py.int_truediv
                (Query.sum (map (fun p => match best_score p with
                                          | Some b => b
                                          | None => 0       (* filtered out above *)
                                          end) avg_score_query))
                (Z.of_nat (List.length avg_score_query)) ;;
         Ok (Float q)
     end ;;
   Ok {| total_exercises := total;
         completed_exercises := completed;
         mastered_exercises := mastered;
         average_score := avg_score;
         total_attempts :=
           Query.sum (map attempts
                          (Query.all (fun p => student_id p =? student) rows)) |})%py.

End ProgressStats.

(* ================================================================== *)
(** * app/routes/submissions.py: creating and reading submissions *)
(* ================================================================== *)

(** FastAPI checks [skip >= 0] and [1 <= limit <= 1000] before it calls a
    listing handler; the handlers below are the bodies it then runs. *)
Module SubmissionRoutes.

Import Kafka.

Record SubmissionCreate : Type := {
  student_id : Z;
  exercise_id : Z;
  code : string;
  language : string }.

(** POST /api/submissions/ *)
Definition create_path : string := "/api/submissions/".


(** GET /api/submissions/student/{student_id} *)
Definition student_path (student : Z) : string :=
  ("/api/submissions/student/" ++ PyJson.str_of_int student)%string.

(** GET /api/submissions/exercise/{exercise_id} *)
Definition exercise_path (exercise : Z) : string :=
  ("/api/submissions/exercise/" ++ PyJson.str_of_int exercise)%string.

Definition create_submission (net : Transport) (now_event : datetime)
           (submission : SubmissionCreate) (request : Request)
           (dir : Directory.t) (w : World)
  : World * list Effect * Result ExerciseSubmission.t :=
  match get_current_user_payload request with
  | Raise e => (w, [], reraise_as_500 "Failed to create submission" (Raise e))
  | Ok current_user =>
      if negb (String.eqb (role current_user) "student") then
        (w, [], Raise (HTTPException HTTP_403_FORBIDDEN
                         (Text "Only students can submit code")))
      else if negb (student_id submission =? user_id current_user) then
        (w, [], Raise (HTTPException HTTP_403_FORBIDDEN
                         (Text "Cannot submit code for another student")))
      else
        match ExerciseService.get_exercise dir (exercise_id submission) with
        | None =>
            (w, [], Raise (HTTPException HTTP_404_NOT_FOUND (Text "Exercise not found")))
        | Some exercise =>
            let '(db1, db_submission) :=
              SubmissionListing.create_submission
                (db w) (student_id submission) (exercise_id submission)
                (code submission) (language submission) in
            let '(k1, fx, r) :=
              publish_submission_event
                net now_event (student_id submission) (exercise_id submission)
                (ExerciseSubmission.id db_submission) "submitted" (kafka w) in
            match r with
            | Raise e =>
                ({| db := db1; kafka := k1 |}, fx,
                 reraise_as_500 "Failed to create submission" (Raise e))
            | Ok _ => ({| db := db1; kafka := k1 |}, fx, Ok db_submission)
            end
        end
  end.

Definition get_submission (submission_id : Z) (request : Request) (db : Database.t)
  : Result ExerciseSubmission.t :=
  match get_current_user_payload request with
  | Raise e => reraise_as_500 "Failed to get submission" (Raise e)
  | Ok current_user =>
      match SubmissionService.get_submission db submission_id with
      | None => Raise (HTTPException HTTP_404_NOT_FOUND (Text "Submission not found"))
      | Some submission =>
          if String.eqb (role current_user) "student"
             && negb (ExerciseSubmission.student_id submission =? user_id current_user)
          then Raise (HTTPException HTTP_403_FORBIDDEN
                        (Text "Access denied: Cannot access other students' submissions"))
          else Ok submission
      end
  end.

Definition get_student_submissions (student : Z) (request : Request) (skip limit : Z)
           (db : Database.t) : Result (list ExerciseSubmission.t) :=
  match get_current_user_payload request with
  | Raise e => reraise_as_500 "Failed to get student submissions" (Raise e)
  | Ok current_user =>
      if String.eqb (role current_user) "student"
         && negb (user_id current_user =? student)
      then Raise (HTTPException HTTP_403_FORBIDDEN
                    (Text "Access denied: Cannot access other students' submissions"))
      else Ok (SubmissionListing.get_student_submissions db student skip limit)
  end.

Definition get_exercise_submissions (exercise : Z) (request : Request) (skip limit : Z)
           (db : Database.t) : Result (list ExerciseSubmission.t) :=
  match get_current_user_payload request with
  | Raise e => reraise_as_500 "Failed to get exercise submissions" (Raise e)
  | Ok current_user =>
      if negb (String.eqb (role current_user) "teacher") then
        Raise (HTTPException HTTP_403_FORBIDDEN
                 (Text "Access denied: Only teachers can access all submissions for an exercise"))
      else Ok (SubmissionListing.get_exercise_submissions db exercise skip limit)
  end.

End SubmissionRoutes.

(* ================================================================== *)
(** * app/routes/progress.py *)
(* ================================================================== *)

Module ProgressRoutes.

(** GET /api/progress/{student_id} *)
Definition student_path (student : Z) : string :=
  ("/api/progress/" ++ PyJson.str_of_int student)%string.

(** GET /api/progress/exercise/{exercise_id} *)
Definition exercise_path (exercise : Z) : string :=
  ("/api/progress/exercise/" ++ PyJson.str_of_int exercise)%string.

Definition get_student_progress (student : Z) (request : Request) (skip limit : Z)
           (db : Database.t) : Result (list Progress.t) :=
  match get_current_user_payload request with
  | Raise e => reraise_as_500 "Error fetching progress" (Raise e)
  | Ok current_user =>
      if String.eqb (role current_user) "student"
         && negb (user_id current_user =? student)
      then Raise (HTTPException HTTP_403_FORBIDDEN
                    (Text "Access denied: Cannot access other students' progress"))
      else
        match Page.limit limit
                (Page.offset skip
                   (Query.all (fun p => Progress.student_id p =? student)
                              (Database.progress db))) with
        | [] =>
            Raise (HTTPException HTTP_404_NOT_FOUND
                     (Text ("No progress found for student "
                            ++ PyJson.str_of_int student)))
        | progress => Ok progress
        end
  end.


End ProgressRoutes.

(* ================================================================== *)
(** * app/routes/quizzes.py: reading, starting and deleting *)
(* ================================================================== *)

Module QuizRoutes.

(** GET /api/quizzes/{quiz_id} *)
Definition get_quiz (request : Request) (quiz_id : Z) (db : Database.t)
  : Result Quiz.t :=
  match get_current_user_payload request with
  | Raise e => reraise_as_500 "Failed to fetch quiz" (Raise e)
  | Ok current_user =>
      if user_id current_user =? 0 then
        Raise (HTTPException HTTP_401_UNAUTHORIZED (Text "Not authenticated"))
      else
        match Sqlite.bind [quiz_id] with
        | Raise e => reraise_as_500 "Failed to fetch quiz" (Raise e)
        | Ok _ =>
        match Query.first (fun q => Quiz.id q =? quiz_id) (Database.quizzes db) with
        | None => Raise (HTTPException HTTP_404_NOT_FOUND (Text "Quiz not found"))
        | Some quiz => Ok quiz
        end
        end
  end.

(** What [db.delete(db_quiz)] removes: the quiz, and through the
    [cascade="all, delete-orphan"] relationships of the models its questions
    and submissions and the answers of either. *)
Definition delete_cascade (quiz_id : Z) (db : Database.t) : Database.t :=
  let questions :=
    Query.all (fun q => QuizQuestion.quiz_id q =? quiz_id) (Database.quiz_questions db) in
  let submissions :=
    Query.all (fun s => QuizSubmission.quiz_id s =? quiz_id)
              (Database.quiz_submissions db) in
  {| Database.exercise_submissions := Database.exercise_submissions db;
     Database.progress := Database.progress db;
     Database.quizzes :=
       Query.delete_first (fun q => Quiz.id q =? quiz_id) (Database.quizzes db);
     Database.quiz_questions :=
       filter (fun q => negb (QuizQuestion.quiz_id q =? quiz_id))
              (Database.quiz_questions db);
     Database.quiz_submissions :=
       filter (fun s => negb (QuizSubmission.quiz_id s =? quiz_id))
              (Database.quiz_submissions db);
     Database.quiz_answers :=
       filter (fun a =>
                 negb (existsb (fun q => QuizQuestion.id q =? QuizAnswer.question_id a)
                               questions
                       || existsb (fun s => QuizSubmission.id s
                                            =? QuizAnswer.submission_id a)
                                  submissions))
              (Database.quiz_answers db) |}.

(** DELETE /api/quizzes/{quiz_id}; [get_current_teacher_id] is a dependency,
    resolved before the handler's [try]. *)
Definition delete_quiz (quiz_id : Z) (request : Request) (db : Database.t)
  : Database.t * Result unit :=
  match get_current_teacher_id request with
  | Raise e => (db, Raise e)
  | Ok current_teacher_id =>
      match Sqlite.bind [quiz_id] with
      | Raise e => (db, reraise_as_500 "Failed to delete quiz" (Raise e))
      | Ok _ =>
      match Query.first (fun q => Quiz.id q =? quiz_id) (Database.quizzes db) with
      | None => (db, Raise (HTTPException HTTP_404_NOT_FOUND (Text "Quiz not found")))
      | Some db_quiz =>
          if match Quiz.teacher_id db_quiz with
             | Some owner => negb (owner =? current_teacher_id)
             | None => true
             end
          then (db, Raise (HTTPException HTTP_403_FORBIDDEN
                  (Text "Access denied: You can only delete your own quizzes")))
          else (delete_cascade quiz_id db, Ok tt)
      end
      end
  end.

(** POST /api/quizzes/{quiz_id}/start *)
Definition start_quiz (now : datetime) (quiz_id : Z) (request : Request)
           (dir : Directory.t) (db : Database.t)
  : Database.t * Result QuizSubmission.t :=
  match get_current_user_payload request with
  | Raise e => (db, reraise_as_500 "Failed to start quiz" (Raise e))
  | Ok current_user =>
      if negb (String.eqb (role current_user) "student") then
        (db, Raise (HTTPException HTTP_403_FORBIDDEN
                      (Text "Only students can start quizzes")))
      else
        match Sqlite.bind [quiz_id] with
        | Raise e => (db, reraise_as_500 "Failed to start quiz" (Raise e))
        | Ok _ =>
        match Query.first (fun q => Quiz.id q =? quiz_id) (Database.quizzes db) with
        | None => (db, Raise (HTTPException HTTP_404_NOT_FOUND (Text "Quiz not found")))
        | Some quiz =>
            match Sqlite.bind [user_id current_user] with
            | Raise e => (db, reraise_as_500 "Failed to start quiz" (Raise e))
            | Ok _ =>
            match Query.first (fun s => Student.id s =? user_id current_user)
                              (Directory.students dir) with
            | None =>
                (db, Raise (HTTPException HTTP_404_NOT_FOUND (Text "Student not found")))
            | Some student =>
                let submission :=
                  {| QuizSubmission.id :=
                       Query.next_id (map QuizSubmission.id (Database.quiz_submissions db));
                     QuizSubmission.student_id := user_id current_user;
                     QuizSubmission.quiz_id := quiz_id;
                     QuizSubmission.started_at := now;
                     QuizSubmission.completed_at := None;
                     QuizSubmission.score := None;
                     QuizSubmission.passed := false |} in
                (set_quiz_submissions db (Database.quiz_submissions db ++ [submission]),
                 Ok submission)
            end
            end
        end
        end
  end.

(** GET /api/quizzes/{quiz_id}/submissions/{submission_id} *)
Definition get_submission (quiz_id submission_id : Z) (request : Request)
           (db : Database.t) : Result QuizSubmission.t :=
  match get_current_user_payload request with
  | Raise e => reraise_as_500 "Failed to fetch submission" (Raise e)
  | Ok current_user =>
      let found (submission : option QuizSubmission.t) : Result QuizSubmission.t :=
        match submission with
        | None => Raise (HTTPException HTTP_404_NOT_FOUND (Text "Submission not found"))
        | Some s => Ok s
        end in
      if String.eqb (role current_user) "student" then
        match Sqlite.bind [submission_id; quiz_id; user_id current_user] with
        | Raise e => reraise_as_500 "Failed to fetch submission" (Raise e)
        | Ok _ =>
            found (Query.first
                     (fun s => (QuizSubmission.id s =? submission_id)
                               && (QuizSubmission.quiz_id s =? quiz_id)
                               && (QuizSubmission.student_id s =? user_id current_user))
                     (Database.quiz_submissions db))
        end
      else if String.eqb (role current_user) "teacher" then
        match Sqlite.bind [quiz_id; user_id current_user] with
        | Raise e => reraise_as_500 "Failed to fetch submission" (Raise e)
        | Ok _ =>
        match Query.first
                (fun q => (Quiz.id q =? quiz_id)
                          && match Quiz.teacher_id q with
                             | Some owner => owner =? user_id current_user
                             | None => false
                             end)
                (Database.quizzes db) with
        | None =>
            Raise (HTTPException HTTP_403_FORBIDDEN
                     (Text "Access denied: You can only access submissions for your quizzes"))
        | Some quiz =>
            match Sqlite.bind [submission_id; quiz_id] with
            | Raise e => reraise_as_500 "Failed to fetch submission" (Raise e)
            | Ok _ =>
                found (Query.first
                         (fun s => (QuizSubmission.id s =? submission_id)
                                   && (QuizSubmission.quiz_id s =? quiz_id))
                         (Database.quiz_submissions db))
            end
        end
        end
      else Raise (HTTPException HTTP_403_FORBIDDEN (Text "Access denied"))
  end.

End QuizRoutes.

(* ================================================================== *)
(** * Vocabulary of the properties *)
(* ================================================================== *)

(** Runs of calls, traces and the quantities the properties below speak of.
    Nothing here is code of the application. *)

Module ProgressSpec.

Import Progress ProgressService.

(** A call of [update_progress] and a run of calls on one store, each with
    the time it reads. *)
Record Call : Type := {
  call_now : datetime;
  call_student : Z;
  call_exercise : Z;
  call_status : string;
  call_score : option Z }.

Definition apply (db : Database.t) (c : Call) : Database.t :=
  fst (update_progress (call_now c) db (call_student c) (call_exercise c)
                       (call_status c) (call_score c)).

Definition run (db : Database.t) (calls : list Call) : Database.t :=
  fold_left apply calls db.

Definition lookup (db : Database.t) (student exercise : Z) : option Progress.t :=
  Query.first (for_pair student exercise) (Database.progress db).

(** The largest score among those given, [None] when none was. *)
Definition opt_max (a b : option Z) : option Z :=
  match a, b with
  | None, x => x
  | x, None => x
  | Some x, Some y => Some (Z.max x y)
  end.

Definition max_of_scores (scores : list (option Z)) : option Z :=
  fold_left opt_max scores None.

(** [None] below every score, scores by [<=]. *)
Definition opt_le (a b : option Z) : Prop :=
  match a, b with
  | None, _ => True
  | Some _, None => False
  | Some x, Some y => x <= y
  end.

Definition for_call (student exercise : Z) (c : Call) : bool :=
  (call_student c =? student) && (call_exercise c =? exercise).

(** What one call makes of the row it found (or of the fresh row). *)
Definition bump (now : datetime) (status : string) (score : option Z)
           (p : Progress.t) : Progress.t :=
  {| id := id p;
     student_id := student_id p;
     exercise_id := exercise_id p;
     status := status;
     attempts := attempts p + 1;
     best_score := opt_max (best_score p) score;
     completed_at := if String.eqb status "completed" then Some now
                     else completed_at p |}.

End ProgressSpec.

Module KafkaSpec.

Import Kafka.

(** The operations the rest of the application performs on the class. *)
Inductive Op : Type :=
| OpPublish (net : Transport) (topic : string) (event : Event) (key : option string)
| OpClose.

Definition step (cls : KafkaService) (op : Op) : KafkaService * list Effect :=
  match op with
  | OpPublish net topic event key =>
      let '(cls', fx, _) := publish_event net topic event key cls in (cls', fx)
  | OpClose => close_producer cls
  end.

(** A run of the process: the state after the operations and all effects. *)
Fixpoint run (cls : KafkaService) (ops : list Op) : KafkaService * list Effect :=
  match ops with
  | [] => (cls, [])
  | op :: ops' =>
      let '(cls1, fx1) := step cls op in
      let '(cls2, fx2) := run cls1 ops' in
      (cls2, fx1 ++ fx2)
  end.

Definition is_connect (e : Effect) : bool :=
  match e with Connect _ => true | _ => false end.

Definition is_send (e : Effect) : bool :=
  match e with Send _ _ _ _ => true | _ => false end.

Definition connection_attempts (fx : list Effect) : nat :=
  List.length (List.filter is_connect fx).

Definition is_publish (op : Op) : bool :=
  match op with OpPublish _ _ _ _ => true | OpClose => false end.

(** A transport error reached the call: [start] or [send_and_wait] raised. *)
Definition transport_failed (e : Effect) : bool :=
  match e with
  | Connect false | Send _ _ _ false => true
  | _ => false
  end.

Definition logged_failure (e : Effect) : bool :=
  match e with
  | Log WARNING | Log ERROR => true
  | _ => false
  end.

Definition disabled : KafkaService := {| _producer := None; _is_disabled := true |}.

End KafkaSpec.

Module SubmissionSpec.

Import Kafka Submissions.

(** The status code the client sees: an [HTTPException] carries its own, any
    other exception that leaves a handler is answered by the server with 500. *)
Definition response_status {A} (r : Result A) : Z :=
  match r with
  | Ok _ => 200
  | Raise (HTTPException status_code _) => status_code
  | Raise _ => 500
  end.

(** The same request environment under another broker behaviour. *)
Definition with_transport (env : Env) (n1 n2 : Transport) : Env :=
  {| now_submission := now_submission env;
     now_progress := now_progress env;
     now_submission_event := now_submission_event env;
     now_progress_event := now_progress_event env;
     net_submission_event := n1;
     net_progress_event := n2 |}.

(** The store and the response the handler produces, with the broker and
    the notifier's state left out: they have no say in either. *)
Definition outcome (env : Env) (submission_id : Z) (status : string)
           (request : Request) (score : option Z) (feedback : option string)
           (d : Database.t) : Database.t * Result Response :=
  match get_current_teacher_id request with
  | Raise e => (d, handle (Raise e))
  | Ok _ =>
      match SubmissionService.get_submission d submission_id with
      | None =>
          (d, handle (raise_http "HTTP_404_NOT_FOUND" "Submission not found"))
      | Some submission =>
          let step1 :=
            SubmissionService.update_submission_status
              (now_submission env) d submission_id status score feedback in
          (fst (ProgressService.update_progress
                  (now_progress env) (fst step1)
                  (ExerciseSubmission.student_id submission)
                  (ExerciseSubmission.exercise_id submission) status score),
           Ok {| message := "Submission evaluated"; submission := snd step1 |})
      end
  end.

End SubmissionSpec.

Module ScoringSpec.

Import Quizzes.

(** The row [complete_quiz] writes for a submission and a score. *)
Definition completed (now : datetime) (submission : QuizSubmission.t)
           (score : Z) (passed : bool) : QuizSubmission.t :=
  {| QuizSubmission.id := QuizSubmission.id submission;
     QuizSubmission.student_id := QuizSubmission.student_id submission;
     QuizSubmission.quiz_id := QuizSubmission.quiz_id submission;
     QuizSubmission.started_at := QuizSubmission.started_at submission;
     QuizSubmission.completed_at := Some now;
     QuizSubmission.score := Some score;
     QuizSubmission.passed := passed |}.

(** The mathematical percentage, rounded down. *)
Definition floor_percentage (earned max : Z) : Z := 100 * earned / max.

End ScoringSpec.

Module AnswerSpec.

Import Quizzes.

(** The QuizAnswer rows of a (submission, question) pair. *)
Definition rows_for (db : Database.t) (submission question : Z) : list QuizAnswer.t :=
  Query.all (answer_of submission question) (Database.quiz_answers db).

(** One of several [submit_answer] calls for a fixed pair: the clock, the
    quiz id of the path, the payload and the request may all differ. *)
Record Resubmission : Type := {
  at_time : datetime;
  path_quiz_id : Z;
  payload : Json;
  sent_as : Request }.

Definition resubmit_once (db : Database.t) (submission question : Z) (c : Resubmission)
  : Database.t * Result QuizAnswer.t :=
  submit_answer (at_time c) (path_quiz_id c) submission
                {| question_id := question; answer_text := payload c |}
                (sent_as c) db.

Fixpoint resubmit (db : Database.t) (submission question : Z) (calls : list Resubmission)
  : Database.t * list (Resubmission * Result QuizAnswer.t) :=
  match calls with
  | [] => (db, [])
  | c :: calls' =>
      let '(db1, r) := resubmit_once db submission question c in
      let '(db2, trace) := resubmit db1 submission question calls' in
      (db2, (c, r) :: trace)
  end.

(** The last call that succeeded, with the row it returned. *)
Fixpoint last_ok (trace : list (Resubmission * Result QuizAnswer.t))
  : option (Resubmission * QuizAnswer.t) :=
  match trace with
  | [] => None
  | (c, r) :: trace' =>
      match last_ok trace' with
      | Some found => Some found
      | None => match r with Ok a => Some (c, a) | Raise _ => None end
      end
  end.

(** The row a successful call builds: every field comes from the call, the
    question it names and the clock. *)
Definition graded (db : Database.t) (submission question : Z) (c : Resubmission)
           (a : QuizAnswer.t) : Prop :=
  QuizAnswer.submission_id a = submission
  /\ QuizAnswer.question_id a = question
  /\ QuizAnswer.answer_text a = payload c
  /\ QuizAnswer.answered_at a = at_time c
  /\ exists q,
       Query.first (question_of question (path_quiz_id c)) (Database.quiz_questions db)
       = Some q
       /\ QuizAnswer.is_correct a = is_correct q (payload c)
       /\ QuizAnswer.points_earned a = points_earned q (payload c).

End AnswerSpec.

Module GradingSpec.

(** ** Equal values *)

(** The number a [bool], an [int] or a [float] is. *)
Inductive Number : Type :=
| Finite (q : QArith_base.Q)
| Infinite (negative : bool)
| NaN.







(** ** Equal texts *)










End GradingSpec.

Module SessionSpec.

(** A session header in the format the parser documents, "ROLE|USERID|EMAIL". *)
Definition session_header (role : string) (user_id : Z) (email : string) : string :=
  (role ++ "|" ++ PyJson.str_of_int user_id ++ "|" ++ email)%string.

(** [sep.join(parts)] *)
Fixpoint join (sep : string) (parts : list string) : string :=
  match parts with
  | [] => EmptyString
  | [p] => p
  | p :: parts' => (p ++ sep ++ join sep parts')%string
  end.

(** The paths on which [get_current_user_payload] reads the header. *)
Definition guarded (path : string) : bool :=
  is_protected path && negb (should_skip_auth path).

(** The payload of every other path. *)
Definition anonymous : Payload :=
  {| user_id := 0; email := ""; role := "anonymous" |}.

Definition with_header (path : string) (header : option string) : Request :=
  {| url_path := path; x_session_id := header |}.

End SessionSpec.

Module NotifierSpec.

Import Kafka.

(** The notifier holds a started producer and is not switched off. *)
Definition connected (cls : KafkaService) : bool :=
  negb (_is_disabled cls)
  && match _producer cls with Some _ => true | None => false end.

(** The messages handed to the broker, in order. *)
Definition sends (fx : list Effect) : list Effect := filter KafkaSpec.is_send fx.

(** The shutdowns among the operations of a run. *)
Definition closes (ops : list KafkaSpec.Op) : nat :=
  List.length (filter (fun op => negb (KafkaSpec.is_publish op)) ops).

End NotifierSpec.

Module ListingSpec.


End ListingSpec.

Module IntegritySpec.

(** Every answer belongs to a stored submission (the foreign key of
    [quiz_answers.submission_id]). *)
Definition answers_have_submissions (db : Database.t) : Prop :=
  forall a, In a (Database.quiz_answers db) ->
            exists s, In s (Database.quiz_submissions db)
                      /\ QuizSubmission.id s = QuizAnswer.submission_id a.

(** At most one progress row per (student, exercise). *)
Definition one_progress_row_per_pair (db : Database.t) : Prop :=
  forall student exercise,
    (List.length (filter (ProgressService.for_pair student exercise)
                         (Database.progress db)) <= 1)%nat.

End IntegritySpec.

(* ================================================================== *)
(** * Concrete stores and requests used in examples *)
(* ================================================================== *)

Module Examples.

Definition empty : Database.t :=
  {| Database.exercise_submissions := [];
     Database.progress := [];
     Database.quizzes := [];
     Database.quiz_questions := [];
     Database.quiz_submissions := [];
     Database.quiz_answers := [] |}.

(** A call of [update_progress] for student 1 on exercise 5. *)
Definition call (now : datetime) (status : string) (score : option Z)
  : ProgressSpec.Call :=
  {| ProgressSpec.call_now := now;
     ProgressSpec.call_student := 1;
     ProgressSpec.call_exercise := 5;
     ProgressSpec.call_status := status;
     ProgressSpec.call_score := score |}.

(** Scenarios C and D: completed with 80, then completed with 60. *)
Definition scenario_C_D : list ProgressSpec.Call :=
  [ call 1000 "completed" (Some 80); call 2000 "completed" (Some 60) ].

Definition failing_retry : ProgressSpec.Call := call 3000 "failing" (Some 10).

Definition healthy : Kafka.Transport :=
  {| Kafka.start_succeeds := true; Kafka.send_succeeds := true |}.

Definition publish (net : Kafka.Transport) : KafkaSpec.Op :=
  KafkaSpec.OpPublish net "progress-updates" [("event_type", Kafka.VStr "progress_update")]
                  (Some "1:5").

(** The broker comes back after the failed attempt; the process keeps
    publishing and finally shuts down. *)
Definition after_outage : list KafkaSpec.Op :=
  [ publish healthy; publish healthy; KafkaSpec.OpClose; publish healthy ].

Definition three_publishes : list KafkaSpec.Op :=
  [ publish healthy; publish Kafka.unreachable; publish healthy ].

(** Student 1's submission 7 for exercise 5, awaiting evaluation. *)
Definition submission_7 : ExerciseSubmission.t :=
  {| ExerciseSubmission.id := 7;
     ExerciseSubmission.student_id := 1;
     ExerciseSubmission.exercise_id := 5;
     ExerciseSubmission.code := "print('hello')";
     ExerciseSubmission.language := "python";
     ExerciseSubmission.status := "submitted";
     ExerciseSubmission.score := None;
     ExerciseSubmission.feedback := None;
     ExerciseSubmission.completed_at := None |}.

Definition one_submission : Database.t :=
  Store.set_exercise_submissions empty [submission_7].

(** A request environment in which the broker is unreachable. *)
Definition outage : Submissions.Env :=
  {| Submissions.now_submission := 100;
     Submissions.now_progress := 101;
     Submissions.now_submission_event := 102;
     Submissions.now_progress_event := 103;
     Submissions.net_submission_event := Kafka.unreachable;
     Submissions.net_progress_event := Kafka.unreachable |}.

(** PUT /api/submissions/{id}/evaluate sent with a teacher's session. *)
Definition evaluate_request (submission_id : Z) : Request :=
  {| url_path := Submissions.evaluate_path submission_id;
     x_session_id := Some "teacher|1|teacher@example.com" |}.

(** Quiz 1: two questions worth 29 and 21 points, pass mark 58.
    Quiz 2: one question worth 20 points, pass mark 70. *)
Definition quiz_1 : Quiz.t :=
  {| Quiz.id := 1; Quiz.title := "Loops";
     Quiz.teacher_id := Some 2; Quiz.passing_score := Some 58 |}.

Definition quiz_2 : Quiz.t :=
  {| Quiz.id := 2; Quiz.title := "Functions";
     Quiz.teacher_id := Some 2; Quiz.passing_score := Some 70 |}.

Definition question_11 : QuizQuestion.t :=
  {| QuizQuestion.id := 11; QuizQuestion.quiz_id := 1;
     QuizQuestion.question_type := "multiple_choice";
     QuizQuestion.correct_answer := JStr "A"; QuizQuestion.points := 29 |}.

Definition question_12 : QuizQuestion.t :=
  {| QuizQuestion.id := 12; QuizQuestion.quiz_id := 1;
     QuizQuestion.question_type := "short_answer";
     QuizQuestion.correct_answer := JStr "while"; QuizQuestion.points := 21 |}.

Definition question_21 : QuizQuestion.t :=
  {| QuizQuestion.id := 21; QuizQuestion.quiz_id := 2;
     QuizQuestion.question_type := "code";
     QuizQuestion.correct_answer := JStr "def f(): pass"; QuizQuestion.points := 20 |}.

(** Student 3's submission 10, started against quiz 1. *)
Definition submission_10 : QuizSubmission.t :=
  {| QuizSubmission.id := 10; QuizSubmission.student_id := 3;
     QuizSubmission.quiz_id := 1; QuizSubmission.started_at := 50;
     QuizSubmission.completed_at := None; QuizSubmission.score := None;
     QuizSubmission.passed := false |}.

Definition started : Database.t :=
  {| Database.exercise_submissions := [];
     Database.progress := [];
     Database.quizzes := [quiz_1; quiz_2];
     Database.quiz_questions := [question_11; question_12; question_21];
     Database.quiz_submissions := [submission_10];
     Database.quiz_answers := [] |}.

(** POST /api/quizzes/{quiz}/submissions/10/{answer,complete} by student 3. *)
Definition student_request (quiz : Z) (action : string) : Request :=
  {| url_path := ("/api/quizzes/" ++ PyJson.str_of_int quiz
                  ++ "/submissions/10/" ++ action)%string;
     x_session_id := Some "student|3|student@example.com" |}.

Definition answer (question : Z) (text : Json) : Quizzes.QuizAnswerCreate :=
  {| Quizzes.question_id := question; Quizzes.answer_text := text |}.

(** Question 11 answered correctly, question 12 wrongly. *)
Definition answered : Database.t :=
  fst (Quizzes.submit_answer 61 1 10 (answer 12 (JStr "for"))
         (student_request 1 "answer")
         (fst (Quizzes.submit_answer 60 1 10 (answer 11 (JStr "A"))
                 (student_request 1 "answer") started))).

(** Student 3 answers question 11 of quiz 1 on submission 10. *)
Definition resubmission (now : datetime) (text : Json) (request : Request)
  : AnswerSpec.Resubmission :=
  {| AnswerSpec.at_time := now;
     AnswerSpec.path_quiz_id := 1;
     AnswerSpec.payload := text;
     AnswerSpec.sent_as := request |}.

(** A wrong answer, an attempt sent with a teacher's session (refused), then
    the right answer. *)
Definition three_tries : list AnswerSpec.Resubmission :=
  [ resubmission 61 (JStr "B") (student_request 1 "answer");
    resubmission 62 (JStr "C")
        {| url_path := "/api/quizzes/1/submissions/10/answer";
           x_session_id := Some "teacher|2|teacher@example.com" |};
    resubmission 63 (JStr "A") (student_request 1 "answer") ].

(** Quiz 1 with fifty one-point questions 101..150 instead, the first 29 of
    them answered correctly on submission 10 and the others wrongly. *)
Definition fifty_questions : Database.t :=
  {| Database.exercise_submissions := [];
     Database.progress := [];
     Database.quizzes := [quiz_1];
     Database.quiz_questions :=
       map (fun n =>
              {| QuizQuestion.id := 100 + Z.of_nat n; QuizQuestion.quiz_id := 1;
                 QuizQuestion.question_type := "true_false";
                 QuizQuestion.correct_answer := JBool true;
                 QuizQuestion.points := 1 |})
           (seq 1 50);
     Database.quiz_submissions := [submission_10];
     Database.quiz_answers :=
       map (fun n =>
              {| QuizAnswer.id := Z.of_nat n; QuizAnswer.submission_id := 10;
                 QuizAnswer.question_id := 100 + Z.of_nat n;
                 QuizAnswer.answer_text := JBool (Nat.leb n 29);
                 QuizAnswer.is_correct := Nat.leb n 29;
                 QuizAnswer.points_earned := if Nat.leb n 29 then 1 else 0;
                 QuizAnswer.answered_at := 60 + Z.of_nat n |})
           (seq 1 50) |}.

(** Submission 10 with one answer that earned 2^62 points, and quiz 2. *)
Definition huge_points : Database.t :=
  {| Database.exercise_submissions := [];
     Database.progress := [];
     Database.quizzes := [quiz_2];
     Database.quiz_questions := [question_21];
     Database.quiz_submissions := [submission_10];
     Database.quiz_answers :=
       [ {| QuizAnswer.id := 1; QuizAnswer.submission_id := 10;
            QuizAnswer.question_id := 21;
            QuizAnswer.answer_text := JStr "def f(): pass";
            QuizAnswer.is_correct := true;
            QuizAnswer.points_earned := 2 ^ 62;
            QuizAnswer.answered_at := 60 |} ] |}.

(** The store [started] after a teacher has set the pass mark of quiz 1 to
    null through [update_quiz]. *)
Definition no_pass_mark : Database.t :=
  {| Database.exercise_submissions := [];
     Database.progress := [];
     Database.quizzes :=
       [ {| Quiz.id := 1; Quiz.title := "Loops";
            Quiz.teacher_id := Some 2; Quiz.passing_score := None |}; quiz_2 ];
     Database.quiz_questions := [question_11; question_12; question_21];
     Database.quiz_submissions := [submission_10];
     Database.quiz_answers := [] |}.

(** A text of [n] digits 1. *)
Fixpoint ones (n : nat) : string :=
  match n with
  | O => EmptyString
  | S n' => String "1" (ones n')
  end.

End Examples.

Module Samples.

(** Student 3 and exercise 5, the rows the examples above refer to. *)
Definition school : Directory.t :=
  {| Directory.students :=
       [ {| Student.id := 3; Student.email := "student@example.com";
            Student.name := "Sam"; Student.is_active := true |} ];
     Directory.exercises :=
       [ {| Exercise.id := 5; Exercise.title := "Sum of a list";
            Exercise.difficulty_level := "easy"; Exercise.topic := "loops" |} ] |}.

(** A request of student 3, of student 4 and of teacher 2 (the owner of
    quizzes 1 and 2) on a path under /api/quizzes/. *)
Definition as_student_3 (path : string) : Request :=
  SessionSpec.with_header path (Some "student|3|student@example.com").

Definition as_student_4 (path : string) : Request :=
  SessionSpec.with_header path (Some "student|4|other@example.com").

Definition as_teacher_2 (path : string) : Request :=
  SessionSpec.with_header path (Some "teacher|2|teacher@example.com").

End Samples.

(* ================================================================== *)
(** * Rows and queries: general facts *)
(* ================================================================== *)

Section QueryFacts.

Context {A : Type}.
Variables (p q : A -> bool).

Lemma first_update_first (r' : A) (rows : list A) (r : A) :
  p r' = true ->
  Query.first p rows = Some r ->
  Query.first p (Query.update_first p (fun _ => r') rows) = Some r'.
Proof.
  intros Hr'. induction rows as [|x rows IH]; simpl; [discriminate|].
  destruct (p x) eqn:Hx; simpl.
  - now rewrite Hr'.
  - rewrite Hx. exact IH.
Qed.

Lemma first_app_fresh (rows : list A) (x : A) :
  Query.first p rows = None ->
  p x = true ->
  Query.first p (rows ++ [x]) = Some x.
Proof.
  induction rows as [|y rows IH]; simpl; intros Hnone Hx.
  - now rewrite Hx.
  - destruct (p y); [discriminate|]. now apply IH.
Qed.

Lemma update_first_app_fresh (f : A -> A) (rows : list A) (x : A) :
  Query.first p rows = None ->
  p x = true ->
  Query.update_first p f (rows ++ [x]) = rows ++ [f x].
Proof.
  induction rows as [|y rows IH]; simpl; intros Hnone Hx.
  - now rewrite Hx.
  - destruct (p y); [discriminate|]. f_equal. now apply IH.
Qed.

(** Rewriting a row one filter selects is invisible to a disjoint filter. *)
Lemma first_update_first_frame (r' : A) (rows : list A) :
  (forall r, p r = true -> q r = false) ->
  q r' = false ->
  Query.first q (Query.update_first p (fun _ => r') rows) = Query.first q rows.
Proof.
  intros Hdisj Hr'. induction rows as [|x rows IH]; simpl; [reflexivity|].
  destruct (p x) eqn:Hx; simpl.
  - rewrite Hr', (Hdisj x Hx). reflexivity.
  - destruct (q x); [reflexivity | exact IH].
Qed.

Lemma first_app_frame (rows : list A) (x : A) :
  q x = false ->
  Query.first q (rows ++ [x]) = Query.first q rows.
Proof.
  intros Hx. induction rows as [|y rows IH]; simpl.
  - now rewrite Hx.
  - destruct (q y); [reflexivity | exact IH].
Qed.

Lemma first_Some_holds (rows : list A) (r : A) :
  Query.first p rows = Some r -> p r = true.
Proof. intros H. apply (find_some _ _ H). Qed.

End QueryFacts.

(* ================================================================== *)
(** * The Progress Tracker *)
(* ================================================================== *)

Module ProgressFacts.

Import Progress ProgressService ProgressSpec.

Lemma best_score_update (best score : option Z) :
  match score with
  | Some s =>
      match best with
      | None => Some s
      | Some b => if b <? s then Some s else Some b
      end
  | None => best
  end = opt_max best score.
Proof.
  destruct score as [s|], best as [b|]; simpl; try reflexivity.
  destruct (Z.ltb_spec b s); f_equal; lia.
Qed.

Lemma for_pair_eq (s e : Z) (p : Progress.t) :
  for_pair s e p = true -> student_id p = s /\ exercise_id p = e.
Proof.
  unfold for_pair. intros H. apply andb_prop in H as [H1 H2].
  split; now apply Z.eqb_eq.
Qed.

(** [update_progress] as a lookup followed by [bump]. *)
Lemma update_progress_found now db s e status score p :
  lookup db s e = Some p ->
  update_progress now db s e status score =
    (set_progress db
       (Query.update_first (for_pair s e) (fun _ => bump now status score p)
                           (Database.progress db)),
     bump now status score p).
Proof.
  unfold lookup, update_progress. intros ->.
  unfold bump. now rewrite best_score_update.
Qed.

Lemma update_progress_absent now db s e status score :
  lookup db s e = None ->
  let fresh := snd (create_progress db s e) in
  update_progress now db s e status score =
    (set_progress db (Database.progress db ++ [bump now status score fresh]),
     bump now status score fresh).
Proof.
  unfold lookup, update_progress. intros H. rewrite H. simpl.
  rewrite update_first_app_fresh; [| exact H | unfold for_pair; simpl; now rewrite !Z.eqb_refl].
  unfold bump, set_progress; simpl. now destruct score.
Qed.

(** The row the call returns is the row the store then holds. *)
Lemma update_progress_stored now db s e status score :
  lookup (fst (update_progress now db s e status score)) s e
  = Some (snd (update_progress now db s e status score)).
Proof.
  destruct (lookup db s e) as [p|] eqn:Hp.
  - rewrite (update_progress_found _ _ _ _ _ _ _ Hp). unfold lookup; simpl.
    apply first_update_first with (r := p); [|exact Hp].
    apply first_Some_holds in Hp. exact Hp.
  - rewrite (update_progress_absent _ _ _ _ _ _ Hp). unfold lookup; simpl.
    apply first_app_fresh; [exact Hp|].
    unfold for_pair; simpl. now rewrite !Z.eqb_refl.
Qed.

(** A call for another pair leaves this pair's row as it was. *)
Lemma update_progress_frame now db s' e' status score s e :
  (s' =? s) && (e' =? e) = false ->
  lookup (fst (update_progress now db s' e' status score)) s e = lookup db s e.
Proof.
  intros Hne.
  assert (Hdisj : forall r, for_pair s' e' r = true -> for_pair s e r = false).
  { intros r Hr. apply for_pair_eq in Hr as [Hs He]. unfold for_pair.
    now rewrite Hs, He. }
  destruct (lookup db s' e') as [p|] eqn:Hp.
  - rewrite (update_progress_found _ _ _ _ _ _ _ Hp). unfold lookup; simpl.
    apply first_update_first_frame; [exact Hdisj|].
    apply Hdisj. unfold bump, for_pair; simpl.
    apply first_Some_holds in Hp. exact Hp.
  - rewrite (update_progress_absent _ _ _ _ _ _ Hp). unfold lookup; simpl.
    apply first_app_frame. unfold for_pair; simpl. exact Hne.
Qed.

(** One call seen from the pair [(s, e)]. *)
Lemma apply_lookup db c s e :
  lookup (apply db c) s e =
    if for_call s e c then
      Some (bump (call_now c) (call_status c) (call_score c)
                 (match lookup db s e with
                  | Some p => p
                  | None => snd (create_progress db s e)
                  end))
    else lookup db s e.
Proof.
  unfold apply, for_call.
  destruct ((call_student c =? s) && (call_exercise c =? e)) eqn:Hc.
  - apply andb_prop in Hc as [Hs He].
    apply Z.eqb_eq in Hs, He. rewrite Hs, He.
    rewrite update_progress_stored.
    destruct (lookup db s e) as [p|] eqn:Hp.
    + now rewrite (update_progress_found _ _ _ _ _ _ _ Hp).
    + now rewrite (update_progress_absent _ _ _ _ _ _ Hp).
  - now apply update_progress_frame.
Qed.

Lemma progress_run_cons db c calls : run db (c :: calls) = run (apply db c) calls.
Proof. reflexivity. Qed.

Lemma progress_run_snoc db calls c : run db (calls ++ [c]) = apply (run db calls) c.
Proof. unfold run. now rewrite fold_left_app. Qed.

(** A run seen from a pair whose row exists: every call for the pair adds
    one attempt and folds its score into the best. *)
Lemma run_lookup_present s e calls :
  forall db p,
    lookup db s e = Some p ->
    exists p',
      lookup (run db calls) s e = Some p'
      /\ attempts p' = attempts p
                       + Z.of_nat (List.length (filter (for_call s e) calls))
      /\ best_score p' =
           fold_left opt_max (map call_score (filter (for_call s e) calls))
                     (best_score p).
Proof.
  induction calls as [|c calls IH]; intros db p Hp.
  - exists p. simpl. repeat split; [exact Hp | lia].
  - rewrite progress_run_cons.
    pose proof (apply_lookup db c s e) as Hstep. rewrite Hp in Hstep.
    cbn [filter]. destruct (for_call s e c) eqn:Hc.
    + destruct (IH _ _ Hstep) as (p' & H1 & H2 & H3).
      exists p'. repeat split; [exact H1 | |].
      * rewrite H2. cbn [bump attempts List.length]. lia.
      * rewrite H3. reflexivity.
    + apply (IH _ _ Hstep).
Qed.

Lemma run_lookup_absent s e calls :
  forall db,
    lookup db s e = None ->
    match filter (for_call s e) calls with
    | [] => lookup (run db calls) s e = None
    | _ :: _ =>
        exists p,
          lookup (run db calls) s e = Some p
          /\ attempts p = Z.of_nat (List.length (filter (for_call s e) calls))
          /\ best_score p
             = max_of_scores (map call_score (filter (for_call s e) calls))
    end.
Proof.
  induction calls as [|c calls IH]; intros db Hp; [exact Hp|].
  rewrite progress_run_cons.
  pose proof (apply_lookup db c s e) as Hstep. rewrite Hp in Hstep.
  cbn [filter]. destruct (for_call s e c) eqn:Hc.
  - destruct (run_lookup_present s e calls _ _ Hstep) as (p' & H1 & H2 & H3).
    exists p'. repeat split; [exact H1 | |].
    + rewrite H2. cbn [bump attempts create_progress snd List.length]. lia.
    + rewrite H3. reflexivity.
  - apply (IH _ Hstep).
Qed.

Lemma opt_le_max (a b : option Z) : opt_le a (opt_max a b).
Proof. destruct a, b; simpl; auto; lia. Qed.

(** One more call never lowers a row's attempts or best score. *)
Lemma apply_monotone db c s e p :
  lookup db s e = Some p ->
  exists p',
    lookup (apply db c) s e = Some p'
    /\ attempts p <= attempts p'
    /\ opt_le (best_score p) (best_score p').
Proof.
  intros Hp. rewrite apply_lookup, Hp.
  destruct (for_call s e c).
  - eexists; split; [reflexivity|]. cbn [bump attempts best_score].
    split; [lia | apply opt_le_max].
  - exists p. repeat split; [lia|]. destruct (best_score p); simpl; auto; lia.
Qed.

End ProgressFacts.

(** C2. Starting with no Progress row for a (student, exercise) pair, after
    any run of [update_progress] calls (each of which returns a row: the
    function has no failing path and creates the row it misses) the pair's row
    has [attempts] equal to the number N of calls made for the pair and
    [best_score] equal to the largest score those calls passed, [None] if none
    passed one (no row at all while N = 0); and one more call never lowers
    [attempts] or [best_score]. *)
Theorem update_progress_counts_attempts_and_keeps_best
  (db : Database.t) (student exercise : Z)
  (calls : list ProgressSpec.Call) (next : ProgressSpec.Call) :
  ProgressSpec.lookup db student exercise = None ->
  let mine := filter (ProgressSpec.for_call student exercise) calls in
  let after := ProgressSpec.lookup (ProgressSpec.run db calls) student exercise in
  match mine with
  | [] => after = None
  | _ =>
      exists p,
        after = Some p
        /\ Progress.attempts p = Z.of_nat (List.length mine)
        /\ Progress.best_score p
           = ProgressSpec.max_of_scores (map ProgressSpec.call_score mine)
  end
  /\ match after with
     | None => True
     | Some p =>
         exists p',
           ProgressSpec.lookup
             (ProgressSpec.run db (calls ++ [next])) student exercise = Some p'
           /\ Progress.attempts p <= Progress.attempts p'
           /\ ProgressSpec.opt_le (Progress.best_score p) (Progress.best_score p')
     end.
Proof.
  intros Habsent mine after. split.
  - pose proof (ProgressFacts.run_lookup_absent student exercise calls db Habsent) as H.
    subst mine after. destruct (filter _ calls); exact H.
  - destruct after as [p|] eqn:Hafter; [|exact I].
    rewrite ProgressFacts.progress_run_snoc.
    now apply ProgressFacts.apply_monotone.
Qed.

Lemma update_progress_counts_attempts_and_keeps_best_witness :
  (exists p,
      ProgressSpec.lookup
        (ProgressSpec.run Examples.empty Examples.scenario_C_D) 1 5 = Some p
      /\ Progress.attempts p = 2
      /\ Progress.best_score p = Some 80)
  /\ (exists p',
         ProgressSpec.lookup
           (ProgressSpec.run Examples.empty
              (Examples.scenario_C_D ++ [Examples.failing_retry])) 1 5 = Some p'
         /\ 2 <= Progress.attempts p'
         /\ ProgressSpec.opt_le (Some 80) (Progress.best_score p')).
Proof.
  exact (update_progress_counts_attempts_and_keeps_best
           Examples.empty 1 5 Examples.scenario_C_D Examples.failing_retry eq_refl).
Defined.

(** C10. [update_progress] never clears the completed timestamp: the row it
    returns (which is the row the store then holds for the pair) has
    [completed_at] set to the current time when the status passed is
    "completed", on every such call, and otherwise equal to what the pair's
    row held before the call ([None] if the call created the row). *)
Theorem update_progress_keeps_completed_at
  (now : datetime) (db : Database.t) (student exercise : Z)
  (status : string) (score : option Z) :
  let prior :=
    match ProgressSpec.lookup db student exercise with
    | Some p => Progress.completed_at p
    | None => None
    end in
  let after := ProgressService.update_progress now db student exercise status score in
  ProgressSpec.lookup (fst after) student exercise = Some (snd after)
  /\ Progress.completed_at (snd after)
     = if String.eqb status "completed" then Some now else prior.
Proof.
  cbv zeta. split; [apply ProgressFacts.update_progress_stored|].
  destruct (ProgressSpec.lookup db student exercise) as [p|] eqn:Hp.
  - now rewrite (ProgressFacts.update_progress_found _ _ _ _ _ _ _ Hp).
  - now rewrite (ProgressFacts.update_progress_absent _ _ _ _ _ _ Hp).
Qed.

(** A row completed at time 100 keeps that timestamp through a later
    "in_progress" and a later "failing" update; a later "completed" update at
    time 400 resets it to 400. *)
Example completed_at_survives_later_updates :
  let db1 := ProgressSpec.apply Examples.empty
               (Examples.call 100 "completed" (Some 80)) in
  let db2 := ProgressSpec.apply db1 (Examples.call 200 "in_progress" None) in
  let db3 := ProgressSpec.apply db2 (Examples.call 300 "failing" (Some 10)) in
  let db4 := ProgressSpec.apply db3 (Examples.call 400 "completed" (Some 60)) in
  option_map Progress.completed_at (ProgressSpec.lookup db1 1 5) = Some (Some 100)
  /\ option_map Progress.completed_at (ProgressSpec.lookup db2 1 5) = Some (Some 100)
  /\ option_map Progress.completed_at (ProgressSpec.lookup db3 1 5) = Some (Some 100)
  /\ option_map Progress.completed_at (ProgressSpec.lookup db4 1 5) = Some (Some 400).
Proof. vm_compute. repeat split. Qed.

(* ================================================================== *)
(** * The Event Notifier *)
(* ================================================================== *)

Module KafkaFacts.

Import Kafka KafkaSpec.

Lemma publish_event_returns net topic event key cls :
  snd (publish_event net topic event key cls) = Ok tt.
Proof.
  unfold publish_event, get_producer, start, send_and_wait.
  destruct (_is_disabled cls); [reflexivity|].
  destruct (_producer cls) as [p|].
  - simpl. destruct (send_succeeds net); reflexivity.
  - destruct (start_succeeds net); simpl; [|reflexivity].
    destruct (send_succeeds net); reflexivity.
Qed.

Lemma publish_event_logs_failures net topic event key cls :
  existsb transport_failed (snd (fst (publish_event net topic event key cls))) = true ->
  existsb logged_failure (snd (fst (publish_event net topic event key cls))) = true.
Proof.
  unfold publish_event, get_producer, start, send_and_wait.
  destruct (_is_disabled cls); [discriminate|].
  destruct (_producer cls) as [p|].
  - simpl. destruct (send_succeeds net); simpl; [discriminate | reflexivity].
  - destruct (start_succeeds net); simpl; [|reflexivity].
    destruct (send_succeeds net); simpl; [discriminate | reflexivity].
Qed.

Lemma publish_event_disabled net topic event key cls :
  _is_disabled cls = true ->
  publish_event net topic event key cls = (cls, [Log DEBUG], Ok tt).
Proof. unfold publish_event, get_producer. now intros ->. Qed.

Lemma publish_event_failed_connect net topic event key cls :
  _is_disabled cls = false ->
  _producer cls = None ->
  start_succeeds net = false ->
  publish_event net topic event key cls
  = (disabled, [Connect false; Log WARNING; Log DEBUG], Ok tt).
Proof.
  unfold publish_event, get_producer, start. now intros -> -> ->.
Qed.

Lemma get_producer_cached net cls p :
  _producer cls = Some p ->
  _is_disabled cls = false ->
  get_producer net cls = (cls, [], Ok (Some p)).
Proof. unfold get_producer. now intros -> ->. Qed.

Lemma connection_attempts_app fx fx' :
  connection_attempts (fx ++ fx')
  = (connection_attempts fx + connection_attempts fx')%nat.
Proof. unfold connection_attempts. now rewrite filter_app, length_app. Qed.

Lemma kafka_run_cons cls op ops :
  run cls (op :: ops)
  = (fst (run (fst (step cls op)) ops),
     snd (step cls op) ++ snd (run (fst (step cls op)) ops)).
Proof.
  cbn [run]. destruct (step cls op) as [cls1 fx1]. cbn [fst snd].
  now destruct (run cls1 ops) as [cls2 fx2].
Qed.

(** Once disabled, no operation connects, sends or re-enables. *)
Lemma run_disabled ops :
  forall cls,
    _is_disabled cls = true ->
    _is_disabled (fst (run cls ops)) = true
    /\ connection_attempts (snd (run cls ops)) = 0%nat
    /\ filter is_send (snd (run cls ops)) = [].
Proof.
  induction ops as [|op ops IH]; intros cls Hd; [now repeat split|].
  rewrite kafka_run_cons. cbn [fst snd].
  assert (Hstep : _is_disabled (fst (step cls op)) = true
                  /\ filter is_connect (snd (step cls op)) = []
                  /\ filter is_send (snd (step cls op)) = []).
  { destruct op as [net topic event key|]; cbn [step].
    - rewrite (publish_event_disabled _ _ _ _ _ Hd). now repeat split.
    - unfold close_producer. destruct (_producer cls); now repeat split. }
  destruct Hstep as (H1 & H2 & H3).
  destruct (IH _ H1) as (I1 & I2 & I3).
  repeat split; [exact I1 | |].
  - rewrite connection_attempts_app, I2. unfold connection_attempts. now rewrite H2.
  - now rewrite filter_app, H3, I3.
Qed.

(** While a producer is cached, publishing neither connects nor replaces it. *)
Lemma run_publishes_cached ops :
  forall cls p,
    forallb is_publish ops = true ->
    _producer cls = Some p ->
    _is_disabled cls = false ->
    fst (run cls ops) = cls
    /\ connection_attempts (snd (run cls ops)) = 0%nat.
Proof.
  induction ops as [|op ops IH]; intros cls p Hops Hp Hd; [now split|].
  cbn [forallb] in Hops. apply andb_prop in Hops as [Hop Hops].
  destruct op as [net topic event key|]; [|discriminate].
  rewrite kafka_run_cons. cbn [fst snd step].
  assert (Hstep : fst (fst (publish_event net topic event key cls)) = cls
                  /\ filter is_connect
                       (snd (fst (publish_event net topic event key cls))) = []).
  { unfold publish_event. rewrite (get_producer_cached _ _ _ Hp Hd).
    unfold send_and_wait. destruct (send_succeeds net); now split. }
  destruct Hstep as [H1 H2].
  destruct (publish_event net topic event key cls) as [[cls1 fx1] r1].
  cbn [fst snd] in *. subst cls1.
  destruct (IH _ _ Hops Hp Hd) as [I1 I2].
  split; [exact I1|].
  rewrite connection_attempts_app, I2. unfold connection_attempts. now rewrite H2.
Qed.

(** From the start of the process, any number of publishes makes exactly
    one connection attempt: the one of the first publish. *)
Lemma run_publishes_initial ops :
  forallb is_publish ops = true ->
  connection_attempts (snd (run initial ops))
  = match ops with [] => 0%nat | _ => 1%nat end.
Proof.
  destruct ops as [|op ops]; [reflexivity|].
  cbn [forallb]. intros Hops. apply andb_prop in Hops as [Hop Hops].
  destruct op as [net topic event key|]; [|discriminate].
  rewrite kafka_run_cons. cbn [fst snd step]. rewrite connection_attempts_app.
  unfold publish_event, get_producer, initial, start. cbn [_is_disabled _producer].
  destruct (start_succeeds net).
  - unfold send_and_wait.
    destruct (send_succeeds net); cbn [fst snd];
      match goal with
      | |- context [run ?c ops] =>
          destruct (run_publishes_cached ops c _ Hops eq_refl eq_refl) as [_ ->]
      end; reflexivity.
  - cbn [fst snd].
    match goal with
    | |- context [run ?c ops] =>
        destruct (run_disabled ops c eq_refl) as (_ & -> & _)
    end. reflexivity.
Qed.

End KafkaFacts.

(** C8. When the connection attempt of a publish fails, the notifier sets its
    disabled flag; from then on, whatever the process does with it (publishes
    under any broker behaviour, closing the producer), it stays disabled, makes
    no connection attempt and sends nothing, and every publish is a no-op that
    only logs at debug level. Before any failure the connection is made
    lazily and cached: a process that only publishes makes exactly one
    connection attempt, at its first publish, and a cached producer is handed
    back without connecting. *)
Theorem notifier_never_reconnects_after_failure
  (net : Kafka.Transport) (topic : string) (event : Kafka.Event) (key : option string)
  (cls : Kafka.KafkaService) (later publishes : list KafkaSpec.Op) :
  Kafka._is_disabled cls = false ->
  Kafka._producer cls = None ->
  Kafka.start_succeeds net = false ->
  forallb KafkaSpec.is_publish publishes = true ->
  let failed := fst (fst (Kafka.publish_event net topic event key cls)) in
  Kafka.publish_event net topic event key cls
  = (KafkaSpec.disabled,
     [Kafka.Connect false; Kafka.Log Kafka.WARNING; Kafka.Log Kafka.DEBUG], Ok tt)
  /\ (Kafka._is_disabled (fst (KafkaSpec.run failed later)) = true
      /\ KafkaSpec.connection_attempts (snd (KafkaSpec.run failed later)) = 0%nat
      /\ filter KafkaSpec.is_send (snd (KafkaSpec.run failed later)) = [])
  /\ (forall net' topic' event' key',
         Kafka.publish_event net' topic' event' key' (fst (KafkaSpec.run failed later))
         = (fst (KafkaSpec.run failed later), [Kafka.Log Kafka.DEBUG], Ok tt))
  /\ KafkaSpec.connection_attempts (snd (KafkaSpec.run Kafka.initial publishes))
     = match publishes with [] => 0%nat | _ => 1%nat end
  /\ (forall net' p cls',
         Kafka._producer cls' = Some p ->
         Kafka._is_disabled cls' = false ->
         Kafka.get_producer net' cls' = (cls', [], Ok (Some p))).
Proof.
  intros Hd Hp Hnet Hpubs failed. subst failed.
  rewrite (KafkaFacts.publish_event_failed_connect _ _ _ _ _ Hd Hp Hnet).
  cbn [fst].
  pose proof (KafkaFacts.run_disabled later KafkaSpec.disabled eq_refl) as Hrun.
  repeat split; try apply Hrun.
  - intros. apply KafkaFacts.publish_event_disabled. apply Hrun.
  - now apply KafkaFacts.run_publishes_initial.
  - intros. now apply KafkaFacts.get_producer_cached.
Qed.

Lemma notifier_never_reconnects_after_failure_witness :
  Kafka.publish_event Kafka.unreachable "progress-updates" [] None Kafka.initial
  = (KafkaSpec.disabled,
     [Kafka.Connect false; Kafka.Log Kafka.WARNING; Kafka.Log Kafka.DEBUG], Ok tt)
  /\ (Kafka._is_disabled (fst (KafkaSpec.run KafkaSpec.disabled Examples.after_outage)) = true
      /\ KafkaSpec.connection_attempts
           (snd (KafkaSpec.run KafkaSpec.disabled Examples.after_outage)) = 0%nat
      /\ filter KafkaSpec.is_send
           (snd (KafkaSpec.run KafkaSpec.disabled Examples.after_outage)) = [])
  /\ KafkaSpec.connection_attempts (snd (KafkaSpec.run Kafka.initial Examples.three_publishes))
     = 1%nat.
Proof.
  destruct (notifier_never_reconnects_after_failure
              Kafka.unreachable "progress-updates" [] None Kafka.initial
              Examples.after_outage Examples.three_publishes
              eq_refl eq_refl eq_refl eq_refl) as (H1 & H2 & _ & H4 & _).
  exact (conj H1 (conj H2 H4)).
Defined.

(* ================================================================== *)
(** * The Exercise Submission Lifecycle *)
(* ================================================================== *)

Module SubmissionFacts.

Import Kafka Submissions SubmissionSpec.

Lemma update_submission_status_found now db submission_id status score feedback s :
  SubmissionService.get_submission db submission_id = Some s ->
  exists s',
    snd (SubmissionService.update_submission_status
           now db submission_id status score feedback) = Some s'
    /\ ExerciseSubmission.status s' = status
    /\ ExerciseSubmission.id s' = submission_id
    /\ SubmissionService.get_submission
         (fst (SubmissionService.update_submission_status
                 now db submission_id status score feedback)) submission_id
       = Some s'.
Proof.
  unfold SubmissionService.get_submission, SubmissionService.update_submission_status.
  intros Hs. rewrite Hs. eexists. cbn [fst snd]. split; [reflexivity|].
  pose proof (first_Some_holds _ _ _ Hs) as Hid.
  unfold SubmissionService.by_id in Hid. apply Z.eqb_eq in Hid.
  repeat split; [exact Hid|].
  cbn [set_exercise_submissions Database.exercise_submissions].
  apply first_update_first with (r := s); [|exact Hs].
  unfold SubmissionService.by_id. cbn [ExerciseSubmission.id]. now apply Z.eqb_eq.
Qed.

Lemma update_submission_status_missing now db submission_id status score feedback :
  SubmissionService.get_submission db submission_id = None ->
  SubmissionService.update_submission_status now db submission_id status score feedback
  = (db, None).
Proof.
  unfold SubmissionService.get_submission, SubmissionService.update_submission_status.
  now intros ->.
Qed.

Lemma update_progress_keeps_submissions now db student exercise status score :
  Database.exercise_submissions
    (fst (ProgressService.update_progress now db student exercise status score))
  = Database.exercise_submissions db.
Proof.
  unfold ProgressService.update_progress.
  destruct (Query.first _ (Database.progress db)); reflexivity.
Qed.

Lemma publish_submission_event_returns net now a b c status cls :
  snd (publish_submission_event net now a b c status cls) = Ok tt.
Proof. apply KafkaFacts.publish_event_returns. Qed.

Lemma publish_progress_event_returns net now a b status score cls :
  snd (publish_progress_event net now a b status score cls) = Ok tt.
Proof. apply KafkaFacts.publish_event_returns. Qed.

Lemma evaluate_submission_outcome env submission_id status request score feedback w :
  let r := evaluate_submission env submission_id status request score feedback w in
  (db (fst (fst r)), snd r)
  = outcome env submission_id status request score feedback (db w).
Proof.
  unfold evaluate_submission, outcome.
  destruct (get_current_teacher_id request) as [tid|e]; [|reflexivity].
  destruct (SubmissionService.get_submission (db w) submission_id) as [s|];
    [|reflexivity].
  destruct (SubmissionService.update_submission_status _ _ _ _ _ _) as [db1 upd].
  cbn [fst snd].
  destruct (ProgressService.update_progress _ db1 _ _ _ _) as [db2 pr].
  pose proof (publish_submission_event_returns
                (net_submission_event env) (now_submission_event env)
                (ExerciseSubmission.student_id s) (ExerciseSubmission.exercise_id s)
                submission_id status (kafka w)) as H1.
  destruct (publish_submission_event _ _ _ _ _ _ _) as [[k1 fx1] r1].
  cbn [snd] in H1. subst r1.
  pose proof (publish_progress_event_returns
                (net_progress_event env) (now_progress_event env)
                (ExerciseSubmission.student_id s) (ExerciseSubmission.exercise_id s)
                status score k1) as H2.
  destruct (publish_progress_event _ _ _ _ _ _ _) as [[k2 fx2] r2].
  cbn [snd] in H2. subst r2.
  reflexivity.
Qed.

(** With the identity check passed and the submission on file, the handler
    answers with the updated row, and the store holds it. *)
Lemma evaluate_submission_succeeds env submission_id status request score feedback w
      tid s :
  get_current_teacher_id request = Ok tid ->
  SubmissionService.get_submission (db w) submission_id = Some s ->
  let r := evaluate_submission env submission_id status request score feedback w in
  exists s',
    snd r = Ok {| message := "Submission evaluated"; submission := Some s' |}
    /\ ExerciseSubmission.status s' = status
    /\ SubmissionService.get_submission (db (fst (fst r))) submission_id = Some s'.
Proof.
  intros Hauth Hs r.
  pose proof (evaluate_submission_outcome
                env submission_id status request score feedback w) as Hr.
  cbv zeta in Hr. fold r in Hr. unfold outcome in Hr. rewrite Hauth, Hs in Hr.
  destruct (update_submission_status_found
              (now_submission env) (db w) submission_id status score feedback s Hs)
    as (s' & Hupd & Hstatus & _ & Hget).
  exists s'. injection Hr as Hdb Hres.
  rewrite Hres, Hupd. repeat split; [exact Hstatus|].
  rewrite Hdb. unfold SubmissionService.get_submission.
  rewrite update_progress_keeps_submissions. exact Hget.
Qed.

(** With the identity check passed and no such submission, the handler
    touches nothing, yet does not answer 404: building either of its
    [HTTPException]s fails on [status], and the [AttributeError] leaves the
    handler, which the server answers with 500. *)
Lemma evaluate_submission_missing env submission_id status request score feedback w tid :
  get_current_teacher_id request = Ok tid ->
  SubmissionService.get_submission (db w) submission_id = None ->
  evaluate_submission env submission_id status request score feedback w
  = (w, [], Raise (AttributeError "str" "HTTP_500_INTERNAL_SERVER_ERROR"))
  /\ response_status
       (snd (evaluate_submission env submission_id status request score feedback w))
     = 500.
Proof. unfold evaluate_submission. intros -> ->. now split. Qed.

End SubmissionFacts.

(** C7. [publish_event] never raises: whatever the broker does and whatever
    state the notifier is in, the call returns normally, and a call in which
    the transport raised has logged a warning or an error. So the state
    transition that triggers it is not failed by an unreachable broker:
    [update_submission_status] on a submission on file returns the row
    carrying the new status, the store holds that row, both publishes that
    follow return normally with the broker unreachable, and the response and
    the store produced by [evaluate_submission] are the same under every
    broker behaviour and notifier state (a success carrying the updated row
    whenever the handler's identity check lets the request through). *)
Theorem publish_never_fails_its_caller
  (net : Kafka.Transport) (topic : string) (event : Kafka.Event) (key : option string)
  (cls : Kafka.KafkaService)
  (env : Submissions.Env) (submission_id : Z) (status : string) (request : Request)
  (score : option Z) (feedback : option string) (w : World)
  (n1 n2 : Kafka.Transport) (k' : Kafka.KafkaService) (s : ExerciseSubmission.t) :
  SubmissionService.get_submission (db w) submission_id = Some s ->
  let published := Kafka.publish_event net topic event key cls in
  let updated :=
    SubmissionService.update_submission_status
      (Submissions.now_submission env) (db w) submission_id status score feedback in
  let handled :=
    Submissions.evaluate_submission
      env submission_id status request score feedback w in
  let handled' :=
    Submissions.evaluate_submission
      (SubmissionSpec.with_transport env n1 n2) submission_id status request
      score feedback {| db := db w; kafka := k' |} in
  snd published = Ok tt
  /\ (existsb KafkaSpec.transport_failed (snd (fst published)) = true ->
      existsb KafkaSpec.logged_failure (snd (fst published)) = true)
  /\ (exists s',
         snd updated = Some s'
         /\ ExerciseSubmission.status s' = status
         /\ SubmissionService.get_submission (fst updated) submission_id = Some s'
         /\ snd (Kafka.publish_submission_event
                   Kafka.unreachable (Submissions.now_submission_event env)
                   (ExerciseSubmission.student_id s) (ExerciseSubmission.exercise_id s)
                   submission_id status cls) = Ok tt
         /\ snd (Kafka.publish_progress_event
                   Kafka.unreachable (Submissions.now_progress_event env)
                   (ExerciseSubmission.student_id s) (ExerciseSubmission.exercise_id s)
                   status score cls) = Ok tt)
  /\ (db (fst (fst handled)) = db (fst (fst handled')) /\ snd handled = snd handled')
  /\ (forall tid,
         get_current_teacher_id request = Ok tid ->
         exists s',
           snd handled
           = Ok {| Submissions.message := "Submission evaluated";
                   Submissions.submission := Some s' |}
           /\ ExerciseSubmission.status s' = status
           /\ SubmissionService.get_submission (db (fst (fst handled))) submission_id
              = Some s').
Proof.
  intros Hs published updated handled handled'.
  split; [apply KafkaFacts.publish_event_returns|].
  split; [apply KafkaFacts.publish_event_logs_failures|].
  split.
  - destruct (SubmissionFacts.update_submission_status_found
                (Submissions.now_submission env) (db w) submission_id status
                score feedback s Hs) as (s' & H1 & H2 & _ & H3).
    exists s'. repeat split; try assumption.
    + apply SubmissionFacts.publish_submission_event_returns.
    + apply SubmissionFacts.publish_progress_event_returns.
  - split.
    + pose proof (SubmissionFacts.evaluate_submission_outcome
                    env submission_id status request score feedback w) as Ha.
      pose proof (SubmissionFacts.evaluate_submission_outcome
                    (SubmissionSpec.with_transport env n1 n2) submission_id status
                    request score feedback {| db := db w; kafka := k' |}) as Hb.
      cbv zeta in Ha, Hb. fold handled in Ha. fold handled' in Hb.
      cbn [db] in Hb.
      assert (Hsame : (db (fst (fst handled)), snd handled)
                      = (db (fst (fst handled')), snd handled'))
        by (rewrite Ha, Hb; reflexivity).
      injection Hsame as -> ->. now split.
    + intros tid Hauth.
      exact (SubmissionFacts.evaluate_submission_succeeds
               env submission_id status request score feedback w tid s Hauth Hs).
Qed.

Lemma publish_never_fails_its_caller_witness :
  snd (Kafka.publish_event Kafka.unreachable "exercise-submissions" [] (Some "7")
                           Kafka.initial) = Ok tt
  /\ (exists s',
         snd (SubmissionService.update_submission_status
                100 Examples.one_submission 7 "passing" (Some 90) None) = Some s'
         /\ ExerciseSubmission.status s' = "passing"
         /\ SubmissionService.get_submission
              (fst (SubmissionService.update_submission_status
                      100 Examples.one_submission 7 "passing" (Some 90) None)) 7
            = Some s'
         /\ snd (Kafka.publish_submission_event
                   Kafka.unreachable 102 1 5 7 "passing" Kafka.initial) = Ok tt
         /\ snd (Kafka.publish_progress_event
                   Kafka.unreachable 103 1 5 "passing" (Some 90) Kafka.initial) = Ok tt).
Proof.
  destruct (publish_never_fails_its_caller
              Kafka.unreachable "exercise-submissions" [] (Some "7") Kafka.initial
              Examples.outage 7 "passing" (Examples.evaluate_request 7)
              (Some 90) None
              {| db := Examples.one_submission; kafka := Kafka.initial |}
              Examples.healthy Examples.healthy Kafka.initial
              Examples.submission_7 eq_refl) as (H1 & _ & H3 & _).
  exact (conj H1 H3).
Defined.

(* ================================================================== *)
(** * The identity check on the evaluation route *)
(* ================================================================== *)

Module RouteFacts.

Import Submissions.

(** The decimal digits of a path parameter never spell "/teacher". *)
Lemma contains_teacher_uint (d : Decimal.uint) (rest : string) :
  Py.contains "/teacher" (NilEmpty.string_of_uint d ++ rest)%string
  = Py.contains "/teacher" rest.
Proof. induction d; cbn [NilEmpty.string_of_uint append]; [reflexivity | ..]; exact IHd. Qed.

Lemma prefix_teacher_uint (d : Decimal.uint) :
  String.prefix "teacher" (NilZero.string_of_uint d ++ "/evaluate")%string = false.
Proof. destruct d; reflexivity. Qed.

Lemma contains_teacher_digits (d : Decimal.uint) :
  Py.contains "/teacher" (NilZero.string_of_uint d ++ "/evaluate")%string = false.
Proof.
  destruct d; try reflexivity;
    cbn [NilZero.string_of_uint NilEmpty.string_of_uint append];
    cbn [Py.contains]; rewrite contains_teacher_uint; reflexivity.
Qed.

Lemma evaluate_path_not_protected (submission_id : Z) :
  is_protected (evaluate_path submission_id) = false.
Proof.
  unfold is_protected, evaluate_path, PyJson.str_of_int, NilZero.string_of_int.
  apply orb_false_intro; [reflexivity|].
  cbn [existsb]. rewrite orb_false_r.
  destruct (Z.to_int submission_id) as [d|d].
  - cbn -[NilZero.string_of_uint]. rewrite prefix_teacher_uint.
    cbn [orb]. apply contains_teacher_digits.
  - cbn -[NilZero.string_of_uint]. apply contains_teacher_digits.
Qed.

(** On the path of its own route the handler's identity check fails for
    every submission id and every session header. *)
Lemma evaluate_route_never_authorised (submission_id : Z) (header : option string) :
  get_current_teacher_id
    {| url_path := evaluate_path submission_id; x_session_id := header |}
  = Raise (HTTPException HTTP_401_UNAUTHORIZED (Text "Not authenticated")).
Proof.
  unfold get_current_teacher_id, get_current_user_payload. cbn [url_path].
  now rewrite evaluate_path_not_protected.
Qed.

Lemma evaluate_submission_on_its_route env submission_id status header score feedback w :
  evaluate_submission env submission_id status
    {| url_path := evaluate_path submission_id; x_session_id := header |}
    score feedback w
  = (w, [], Raise (HTTPException HTTP_401_UNAUTHORIZED (Text "Not authenticated"))).
Proof.
  unfold evaluate_submission. now rewrite evaluate_route_never_authorised.
Qed.

End RouteFacts.

(** C3. A teacher evaluates submission 999, which is not on file:
    PUT /api/submissions/999/evaluate?status=passing&score=90 with the session
    header "teacher|1|teacher@example.com". The handler answers 401 "Not
    authenticated", not 404: the path is none of [protected_endpoints], so the
    session header is never read and the caller counts as anonymous
    ([RouteFacts.evaluate_submission_on_its_route]: so it is for every id and
    header). Nor would a request that passes the identity check be answered
    404: the [status] in [status.HTTP_404_NOT_FOUND] is the handler's own
    [str] parameter, so the lookup raises AttributeError, and so does the
    handler's fallback to 500; the client sees a plain server error. In each
    case nothing is modified and nothing is published, and the service
    function on its own returns [None] and leaves the store as it was. *)
Theorem evaluate_missing_submission_never_answers_404 :
  let request := Examples.evaluate_request 999 in
  let w := {| db := Examples.one_submission; kafka := Kafka.initial |} in
  SubmissionService.get_submission (db w) 999 = None
  /\ url_path request = "/api/submissions/999/evaluate"
  /\ Submissions.evaluate_submission
       Examples.outage 999 "passing" request (Some 90) None w
     = (w, [], Raise (HTTPException 401 (Text "Not authenticated")))
  /\ (forall env status request' score feedback tid,
         get_current_teacher_id request' = Ok tid ->
         Submissions.evaluate_submission env 999 status request' score feedback w
         = (w, [], Raise (AttributeError "str" "HTTP_500_INTERNAL_SERVER_ERROR"))
         /\ SubmissionSpec.response_status
              (snd (Submissions.evaluate_submission
                      env 999 status request' score feedback w)) = 500)
  /\ SubmissionService.update_submission_status
       100 (db w) 999 "passing" (Some 90) None = (db w, None).
Proof.
  cbv zeta. split; [reflexivity|]. split; [reflexivity|]. split.
  - apply RouteFacts.evaluate_submission_on_its_route.
  - split; [|reflexivity].
    intros env status request' score feedback tid Hauth.
    now apply (SubmissionFacts.evaluate_submission_missing _ _ _ _ _ _ _ tid).
Qed.

(* ================================================================== *)
(** * The Quiz Assessment Engine: scoring *)
(* ================================================================== *)

Module ScoringFacts.

Import Quizzes ScoringSpec.

Lemma max_score_nonzero db quiz_id : max_score db quiz_id <> 0.
Proof.
  unfold max_score.
  destruct (Z.eqb_spec
              (Query.sum (map QuizQuestion.points
                 (Query.all (fun q => QuizQuestion.quiz_id q =? quiz_id)
                            (Database.quiz_questions db)))) 0); lia.
Qed.

(** A quiz without questions is scored against one point. *)
Lemma max_score_no_questions db quiz_id :
  Query.all (fun q => QuizQuestion.quiz_id q =? quiz_id)
            (Database.quiz_questions db) = [] ->
  max_score db quiz_id = 1.
Proof. unfold max_score. now intros ->. Qed.

Lemma score_of_zero_points max : max <> 0 -> score_of 0 max = Ok 0.
Proof. destruct max; [congruence | reflexivity | reflexivity]. Qed.

(** What scoring can raise: [ZeroDivisionError] for a zero divisor,
    [OverflowError] beyond the range of a float, never an [HTTPException]. *)
Lemma score_of_raise_inv total max e :
  score_of total max = Raise e ->
  (e = ZeroDivisionError /\ max = 0)
  \/ e = OverflowError
  \/ e = ValueErr CannotConvertNaN.
Proof.
  unfold score_of, Py.int_truediv, Py.float_mul_int, Py.bind.
  destruct total, max;
    try (intros H; injection H as <-; now left);
    try discriminate;
    (destruct (SFdiv _ _ _ _);
     [ | intros H; injection H as <-; right; now left | | ];
     change (Py.float_of_int 100)
       with (@Ok Py.float (S754_finite false 7036874417766400 (-46)));
     cbv iota beta;
     match goal with
     | |- Py.int_of_float ?x = _ -> _ =>
         destruct x; cbn [Py.int_of_float]; intros H;
         try discriminate; injection H as <-; auto
     end).
Qed.

(** The division guarded by [or 1] never raises [ZeroDivisionError]. *)
Lemma score_of_no_division_by_zero total max :
  max <> 0 -> score_of total max <> Raise ZeroDivisionError.
Proof.
  intros Hmax H. apply score_of_raise_inv in H as [[_ H] | [H | H]];
    [contradiction | discriminate | discriminate].
Qed.

(** So a failed scoring always surfaces as the handler's 500. *)
Lemma score_of_raise_is_500 total max e detail :
  score_of total max = Raise e ->
  @reraise_as_500 QuizSubmission.t detail (Raise e)
  = Raise (HTTPException HTTP_500_INTERNAL_SERVER_ERROR (Text detail)).
Proof.
  intros H. apply score_of_raise_inv in H as [[-> _] | [-> | ->]]; reflexivity.
Qed.

(** The handler past its four guards: the ids it binds must fit an INTEGER,
    the score must be computable and fit too, and the quiz must have a pass
    mark; everything else is the handler's 500, with the store rolled back. *)
Lemma complete_quiz_past_guards now quiz_id submission_id request db
      current_user submission quiz :
  get_current_user_payload request = Ok current_user ->
  role current_user = "student" ->
  Query.first (submission_of submission_id (user_id current_user))
              (Database.quiz_submissions db) = Some submission ->
  Query.first (fun q => Quiz.id q =? quiz_id) (Database.quizzes db) = Some quiz ->
  complete_quiz now quiz_id submission_id request db
  = if forallb Sqlite.fits [submission_id; user_id current_user; quiz_id] then
      match score_of (total_points db submission_id) (max_score db quiz_id),
            Quiz.passing_score quiz with
      | Ok score, Some threshold =>
          if Sqlite.fits score then
            (set_quiz_submissions db
               (Query.update_first
                  (submission_of submission_id (user_id current_user))
                  (fun _ => completed now submission score (threshold <=? score))
                  (Database.quiz_submissions db)),
             Ok (completed now submission score (threshold <=? score)))
          else (db, Raise (HTTPException 500 (Text "Failed to complete quiz")))
      | _, _ => (db, Raise (HTTPException 500 (Text "Failed to complete quiz")))
      end
    else (db, Raise (HTTPException 500 (Text "Failed to complete quiz"))).
Proof.
  unfold complete_quiz. intros -> Hrole Hsub Hquiz. rewrite Hrole.
  cbn [String.eqb Ascii.eqb Bool.eqb negb]. unfold Sqlite.bind. cbn [forallb].
  destruct (Sqlite.fits submission_id); [|reflexivity].
  destruct (Sqlite.fits (user_id current_user)); [|reflexivity].
  cbn [andb]. rewrite Hsub.
  destruct (Sqlite.fits quiz_id); [|reflexivity].
  cbn [andb]. rewrite Hquiz.
  destruct (score_of _ _) as [score|e] eqn:Hscore.
  - destruct (Quiz.passing_score quiz) as [threshold|]; [|reflexivity].
    cbn [passed_of]. now destruct (Sqlite.fits score).
  - now rewrite (score_of_raise_is_500 _ _ _ _ Hscore).
Qed.

(** A call that succeeded passed the guards, bound ids that fit, computed a
    score that fits and found a pass mark. *)
Lemma complete_quiz_ok_inv now quiz_id submission_id request db db' result :
  complete_quiz now quiz_id submission_id request db = (db', Ok result) ->
  exists current_user submission quiz score threshold,
    get_current_user_payload request = Ok current_user
    /\ role current_user = "student"
    /\ Query.first (submission_of submission_id (user_id current_user))
                   (Database.quiz_submissions db) = Some submission
    /\ Query.first (fun q => Quiz.id q =? quiz_id) (Database.quizzes db) = Some quiz
    /\ forallb Sqlite.fits [submission_id; user_id current_user; quiz_id] = true
    /\ score_of (total_points db submission_id) (max_score db quiz_id) = Ok score
    /\ Quiz.passing_score quiz = Some threshold
    /\ Sqlite.fits score = true
    /\ result = completed now submission score (threshold <=? score)
    /\ db' = set_quiz_submissions db
               (Query.update_first
                  (submission_of submission_id (user_id current_user))
                  (fun _ => completed now submission score (threshold <=? score))
                  (Database.quiz_submissions db)).
Proof.
  intros H.
  destruct (get_current_user_payload request) as [current_user|e] eqn:Hauth.
  2: { unfold complete_quiz in H. rewrite Hauth in H. destruct e; discriminate. }
  destruct (String.eqb (role current_user) "student") eqn:Hrole.
  2: { unfold complete_quiz in H. rewrite Hauth, Hrole in H. discriminate. }
  apply String.eqb_eq in Hrole.
  destruct (Query.first (submission_of submission_id (user_id current_user))
                        (Database.quiz_submissions db)) as [submission|] eqn:Hsub.
  2: { unfold complete_quiz in H. rewrite Hauth, Hrole, Hsub in H.
       cbn [String.eqb Ascii.eqb Bool.eqb negb] in H.
       destruct (Sqlite.bind _) as [u|[]]; discriminate. }
  destruct (Query.first (fun q => Quiz.id q =? quiz_id) (Database.quizzes db))
    as [quiz|] eqn:Hquiz.
  2: { unfold complete_quiz in H. rewrite Hauth, Hrole, Hsub, Hquiz in H.
       cbn [String.eqb Ascii.eqb Bool.eqb negb] in H.
       destruct (Sqlite.bind [submission_id; _]) as [u|[]]; try discriminate.
       destruct (Sqlite.bind [quiz_id]) as [u'|[]]; discriminate. }
  rewrite (complete_quiz_past_guards _ _ _ _ _ _ _ _ Hauth Hrole Hsub Hquiz) in H.
  destruct (forallb Sqlite.fits _) eqn:Hfits; [|discriminate].
  destruct (score_of _ _) as [score|e] eqn:Hscore; [|discriminate].
  destruct (Quiz.passing_score quiz) as [threshold|] eqn:Hmark; [|discriminate].
  destruct (Sqlite.fits score) eqn:Hfit; [|discriminate].
  injection H as <- <-.
  exists current_user, submission, quiz, score, threshold. now repeat split.
Qed.

End ScoringFacts.

(** Where [int((total / max) * 100)] leaves the percentage: the quotient is
    rounded to a binary64 value before it is multiplied, so an exact 58 per
    cent can come out as 57.99999999999999 and be truncated to 57. *)
Example score_of_29_of_50 : Quizzes.score_of 29 50 = Ok 57.
Proof. vm_compute. reflexivity. Qed.

Example score_of_29_of_100 : Quizzes.score_of 29 100 = Ok 28.
Proof. vm_compute. reflexivity. Qed.

Example score_of_1_of_3 : Quizzes.score_of 1 3 = Ok 33.
Proof. vm_compute. reflexivity. Qed.

(** The hardware agrees: the same operations on Rocq's primitive floats. *)
Example score_of_29_of_50_primitive :
  Prim2SF (PrimFloat.mul (PrimFloat.div (PrimFloat.of_uint63 29%uint63)
                                        (PrimFloat.of_uint63 50%uint63))
                         (PrimFloat.of_uint63 100%uint63))
  = S754_finite false 8162774324609023 (-47)
  /\ Py.int_of_float (S754_finite false 8162774324609023 (-47)) = Ok 57.
Proof. vm_compute. split; reflexivity. Qed.

(** For quizzes worth up to 100 points the score is the floor percentage,
    except at four (earned, max) pairs, where it is one less. *)
Example score_of_up_to_100_points :
  filter (fun em => negb (match Quizzes.score_of (fst em) (snd em) with
                          | Ok n => n =? ScoringSpec.floor_percentage (fst em) (snd em)
                          | Raise _ => false
                          end))
         (flat_map (fun m => map (fun e => (Z.of_nat e, Z.of_nat m)) (seq 0 (S m)))
                   (seq 1 100))
  = [(29, 50); (29, 100); (57, 100); (58, 100)]
  /\ forallb (fun em => match Quizzes.score_of (fst em) (snd em) with
                        | Ok n => n =? ScoringSpec.floor_percentage (fst em) (snd em) - 1
                        | Raise _ => false
                        end)
             [(29, 50); (29, 100); (57, 100); (58, 100)] = true.
Proof. vm_compute. split; reflexivity. Qed.

(** C1. A quiz of two questions worth 29 and 21 points with pass mark 58; the
    student answers the first correctly and the second wrongly, then completes
    the quiz. Earned 29 of 50 points is exactly 58 per cent, so
    floor(100 * earned / max) is 58 and the pass mark is met; [complete_quiz]
    stores score 57 and passed = False. *)
Theorem complete_quiz_29_of_50_scores_57 :
  let db := Examples.answered in
  Quizzes.total_points db 10 = 29
  /\ Quizzes.max_score db 1 = 50
  /\ ScoringSpec.floor_percentage 29 50 = 58
  /\ Quiz.passing_score Examples.quiz_1 = Some 58
  /\ exists db' result,
       Quizzes.complete_quiz 70 1 10 (Examples.student_request 1 "complete") db
       = (db', Ok result)
       /\ QuizSubmission.score result = Some 57
       /\ QuizSubmission.passed result = false
       /\ QuizSubmission.completed_at result = Some 70.
Proof.
  cbv zeta. repeat split; try (vm_compute; reflexivity).
  eexists; eexists. split; [vm_compute; reflexivity|].
  repeat split.
Qed.

(** The same with default point values: fifty questions worth 1 point each,
    the first 29 answered correctly. *)
Example fifty_questions_29_correct :
  let db := Examples.fifty_questions in
  Quizzes.total_points db 10 = 29
  /\ Quizzes.max_score db 1 = 50
  /\ option_map (fun r => (QuizSubmission.score r, QuizSubmission.passed r))
       (match snd (Quizzes.complete_quiz 70 1 10 (Examples.student_request 1 "complete")
                                         db) with
        | Ok r => Some r | Raise _ => None end)
     = Some (Some 57, false).
Proof. vm_compute. repeat split. Qed.

Module CompletionFacts.

Import Quizzes ScoringSpec ScoringFacts.

(** Completing writes the submissions table only. *)
Lemma total_points_set_quiz_submissions db rows submission_id :
  total_points (set_quiz_submissions db rows) submission_id = total_points db submission_id.
Proof. reflexivity. Qed.

Lemma max_score_set_quiz_submissions db rows quiz_id :
  max_score (set_quiz_submissions db rows) quiz_id = max_score db quiz_id.
Proof. reflexivity. Qed.

Lemma submission_of_completed now submission score passed submission_id user :
  submission_of submission_id user submission = true ->
  submission_of submission_id user (completed now submission score passed) = true.
Proof. intros H. exact H. Qed.

(** A quiz without questions, completed on a submission that earned nothing:
    the divisor defaults to 1 and the score is 0. *)
Lemma complete_quiz_without_questions now quiz_id submission_id request db
      current_user submission quiz :
  get_current_user_payload request = Ok current_user ->
  role current_user = "student" ->
  Query.first (submission_of submission_id (user_id current_user))
              (Database.quiz_submissions db) = Some submission ->
  Query.first (fun q => Quiz.id q =? quiz_id) (Database.quizzes db) = Some quiz ->
  Query.all (fun q => QuizQuestion.quiz_id q =? quiz_id) (Database.quiz_questions db) = [] ->
  total_points db submission_id = 0 ->
  forallb Sqlite.fits [submission_id; user_id current_user; quiz_id] = true ->
  snd (complete_quiz now quiz_id submission_id request db)
  = match Quiz.passing_score quiz with
    | Some threshold => Ok (completed now submission 0 (threshold <=? 0))
    | None => Raise (HTTPException 500 (Text "Failed to complete quiz"))
    end.
Proof.
  intros Hauth Hrole Hsub Hquiz Hnone Hzero Hfits.
  rewrite (complete_quiz_past_guards _ _ _ _ _ _ _ _ Hauth Hrole Hsub Hquiz), Hfits.
  rewrite (max_score_no_questions _ _ Hnone), Hzero.
  change (score_of 0 1) with (@Ok Z 0).
  now destruct (Quiz.passing_score quiz).
Qed.

End CompletionFacts.

(** C9. [complete_quiz] compares the submission with the caller only, never
    with the quiz of the path. For a student's own submission whose [quiz_id]
    differs from the path's quiz id the call runs to its end all the same:
    the numerator is the sum of [points_earned] over the submission's answers,
    the denominator the sum of [points] over the questions of the quiz named
    in the path (1 if that sum is 0), [passed] compares the score with that
    quiz's [passing_score], and the stored row keeps the submission's own
    [quiz_id]. The call answers 500 and stores nothing exactly when an id it
    binds or the score does not fit an INTEGER, when the score is not
    computable, or when the path's quiz has no pass mark. *)
Theorem complete_quiz_scores_against_the_path_quiz
  (now : datetime) (quiz_id submission_id : Z) (request : Request) (db : Database.t)
  (current_user : Payload) (submission : QuizSubmission.t) (quiz : Quiz.t) :
  get_current_user_payload request = Ok current_user ->
  role current_user = "student" ->
  Query.first (Quizzes.submission_of submission_id (user_id current_user))
              (Database.quiz_submissions db) = Some submission ->
  Query.first (fun q => Quiz.id q =? quiz_id) (Database.quizzes db) = Some quiz ->
  QuizSubmission.quiz_id submission <> quiz_id ->
  let earned :=
    Query.sum (map QuizAnswer.points_earned
                   (Query.all (fun a => QuizAnswer.submission_id a =? submission_id)
                              (Database.quiz_answers db))) in
  let path_points :=
    Query.sum (map QuizQuestion.points
                   (Query.all (fun q => QuizQuestion.quiz_id q =? quiz_id)
                              (Database.quiz_questions db))) in
  let refused :=
    Quizzes.complete_quiz now quiz_id submission_id request db
    = (db, Raise (HTTPException 500 (Text "Failed to complete quiz"))) in
  if forallb Sqlite.fits [submission_id; user_id current_user; quiz_id] then
    match Quizzes.score_of earned (if path_points =? 0 then 1 else path_points),
          Quiz.passing_score quiz with
    | Ok score, Some threshold =>
        if Sqlite.fits score then
          exists result,
            snd (Quizzes.complete_quiz now quiz_id submission_id request db) = Ok result
            /\ QuizSubmission.score result = Some score
            /\ QuizSubmission.passed result = (threshold <=? score)
            /\ QuizSubmission.quiz_id result = QuizSubmission.quiz_id submission
            /\ QuizSubmission.quiz_id result <> Quiz.id quiz
        else refused
    | _, _ => refused
    end
  else refused.
Proof.
  intros Hauth Hrole Hsub Hquiz Hdiff earned path_points refused. unfold refused.
  rewrite (ScoringFacts.complete_quiz_past_guards
             now quiz_id submission_id request db current_user submission quiz
             Hauth Hrole Hsub Hquiz).
  change (Quizzes.total_points db submission_id) with earned.
  change (Quizzes.max_score db quiz_id)
    with (if path_points =? 0 then 1 else path_points).
  destruct (forallb Sqlite.fits _); [|reflexivity].
  destruct (Quizzes.score_of earned (if path_points =? 0 then 1 else path_points))
    as [score|e]; [|reflexivity].
  destruct (Quiz.passing_score quiz) as [threshold|]; [|reflexivity].
  destruct (Sqlite.fits score); [|reflexivity].
  eexists. split; [reflexivity|]. cbn. repeat split.
  apply first_Some_holds in Hquiz. apply Z.eqb_eq in Hquiz. congruence.
Qed.

Lemma complete_quiz_scores_against_the_path_quiz_witness :
  exists result,
    snd (Quizzes.complete_quiz 70 2 10 (Examples.student_request 2 "complete")
                               Examples.answered) = Ok result
    /\ QuizSubmission.score result = Some 145
    /\ QuizSubmission.passed result = (70 <=? 145)
    /\ QuizSubmission.quiz_id result = 1
    /\ QuizSubmission.quiz_id result <> 2.
Proof.
  exact (complete_quiz_scores_against_the_path_quiz
           70 2 10 (Examples.student_request 2 "complete") Examples.answered
           {| user_id := 3; email := "student@example.com"; role := "student" |}
           Examples.submission_10 Examples.quiz_2
           eq_refl eq_refl eq_refl eq_refl
           ltac:(discriminate)).
Defined.

(** The three ways in which a call past its guards is refused: a score that
    does not fit the INTEGER column (2^62 points earned against the 20 points
    of quiz 2), a quiz without a pass mark, and a caller whose id does not
    fit an INTEGER. *)
Example complete_quiz_refusals :
  Quizzes.score_of (2 ^ 62) 20 = Ok 23058430092136939520
  /\ Sqlite.fits 23058430092136939520 = false
  /\ Quizzes.complete_quiz 70 2 10 (Examples.student_request 2 "complete")
                           Examples.huge_points
     = (Examples.huge_points,
        Raise (HTTPException 500 (Text "Failed to complete quiz")))
  /\ Quizzes.complete_quiz 70 1 10 (Examples.student_request 1 "complete")
                           Examples.no_pass_mark
     = (Examples.no_pass_mark,
        Raise (HTTPException 500 (Text "Failed to complete quiz")))
  /\ Quizzes.complete_quiz 70 1 10
       (SessionSpec.with_header "/api/quizzes/1/submissions/10/complete"
                                (Some "student|99999999999999999999|x"))
       Examples.answered
     = (Examples.answered, Raise (HTTPException 500 (Text "Failed to complete quiz"))).
Proof. vm_compute. repeat split. Qed.

(** Submission 10 was started against quiz 1 (50 points, pass mark 58) and
    earned 29 points. Completed through quiz 1's path it scores 57 and fails;
    completed through quiz 2's path (20 points, pass mark 70) it scores 145
    and passes. *)
Example same_submission_two_paths :
  option_map (fun r => (QuizSubmission.score r, QuizSubmission.passed r))
    (match snd (Quizzes.complete_quiz 70 1 10 (Examples.student_request 1 "complete")
                                      Examples.answered) with
     | Ok r => Some r | Raise _ => None end)
  = Some (Some 57, false)
  /\ option_map (fun r => (QuizSubmission.score r, QuizSubmission.passed r))
       (match snd (Quizzes.complete_quiz 70 2 10 (Examples.student_request 2 "complete")
                                         Examples.answered) with
        | Ok r => Some r | Raise _ => None end)
     = Some (Some 145, true).
Proof. vm_compute. split; reflexivity. Qed.

(** C6. When [complete_quiz] has succeeded on a submission, calling it again
    (at any later time, with the answers as they are) succeeds too and stores
    the same score and the same passed value: both are computed from the
    submission's stored QuizAnswer rows, the points of the quiz's questions
    and the quiz's passing_score alone, none of which the first call writes. *)
Theorem complete_quiz_twice_gives_the_same_score
  (now1 now2 : datetime) (quiz_id submission_id : Z) (request : Request)
  (db db1 : Database.t) (first : QuizSubmission.t) :
  Quizzes.complete_quiz now1 quiz_id submission_id request db = (db1, Ok first) ->
  (exists db2 second,
      Quizzes.complete_quiz now2 quiz_id submission_id request db1 = (db2, Ok second)
      /\ QuizSubmission.score second = QuizSubmission.score first
      /\ QuizSubmission.passed second = QuizSubmission.passed first)
  /\ (Database.quiz_answers db1 = Database.quiz_answers db
      /\ Database.quiz_questions db1 = Database.quiz_questions db
      /\ Database.quizzes db1 = Database.quizzes db)
  /\ (exists quiz threshold score,
         Query.first (fun q => Quiz.id q =? quiz_id) (Database.quizzes db) = Some quiz
         /\ Quiz.passing_score quiz = Some threshold
         /\ Quizzes.score_of
              (Query.sum (map QuizAnswer.points_earned
                 (Query.all (fun a => QuizAnswer.submission_id a =? submission_id)
                            (Database.quiz_answers db))))
              (let points :=
                 Query.sum (map QuizQuestion.points
                   (Query.all (fun q => QuizQuestion.quiz_id q =? quiz_id)
                              (Database.quiz_questions db))) in
               if points =? 0 then 1 else points)
            = Ok score
         /\ QuizSubmission.score first = Some score
         /\ QuizSubmission.passed first = (threshold <=? score)).
Proof.
  intros Hfirst.
  destruct (ScoringFacts.complete_quiz_ok_inv _ _ _ _ _ _ _ Hfirst)
    as (current_user & submission & quiz & score & threshold
        & Hauth & Hrole & Hsub & Hquiz & Hfits & Hscore & Hmark & Hfit & -> & ->).
  split; [|split; [now repeat split|]].
  - assert (Hsub1 :
      Query.first (Quizzes.submission_of submission_id (user_id current_user))
        (Database.quiz_submissions
           (set_quiz_submissions db
              (Query.update_first
                 (Quizzes.submission_of submission_id (user_id current_user))
                 (fun _ => ScoringSpec.completed now1 submission score
                                                 (threshold <=? score))
                 (Database.quiz_submissions db))))
      = Some (ScoringSpec.completed now1 submission score (threshold <=? score))).
    { cbn [set_quiz_submissions Database.quiz_submissions].
      apply first_update_first with (r := submission); [|exact Hsub].
      apply CompletionFacts.submission_of_completed.
      exact (first_Some_holds _ _ _ Hsub). }
    rewrite (ScoringFacts.complete_quiz_past_guards
               now2 quiz_id submission_id request _ current_user _ quiz
               Hauth Hrole Hsub1 Hquiz).
    rewrite CompletionFacts.total_points_set_quiz_submissions,
            CompletionFacts.max_score_set_quiz_submissions, Hfits, Hscore, Hmark, Hfit.
    eexists; eexists. split; [reflexivity|]. now split.
  - exists quiz, threshold, score.
    repeat split; [exact Hquiz | exact Hmark | exact Hscore].
Qed.

Lemma complete_quiz_twice_gives_the_same_score_witness :
  exists db2 second,
    Quizzes.complete_quiz 90 1 10 (Examples.student_request 1 "complete")
      (fst (Quizzes.complete_quiz 70 1 10 (Examples.student_request 1 "complete")
                                  Examples.answered))
    = (db2, Ok second)
    /\ QuizSubmission.score second = Some 57
    /\ QuizSubmission.passed second = false.
Proof.
  destruct (Quizzes.complete_quiz 70 1 10 (Examples.student_request 1 "complete")
                                  Examples.answered) as [db1 [first|e]] eqn:Hc;
    [|vm_compute in Hc; discriminate].
  destruct (complete_quiz_twice_gives_the_same_score
              70 90 1 10 (Examples.student_request 1 "complete")
              Examples.answered db1 first Hc)
    as [(db2 & second & Hagain & Hscore & Hpassed) _].
  vm_compute in Hc. injection Hc as <- <-.
  exists db2, second. split; [exact Hagain|]. split; [exact Hscore | exact Hpassed].
Defined.

(* ================================================================== *)
(** * The Quiz Assessment Engine: answers *)
(* ================================================================== *)

Module AnswerFacts.

Import Quizzes AnswerSpec.

Section Rows.

Context {A : Type}.
Variable p : A -> bool.

Lemma first_None_filter (rows : list A) :
  Query.first p rows = None -> filter p rows = [].
Proof.
  induction rows as [|x rows IH]; simpl; [reflexivity|].
  destruct (p x); [discriminate | exact IH].
Qed.

Lemma filter_delete_first (rows : list A) :
  filter p (Query.delete_first p rows) = tl (filter p rows).
Proof.
  induction rows as [|x rows IH]; simpl; [reflexivity|].
  destruct (p x) eqn:Hx; simpl; [reflexivity|]. now rewrite Hx.
Qed.

(** With at most one selected row, none is left once [existing_answer] has
    been deleted. *)
Lemma filter_kept (rows : list A) :
  (List.length (filter p rows) <= 1)%nat ->
  filter p (match Query.first p rows with
            | Some _ => Query.delete_first p rows
            | None => rows
            end) = [].
Proof.
  intros Hlen. destruct (Query.first p rows) eqn:Hfirst.
  - rewrite filter_delete_first.
    destruct (filter p rows) as [|x [|y l]]; simpl in *; try reflexivity; lia.
  - now apply first_None_filter.
Qed.

End Rows.

Lemma max_id_bounds (ids : list Z) :
  forall id x, In x (id :: ids) -> x <= fold_right Z.max id ids.
Proof.
  induction ids as [|y ids IH]; intros id x; cbn [fold_right].
  - intros [->|[]]. lia.
  - intros [->|[->|Hin]].
    + pose proof (IH x x (or_introl eq_refl)). lia.
    + lia.
    + pose proof (IH id x (or_intror Hin)). lia.
Qed.

Example next_id_samples :
  Query.next_id [] = 1 /\ Query.next_id [3; 7; 5] = 8 /\ Query.next_id [-5] = -4.
Proof. repeat split. Qed.

Lemma next_id_fresh (ids : list Z) (x : Z) : In x ids -> x < Query.next_id ids.
Proof.
  destruct ids as [|id ids]; [intros []|]. intros Hin.
  pose proof (max_id_bounds ids id x Hin). unfold Query.next_id. lia.
Qed.

(** What a successful call does to the store. *)
Lemma submit_answer_ok_inv now quiz_id submission_id answer request db db' a :
  submit_answer now quiz_id submission_id answer request db = (db', Ok a) ->
  exists q,
    Query.first (question_of (question_id answer) quiz_id) (Database.quiz_questions db)
    = Some q
    /\ a = {| QuizAnswer.id := Query.next_id (map QuizAnswer.id (Database.quiz_answers db));
              QuizAnswer.submission_id := submission_id;
              QuizAnswer.question_id := question_id answer;
              QuizAnswer.answer_text := answer_text answer;
              QuizAnswer.is_correct := is_correct q (answer_text answer);
              QuizAnswer.points_earned := points_earned q (answer_text answer);
              QuizAnswer.answered_at := now |}
    /\ db' = set_quiz_answers db
               (match Query.first (answer_of submission_id (question_id answer))
                                  (Database.quiz_answers db) with
                | Some _ =>
                    Query.delete_first (answer_of submission_id (question_id answer))
                                       (Database.quiz_answers db)
                | None => Database.quiz_answers db
                end ++ [a]).
Proof.
  unfold submit_answer.
  destruct (get_current_user_payload request) as [current_user|e].
  2: { destruct e; discriminate. }
  destruct (negb (String.eqb (role current_user) "student")); [discriminate|].
  destruct (Sqlite.bind [submission_id; _]) as [u|[]]; try discriminate.
  destruct (Query.first (submission_of _ _) _); [|discriminate].
  destruct (Sqlite.bind [question_id answer; _]) as [u'|[]]; try discriminate.
  destruct (Query.first (question_of _ _) _) as [q|]; [|discriminate].
  intros H. injection H as <- <-. exists q. now repeat split.
Qed.

(** A call that raises leaves the store as it was. *)
Lemma submit_answer_raise_inv now quiz_id submission_id answer request db db' e :
  submit_answer now quiz_id submission_id answer request db = (db', Raise e) ->
  db' = db.
Proof.
  unfold submit_answer.
  destruct (get_current_user_payload request) as [current_user|e'].
  2: { intros H. now injection H. }
  destruct (negb (String.eqb (role current_user) "student"));
    [intros H; now injection H|].
  destruct (Sqlite.bind [submission_id; _]); [|intros H; now injection H].
  destruct (Query.first (submission_of _ _) _); [|intros H; now injection H].
  destruct (Sqlite.bind [question_id answer; _]); [|intros H; now injection H].
  destruct (Query.first (question_of _ _) _) as [q|]; [|intros H; now injection H].
  discriminate.
Qed.

(** One successful call on a pair holding at most one row. *)
Lemma resubmit_once_ok db s q c db' a :
  (List.length (rows_for db s q) <= 1)%nat ->
  resubmit_once db s q c = (db', Ok a) ->
  rows_for db' s q = [a]
  /\ graded db s q c a
  /\ Database.quiz_questions db' = Database.quiz_questions db
  /\ (forall old, In old (rows_for db s q) ->
                  ~ In old (Database.quiz_answers db')
                  /\ QuizAnswer.id old < QuizAnswer.id a).
Proof.
  intros Hlen Hcall. unfold resubmit_once in Hcall.
  destruct (submit_answer_ok_inv _ _ _ _ _ _ _ _ Hcall) as (qq & Hq & Ha & Hdb).
  cbn [question_id answer_text] in *.
  assert (Hpair : answer_of s q a = true).
  { rewrite Ha. unfold answer_of. cbn. now rewrite !Z.eqb_refl. }
  assert (Hfresh : forall old, In old (Database.quiz_answers db) ->
                               QuizAnswer.id old < QuizAnswer.id a).
  { intros old Hin. rewrite Ha. cbn [QuizAnswer.id].
    apply next_id_fresh. now apply in_map. }
  repeat split.
  - unfold rows_for, Query.all. rewrite Hdb. cbn [set_quiz_answers Database.quiz_answers].
    rewrite filter_app, (filter_kept _ _ Hlen). cbn [filter app]. now rewrite Hpair.
  - now rewrite Ha.
  - now rewrite Ha.
  - now rewrite Ha.
  - now rewrite Ha.
  - exists qq. rewrite Ha. now repeat split.
  - now rewrite Hdb.
  - unfold rows_for, Query.all in H. apply filter_In in H as [Hin Hold].
    rewrite Hdb. cbn [set_quiz_answers Database.quiz_answers].
    intros Hin'. apply in_app_or in Hin' as [Hkept|[Heq|[]]].
    + assert (Hnil := filter_kept (answer_of s q) _ Hlen).
      assert (In old (filter (answer_of s q)
                (match Query.first (answer_of s q) (Database.quiz_answers db) with
                 | Some _ => Query.delete_first (answer_of s q) (Database.quiz_answers db)
                 | None => Database.quiz_answers db
                 end))) as Hbad by (apply filter_In; now split).
      rewrite Hnil in Hbad. exact Hbad.
    + specialize (Hfresh old Hin). rewrite Heq in Hfresh. lia.
  - unfold rows_for, Query.all in H. apply filter_In in H as [Hin _].
    now apply Hfresh.
Qed.

Lemma graded_same_questions db db' s q c a :
  Database.quiz_questions db' = Database.quiz_questions db ->
  graded db' s q c a -> graded db s q c a.
Proof. unfold graded. now intros ->. Qed.

(** Any number of calls on a pair holding at most one row. *)
Lemma resubmit_rows s q calls :
  forall db,
    (List.length (rows_for db s q) <= 1)%nat ->
    Database.quiz_questions (fst (resubmit db s q calls)) = Database.quiz_questions db
    /\ match last_ok (snd (resubmit db s q calls)) with
       | Some (c, a) =>
           rows_for (fst (resubmit db s q calls)) s q = [a] /\ graded db s q c a
       | None => fst (resubmit db s q calls) = db
       end.
Proof.
  induction calls as [|c calls IH]; intros db Hlen; [now split|].
  cbn [resubmit].
  destruct (resubmit_once db s q c) as [db1 r] eqn:Hcall.
  destruct (resubmit db1 s q calls) as [db2 trace] eqn:Hrest.
  cbn [fst snd last_ok].
  destruct r as [a|e].
  - destruct (resubmit_once_ok _ _ _ _ _ _ Hlen Hcall) as (Hrows & Hgraded & Hq & _).
    assert (Hlen1 : (List.length (rows_for db1 s q) <= 1)%nat) by now rewrite Hrows.
    specialize (IH db1 Hlen1). rewrite Hrest in IH. cbn [fst snd] in IH.
    destruct IH as [Hq2 IH]. split; [congruence|].
    destruct (last_ok trace) as [[c' a']|].
    + destruct IH as [IH1 IH2]. split; [exact IH1|].
      now apply (graded_same_questions db db1).
    + subst db2. now split.
  - unfold resubmit_once in Hcall. apply submit_answer_raise_inv in Hcall. subst db1.
    specialize (IH db Hlen). rewrite Hrest in IH. cbn [fst snd] in IH.
    now destruct (last_ok trace) as [[c' a']|].
Qed.

Lemma filter_delete_first_frame {A} (p p' : A -> bool) (rows : list A) :
  (forall r, p r = true -> p' r = false) ->
  filter p' (Query.delete_first p rows) = filter p' rows.
Proof.
  intros Hdisj. induction rows as [|x rows IH]; simpl; [reflexivity|].
  destruct (p x) eqn:Hx; simpl.
  - now rewrite (Hdisj x Hx).
  - now rewrite IH.
Qed.

(** Every call, for whatever pair, keeps every pair at one row at most: the
    invariant holds of each store [submit_answer] alone has written to. *)
Lemma submit_answer_preserves_one_row_per_pair
      now quiz_id submission_id answer request db :
  (forall s q, (List.length (rows_for db s q) <= 1)%nat) ->
  forall s q,
    (List.length
       (rows_for (fst (submit_answer now quiz_id submission_id answer request db)) s q)
     <= 1)%nat.
Proof.
  intros Hinv s q.
  destruct (submit_answer now quiz_id submission_id answer request db)
    as [db' [a|e]] eqn:Hcall; cbn [fst].
  2: { apply submit_answer_raise_inv in Hcall. subst db'. apply Hinv. }
  destruct ((submission_id =? s) && (question_id answer =? q)) eqn:Hpair.
  - apply andb_prop in Hpair as [Hs Hq]. apply Z.eqb_eq in Hs, Hq. subst s q.
    assert (Hone : resubmit_once db submission_id (question_id answer)
                     {| at_time := now; path_quiz_id := quiz_id;
                        payload := answer_text answer; sent_as := request |}
                   = (db', Ok a)).
    { unfold resubmit_once. cbn [at_time path_quiz_id payload sent_as].
      destruct answer. exact Hcall. }
    destruct (resubmit_once_ok _ _ _ _ _ _ (Hinv _ _) Hone) as [-> _]. cbn. lia.
  - destruct (submit_answer_ok_inv _ _ _ _ _ _ _ _ Hcall) as (qq & _ & Ha & ->).
    unfold rows_for, Query.all. cbn [set_quiz_answers Database.quiz_answers].
    assert (Hdisj : forall r, answer_of submission_id (question_id answer) r = true ->
                              answer_of s q r = false).
    { intros r Hr. unfold answer_of in *. apply andb_prop in Hr as [H1 H2].
      apply Z.eqb_eq in H1, H2. now rewrite H1, H2. }
    rewrite filter_app.
    replace (filter (answer_of s q) [a]) with (@nil QuizAnswer.t).
    2: { cbn [filter]. rewrite Ha at 1. unfold answer_of at 1. cbn. now rewrite Hpair. }
    rewrite app_nil_r.
    destruct (Query.first _ (Database.quiz_answers db)).
    + rewrite (filter_delete_first_frame _ _ _ Hdisj). apply Hinv.
    + apply Hinv.
Qed.

End AnswerFacts.

(** C4. On a store holding at most one QuizAnswer row for a (submission,
    question) pair (as every store does that only [submit_answer] has written
    to), after any number of [submit_answer] calls for the pair there is still
    at most one row for it: exactly the row returned by the last call that
    succeeded, every field of which comes from that call, or the store is
    unchanged if no call succeeded. A further successful call deletes the row
    on file and appends a fresh one under a new, larger id: the old row is no
    longer in the table. *)
Theorem submit_answer_keeps_one_row_per_question
  (db : Database.t) (submission question : Z)
  (calls : list AnswerSpec.Resubmission) (again : AnswerSpec.Resubmission) :
  (List.length (AnswerSpec.rows_for db submission question) <= 1)%nat ->
  let after := fst (AnswerSpec.resubmit db submission question calls) in
  let trace := snd (AnswerSpec.resubmit db submission question calls) in
  (List.length (AnswerSpec.rows_for after submission question) <= 1)%nat
  /\ match AnswerSpec.last_ok trace with
     | Some (c, a) =>
         AnswerSpec.rows_for after submission question = [a]
         /\ AnswerSpec.graded db submission question c a
     | None => after = db
     end
  /\ (forall db' a,
         AnswerSpec.resubmit_once after submission question again = (db', Ok a) ->
         AnswerSpec.rows_for db' submission question = [a]
         /\ AnswerSpec.graded after submission question again a
         /\ (forall old,
                In old (AnswerSpec.rows_for after submission question) ->
                Database.quiz_answers db'
                = Query.delete_first (Quizzes.answer_of submission question)
                                     (Database.quiz_answers after) ++ [a]
                /\ ~ In old (Database.quiz_answers db')
                /\ QuizAnswer.id old < QuizAnswer.id a)).
Proof.
  intros Hlen after trace.
  destruct (AnswerFacts.resubmit_rows submission question calls db Hlen) as [_ Hrows].
  fold after trace in Hrows.
  assert (Hafter : (List.length (AnswerSpec.rows_for after submission question) <= 1)%nat).
  { destruct (AnswerSpec.last_ok trace) as [[c a]|].
    - destruct Hrows as [-> _]. cbn. lia.
    - now rewrite Hrows. }
  split; [exact Hafter|]. split; [exact Hrows|].
  intros db' a Hcall.
  destruct (AnswerFacts.resubmit_once_ok _ _ _ _ _ _ Hafter Hcall)
    as (H1 & H2 & _ & H4).
  split; [exact H1|]. split; [exact H2|].
  intros old Hold. split; [|now apply H4].
  unfold AnswerSpec.resubmit_once in Hcall.
  destruct (AnswerFacts.submit_answer_ok_inv _ _ _ _ _ _ _ _ Hcall) as (qq & _ & _ & Hdb).
  cbn [Quizzes.question_id] in Hdb. rewrite Hdb.
  cbn [set_quiz_answers Database.quiz_answers].
  destruct (Query.first (Quizzes.answer_of submission question)
                        (Database.quiz_answers after)) eqn:Hfirst; [reflexivity|].
  apply AnswerFacts.first_None_filter in Hfirst.
  unfold AnswerSpec.rows_for, Query.all in Hold. rewrite Hfirst in Hold. destruct Hold.
Qed.

Lemma submit_answer_keeps_one_row_per_question_witness :
  let after := fst (AnswerSpec.resubmit Examples.started 10 11 Examples.three_tries) in
  (exists a,
      AnswerSpec.rows_for after 10 11 = [a]
      /\ QuizAnswer.answer_text a = JStr "A"
      /\ QuizAnswer.is_correct a = true
      /\ QuizAnswer.points_earned a = 29
      /\ QuizAnswer.answered_at a = 63)
  /\ (List.length (AnswerSpec.rows_for after 10 11) <= 1)%nat.
Proof.
  destruct (submit_answer_keeps_one_row_per_question
              Examples.started 10 11 Examples.three_tries
              (Examples.resubmission 64 (JStr "C") (Examples.student_request 1 "answer"))
              (Nat.le_0_l 1)) as (Hlen & Hlast & _).
  split; [|exact Hlen].
  eexists. split; [exact (proj1 Hlast)|]. repeat split.
Defined.

(* ================================================================== *)
(** * The Quiz Assessment Engine: grading *)
(* ================================================================== *)

Module GradingFacts.

Import GradingSpec.

(** ** Equal values *)
















(** ** Equal texts *)
























End GradingFacts.




(** Grading on sample payloads: a multiple_choice answer must match the
    stored text exactly, a short_answer is compared without case and outer
    whitespace (the no-break space U+00A0 is whitespace, and the capital of
    U+00E9 is U+00C9), a code answer is never correct, and for a true_false
    question the boolean True equals the numbers 1 and 1.0 (as it does in
    Python). *)
Example grading_samples :
  Quizzes.is_correct Examples.question_11 (JStr "A") = true
  /\ Quizzes.is_correct Examples.question_11 (JStr "a") = false
  /\ Quizzes.is_correct Examples.question_11 (JStr " A") = false
  /\ Quizzes.is_correct Examples.question_12 (JStr "  WHILE ") = true
  /\ Quizzes.is_correct Examples.question_12
       (JStr (String (ascii_of_N 160) "While")) = true
  /\ Quizzes.is_correct Examples.question_12 (JStr "w hile") = false
  /\ Quizzes.is_correct Examples.question_21 (JStr "def f(): pass") = false
  /\ Quizzes.points_earned Examples.question_11 (JStr "A") = 29
  /\ Quizzes.points_earned Examples.question_11 (JStr "B") = 0
  /\ Py.lower (String (ascii_of_N 201) "COLE") = String (ascii_of_N 233) "cole"
  /\ PyJson.eq (JBool true) (JInt 1) = true
  /\ PyJson.eq (JInt 1) (JFloat (S754_finite false 4503599627370496 (-52))) = true
  /\ PyJson.eq (JFloat S754_nan) (JFloat S754_nan) = false
  /\ PyJson.eq (JList [JFloat S754_nan]) (JList [JFloat S754_nan]) = true
  /\ PyJson.eq (JStr "1") (JInt 1) = false.
Proof. vm_compute. repeat split. Qed.

(** What [str] makes of values that are not strings. *)
Example str_samples :
  PyJson.str (JBool true) = "True"
  /\ PyJson.str JNull = "None"
  /\ PyJson.str (JInt (-12)) = "-12"
  /\ PyJson.str (JFloat (S754_finite false 4503599627370496 (-52))) = "1.0"
  /\ PyJson.str (JFloat (S754_finite false 7205759403792794 (-56))) = "0.1"
  /\ PyJson.str (JFloat (S754_finite false 5000000000000000 1)) = "1e+16"
  /\ PyJson.str (JList [JStr "a"; JInt 1; JNull]) = "['a', 1, None]"
  /\ PyJson.str (JObject [("k", JBool false)]) = "{'k': False}".
Proof. vm_compute. repeat split. Qed.

(* ================================================================== *)
(** * Sessions and the identity dependencies *)
(* ================================================================== *)

Module SessionFacts.

Import SessionSpec.

Lemma parse_digit_step (c : ascii) (s : string) (acc : Z) (b : bool) (k : Z) :
  Ascii.eqb c "_" = false ->
  Py.digit_val c = Some k ->
  Py.parse_digits (String c s) acc b = Py.parse_digits s (10 * acc + k) true.
Proof. intros H1 H2. cbn [Py.parse_digits]. now rewrite H1, H2. Qed.

Lemma parse_uint_acc (d : Decimal.uint) :
  forall acc : positive,
    Py.parse_digits (NilEmpty.string_of_uint d) (Z.pos acc) true
    = Some (Z.pos (Pos.of_uint_acc d acc)).
Proof.
  induction d; intros acc; cbn [NilEmpty.string_of_uint Pos.of_uint_acc];
    [reflexivity | ..];
    (erewrite parse_digit_step by reflexivity);
    rewrite <- IHd; f_equal;
    match goal with
    | |- context [Z.of_N (N_of_ascii ?c) - 48] =>
        let v := eval vm_compute in (Z.of_N (N_of_ascii c) - 48) in
        change (Z.of_N (N_of_ascii c) - 48) with v
    end; lia.
Qed.

Lemma parse_uint (d : Decimal.uint) :
  (forall b, d <> Decimal.Nil ->
             Py.parse_digits (NilEmpty.string_of_uint d) 0 b
             = Some (Z.of_N (Pos.of_uint d)))
  /\ Py.parse_digits (NilEmpty.string_of_uint d) 0 true = Some (Z.of_N (Pos.of_uint d)).
Proof.
  induction d; (split; [intros b Hd|]); try congruence; try reflexivity;
    cbn [NilEmpty.string_of_uint Pos.of_uint];
    (erewrite parse_digit_step by reflexivity);
    try (exact (proj2 IHd));
    exact (parse_uint_acc d _).
Qed.

(** The digits of a decimal numeral and its size. *)
Lemma of_uint_acc_bounds (d : Decimal.uint) :
  forall acc : positive,
    Z.pos acc * 10 ^ Z.of_nat (Decimal.nb_digits d) <= Z.pos (Pos.of_uint_acc d acc)
    /\ Z.pos (Pos.of_uint_acc d acc)
       < (Z.pos acc + 1) * 10 ^ Z.of_nat (Decimal.nb_digits d).
Proof.
  induction d; intros acc; cbn [Pos.of_uint_acc Decimal.nb_digits];
    [change (10 ^ Z.of_nat 0) with 1; lia | ..];
    rewrite Nat2Z.inj_succ, Z.pow_succ_r by lia;
    match goal with
    | |- context [Pos.of_uint_acc d ?a] => destruct (IHd a) as [Hlo Hhi]
    end;
    assert (0 < 10 ^ Z.of_nat (Decimal.nb_digits d)) by (apply Z.pow_pos_nonneg; lia);
    split; nia.
Qed.

(** [Pos.to_uint] writes no leading zero. *)
Lemma to_uint_leading (p : positive) :
  exists (d : Decimal.uint) (acc : positive),
    Decimal.nb_digits (Pos.to_uint p) = S (Decimal.nb_digits d)
    /\ p = Pos.of_uint_acc d acc /\ 1 <= Z.pos acc <= 9.
Proof.
  pose proof (DecimalPos.Unsigned.of_to p) as Hof.
  pose proof (DecimalPos.Unsigned.to_of (Pos.to_uint p)) as Hto.
  rewrite Hof in Hto. change (N.to_uint (N.pos p)) with (Pos.to_uint p) in Hto.
  destruct (Pos.to_uint p) as [|d|d|d|d|d|d|d|d|d|d] eqn:E;
    cbn [Pos.of_uint] in Hof; try discriminate.
  1: { exfalso. unfold Decimal.unorm in Hto. cbn [Decimal.nzhead] in Hto.
       pose proof (DecimalFacts.nb_digits_nzhead d) as Hlen.
       destruct (Decimal.nzhead d) eqn:En; try discriminate Hto.
       - injection Hto as ->. cbn in Hof. discriminate.
       - injection Hto as ->. cbn [Decimal.nb_digits] in Hlen. lia. }
  all: injection Hof as <-; eexists d, _; cbn [Decimal.nb_digits];
    split; [reflexivity|]; split; [reflexivity|]; lia.
Qed.

(** The decimal text of [p] has at most [n] digits exactly when [p < 10 ^ n]. *)
Lemma nb_digits_to_uint (p : positive) (n : Z) :
  0 <= n ->
  (Z.of_nat (Decimal.nb_digits (Pos.to_uint p)) <= n <-> Z.pos p < 10 ^ n).
Proof.
  intros Hn.
  destruct (to_uint_leading p) as (d & acc & Hlen & Hp & Hacc).
  rewrite Hlen, Nat2Z.inj_succ.
  destruct (of_uint_acc_bounds d acc) as [Hlo Hhi]. rewrite <- Hp in Hlo, Hhi.
  set (m := Z.of_nat (Decimal.nb_digits d)) in *.
  assert (Hm : 0 <= m) by (unfold m; lia).
  assert (Hpos : 0 < 10 ^ m) by (apply Z.pow_pos_nonneg; lia).
  split.
  - intros Hle.
    assert (H : 10 ^ Z.succ m <= 10 ^ n) by (apply Z.pow_le_mono_r; lia).
    rewrite Z.pow_succ_r in H by lia. nia.
  - intros Hlt. destruct (Z_lt_le_dec m n) as [Hmn|Hmn]; [lia|].
    assert (10 ^ n <= 10 ^ m) by (apply Z.pow_le_mono_r; lia). nia.
Qed.

Lemma count_digit_step (c : ascii) (s : string) (k : Z) :
  Ascii.eqb c "_" = false ->
  Py.digit_val c = Some k ->
  Py.count_digits (String c s) = 1 + Py.count_digits s.
Proof. intros H1 H2. cbn [Py.count_digits]. now rewrite H1, H2. Qed.

Lemma count_digits_uint (d : Decimal.uint) :
  Py.count_digits (NilEmpty.string_of_uint d) = Z.of_nat (Decimal.nb_digits d).
Proof.
  induction d; cbn [NilEmpty.string_of_uint Decimal.nb_digits]; [reflexivity | ..];
    (erewrite count_digit_step by reflexivity); lia.
Qed.

Lemma underscores_uint (d : Decimal.uint) :
  d <> Decimal.Nil ->
  forall b, Py.underscores_between_digits (NilEmpty.string_of_uint d) b = true.
Proof.
  assert (H : forall d, Py.underscores_between_digits (NilEmpty.string_of_uint d) true
                        = true).
  { intros d'. induction d'; cbn [NilEmpty.string_of_uint]; [reflexivity | ..]; exact IHd'. }
  destruct d; intros Hd b; try congruence; cbn [NilEmpty.string_of_uint]; apply H.
Qed.

(** [int(str(n))]: the number again, unless its text has more digits than
    [int()] reads. *)
Lemma int_of_str_of_pos (p : positive) :
  let text := NilEmpty.string_of_uint (Pos.to_uint p) in
  Py.skip_spaces text = text
  /\ (forall r, text <> String "+" r) /\ (forall r, text <> String "-" r)
  /\ Py.parse_digits text 0 false = Some (Z.pos p)
  /\ Py.underscores_between_digits text false = true
  /\ (Py.max_str_digits <? Py.count_digits text) = negb (Z.pos p <? 10 ^ Py.max_str_digits).
Proof.
  intros text. unfold text.
  pose proof (Unsigned.to_uint_nonnil p) as Hnil.
  pose proof (Unsigned.of_to p) as Hof.
  pose proof (proj1 (parse_uint (Pos.to_uint p)) false Hnil) as Hparse.
  pose proof (underscores_uint _ Hnil false) as Hunder.
  pose proof (nb_digits_to_uint p Py.max_str_digits ltac:(discriminate)) as Hlen.
  rewrite <- count_digits_uint in Hlen. rewrite Hof in Hparse.
  split; [|split; [|split; [|split; [exact Hparse|split; [exact Hunder|]]]]].
  - destruct (Pos.to_uint p); try congruence; reflexivity.
  - destruct (Pos.to_uint p); discriminate.
  - destruct (Pos.to_uint p); discriminate.
  - destruct (Z.ltb_spec Py.max_str_digits
                (Py.count_digits (NilEmpty.string_of_uint (Pos.to_uint p))));
      destruct (Z.ltb_spec (Z.pos p) (10 ^ Py.max_str_digits)); try reflexivity; lia.
Qed.

Lemma str_of_int_cases (n : Z) :
  PyJson.str_of_int n
  = match n with
    | Z0 => "0"
    | Z.pos p => NilEmpty.string_of_uint (Pos.to_uint p)
    | Z.neg p => String "-" (NilEmpty.string_of_uint (Pos.to_uint p))
    end.
Proof.
  unfold PyJson.str_of_int. destruct n as [|p|p]; [reflexivity | |];
    cbn [Z.to_int NilZero.string_of_int];
    pose proof (Unsigned.to_uint_nonnil p) as Hnil;
    destruct (Pos.to_uint p); try congruence; reflexivity.
Qed.

Lemma int_of_str_of_int (n : Z) :
  Py.int_of_str (PyJson.str_of_int n)
  = if Z.abs n <? 10 ^ Py.max_str_digits then Some n else None.
Proof.
  rewrite str_of_int_cases. destruct n as [|p|p]; [reflexivity | |];
    destruct (int_of_str_of_pos p) as (Hskip & Hplus & Hminus & Hparse & _ & Hlimit);
    cbn [Z.abs]; unfold Py.int_of_str.
  - rewrite Hskip.
    destruct (NilEmpty.string_of_uint (Pos.to_uint p)) as [|c r] eqn:E.
    + unfold Py.parse_literal. cbn in Hparse. discriminate.
    + assert (Hc : c <> "+"%char /\ c <> "-"%char).
      { split; intros ->; [exact (Hplus r eq_refl) | exact (Hminus r eq_refl)]. }
      assert (Hgo : match String c r with
                    | String "+" r' => Py.parse_literal r'
                    | String "-" r' => option_map Z.opp (Py.parse_literal r')
                    | t => Py.parse_literal t
                    end = Py.parse_literal (String c r)).
      { destruct c as [[] [] [] [] [] [] [] []]; try reflexivity;
          destruct Hc as [H1 H2]; congruence. }
      rewrite Hgo. unfold Py.parse_literal. rewrite Hlimit, Hparse.
      now destruct (Z.pos p <? 10 ^ Py.max_str_digits).
  - cbn [Py.skip_spaces]. change (Py.isspace_c "-") with false. cbv iota.
    unfold Py.parse_literal. rewrite Hlimit, Hparse.
    now destruct (Z.pos p <? 10 ^ Py.max_str_digits).
Qed.

(** The error of a text with too many digits names their number. *)
Lemma int_error_of_int (n : Z) :
  10 ^ Py.max_str_digits <= Z.abs n ->
  exists digits,
    Py.max_str_digits < digits
    /\ Py.int_error (PyJson.str_of_int n) = ExceedsMaxStrDigits digits.
Proof.
  intros Hbig. rewrite str_of_int_cases.
  assert (Hone : 0 < 10 ^ Py.max_str_digits)
    by (apply Z.pow_pos_nonneg; [lia | discriminate]).
  destruct n as [|p|p]; cbn [Z.abs] in Hbig; [lia | |];
    destruct (int_of_str_of_pos p) as (Hskip & Hplus & Hminus & _ & Hunder & Hlimit);
    apply Z.ltb_ge in Hbig; rewrite Hbig in Hlimit; cbn [negb] in Hlimit;
    exists (Py.count_digits (NilEmpty.string_of_uint (Pos.to_uint p)));
    (split; [now apply Z.ltb_lt|]); unfold Py.int_error.
  - rewrite Hskip.
    destruct (NilEmpty.string_of_uint (Pos.to_uint p)) as [|c r] eqn:E;
      [discriminate Hunder|].
    assert (Hc : c <> "+"%char /\ c <> "-"%char).
    { split; intros ->; [exact (Hplus r eq_refl) | exact (Hminus r eq_refl)]. }
    assert (Hgo : match String c r with
                  | String "+" r' => r'
                  | String "-" r' => r'
                  | t => t
                  end = String c r).
    { destruct c as [[] [] [] [] [] [] [] []]; try reflexivity;
        destruct Hc as [H1 H2]; congruence. }
    rewrite Hgo, Hunder, Hlimit. reflexivity.
  - cbn [Py.skip_spaces]. change (Py.isspace_c "-") with false. cbv iota.
    rewrite Hunder, Hlimit. reflexivity.
Qed.

Lemma contains_char_cons (sep c : ascii) (s : string) :
  Py.contains (String sep EmptyString) (String c s)
  = Ascii.eqb c sep || Py.contains (String sep EmptyString) s.
Proof.
  cbn [Py.contains String.prefix].
  destruct (ascii_dec sep c) as [->|Hne].
  - rewrite Ascii.eqb_refl. now destruct s.
  - destruct (Ascii.eqb_spec c sep) as [->|_]; [congruence | reflexivity].
Qed.

Lemma split_no_sep (sep : ascii) (a : string) :
  Py.contains (String sep EmptyString) a = false -> Py.split sep a = [a].
Proof.
  induction a as [|c a IH]; [reflexivity|].
  rewrite contains_char_cons. intros H. apply orb_false_elim in H as [Hc Ha].
  cbn [Py.split]. now rewrite Hc, (IH Ha).
Qed.

Lemma split_app_sep (sep : ascii) (a b : string) :
  Py.contains (String sep EmptyString) a = false ->
  Py.split sep (a ++ String sep b) = a :: Py.split sep b.
Proof.
  induction a as [|c a IH]; cbn [append Py.split].
  - now rewrite Ascii.eqb_refl.
  - rewrite contains_char_cons. intros H. apply orb_false_elim in H as [Hc Ha].
    now rewrite Hc, (IH Ha).
Qed.

Lemma split_nonempty (sep : ascii) (s : string) : Py.split sep s <> [].
Proof.
  induction s as [|c s IH]; cbn [Py.split]; [discriminate|].
  destruct (Ascii.eqb c sep); [discriminate|].
  now destruct (Py.split sep s).
Qed.

(** [sep.join(s.split(sep)) == s], and no part contains the separator. *)
Lemma join_split (sep : ascii) (s : string) :
  join (String sep EmptyString) (Py.split sep s) = s
  /\ Forall (fun p => Py.contains (String sep EmptyString) p = false) (Py.split sep s).
Proof.
  induction s as [|c s [IHj IHf]]; cbn [Py.split].
  - split; [reflexivity | now repeat constructor].
  - pose proof (split_nonempty sep s) as Hne.
    destruct (Ascii.eqb_spec c sep) as [->|Hc].
    + split.
      * destruct (Py.split sep s) as [|h t]; [congruence|].
        cbn [join append] in *. now rewrite IHj.
      * constructor; [reflexivity | exact IHf].
    + destruct (Py.split sep s) as [|h t]; [congruence|].
      split.
      * destruct t; cbn [join append] in *; now rewrite <- IHj.
      * inversion IHf as [|? ? Hh Ht]; subst. constructor; [|exact Ht].
        rewrite contains_char_cons, Hh.
        now destruct (Ascii.eqb_spec c sep).
Qed.

Lemma contains_pipe_uint (d : Decimal.uint) :
  Py.contains "|" (NilEmpty.string_of_uint d) = false.
Proof.
  induction d; cbn [NilEmpty.string_of_uint]; [reflexivity | ..];
    rewrite contains_char_cons; exact IHd.
Qed.

Lemma contains_pipe_str_of_int (n : Z) : Py.contains "|" (PyJson.str_of_int n) = false.
Proof.
  unfold PyJson.str_of_int.
  destruct (Z.to_int n) as [d|d]; cbn [NilZero.string_of_int];
    [|rewrite contains_char_cons; cbn [Ascii.eqb Bool.eqb orb]];
    (destruct d; [reflexivity | ..]; apply contains_pipe_uint).
Qed.

Lemma parse_session_header (role : string) (uid : Z) (email : string) :
  Py.contains "|" role = false ->
  Py.contains "|" email = false ->
  parse_session (session_header role uid email)
  = if Z.abs uid <? 10 ^ Py.max_str_digits
    then Ok {| user_id := uid; email := email; role := role |}
    else Raise (ValueErr (Py.int_error (PyJson.str_of_int uid))).
Proof.
  intros Hrole Hemail. unfold parse_session, session_header.
  change (role ++ "|" ++ PyJson.str_of_int uid ++ "|" ++ email)%string
    with (role ++ String "|" (PyJson.str_of_int uid ++ String "|" email))%string.
  rewrite (split_app_sep _ _ _ Hrole),
          (split_app_sep _ _ _ (contains_pipe_str_of_int uid)),
          (split_no_sep _ _ Hemail).
  rewrite int_of_str_of_int. now destruct (Z.abs uid <? 10 ^ Py.max_str_digits).
Qed.

Lemma parse_session_ok_inv (s : string) (p : Payload) :
  parse_session s = Ok p ->
  exists uid_text,
    s = (role p ++ "|" ++ uid_text ++ "|" ++ email p)%string
    /\ Py.int_of_str uid_text = Some (user_id p)
    /\ Py.contains "|" (role p) = false
    /\ Py.contains "|" uid_text = false
    /\ Py.contains "|" (email p) = false.
Proof.
  unfold parse_session. intros H.
  destruct (join_split "|" s) as [Hjoin Hparts].
  destruct (Py.split "|" s) as [|r [|u [|e [|x rest]]]]; try discriminate.
  destruct (Py.int_of_str u) as [n|] eqn:Hint; [|discriminate].
  injection H as <-. cbn [role email user_id].
  exists u. cbn [join] in Hjoin.
  inversion Hparts as [|? ? Hr Hparts']; subst.
  inversion Hparts' as [|? ? Hu Hparts'']; subst.
  inversion Hparts'' as [|? ? He _]; subst.
  repeat split; auto.
Qed.

End SessionFacts.

(** X1. A header built in the documented format, ROLE|USERID|EMAIL with the
    id in decimal and no "|" inside the role or the e-mail, is read back
    field by field on every path that asks for a session, provided the id has
    no more than the 4300 digits [int()] reads; the dependencies built on the
    payload then return the id it names. No table is consulted: any non-zero
    id is taken at its word. A header whose id has more digits is refused
    with status 401, the detail naming the number of digits. *)
Theorem session_header_round_trip (path role email : string) (uid : Z) :
  SessionSpec.guarded path = true ->
  Py.contains "|" role = false ->
  Py.contains "|" email = false ->
  let request :=
    SessionSpec.with_header path (Some (SessionSpec.session_header role uid email)) in
  (Z.abs uid < 10 ^ Py.max_str_digits ->
   get_current_user_payload request
   = Ok {| user_id := uid; email := email; role := role |}
   /\ AuthDependencies.get_current_user_id request
      = (if uid =? 0
         then Raise (HTTPException 401 (Text "Not authenticated"))
         else Ok uid)
   /\ (role = "teacher" -> uid <> 0 -> get_current_teacher_id request = Ok uid))
  /\ (10 ^ Py.max_str_digits <= Z.abs uid ->
      exists digits,
        Py.max_str_digits < digits
        /\ get_current_user_payload request
           = Raise (HTTPException 401 (InvalidSession (ExceedsMaxStrDigits digits)))).
Proof.
  intros Hpath Hrole Hemail request.
  assert (Hread : get_current_user_payload request
                  = match parse_session (SessionSpec.session_header role uid email) with
                    | Ok payload => Ok payload
                    | Raise (ValueErr ve) => Raise (HTTPException 401 (InvalidSession ve))
                    | Raise _ => Raise (HTTPException 401 (Text "Invalid authentication"))
                    end).
  { unfold request, get_current_user_payload, SessionSpec.with_header.
    cbn [url_path x_session_id].
    unfold SessionSpec.guarded in Hpath. rewrite Hpath.
    unfold SessionSpec.session_header. now destruct role. }
  rewrite (SessionFacts.parse_session_header role uid email Hrole Hemail) in Hread.
  split.
  - intros Hsmall. apply Z.ltb_lt in Hsmall. rewrite Hsmall in Hread.
    split; [exact Hread|]. split.
    + unfold AuthDependencies.get_current_user_id. now rewrite Hread.
    + intros -> Huid. unfold get_current_teacher_id. rewrite Hread.
      cbn [Py.bind user_id Auth.role]. apply Z.eqb_neq in Huid. now rewrite Huid.
  - intros Hbig.
    destruct (SessionFacts.int_error_of_int uid Hbig) as (digits & Hdigits & Herror).
    exists digits. split; [exact Hdigits|].
    apply Z.ltb_ge in Hbig. now rewrite Hbig, Herror in Hread.
Qed.

Lemma session_header_round_trip_witness :
  get_current_user_payload
    (SessionSpec.with_header "/api/quizzes/1" (Some "teacher|2|teacher@example.com"))
  = Ok {| user_id := 2; email := "teacher@example.com"; role := "teacher" |}
  /\ get_current_teacher_id
       (SessionSpec.with_header "/api/quizzes/1" (Some "teacher|2|teacher@example.com"))
     = Ok 2.
Proof.
  destruct (session_header_round_trip
              "/api/quizzes/1" "teacher" "teacher@example.com" 2
              eq_refl eq_refl eq_refl) as [Hsmall _].
  destruct (Hsmall ltac:(vm_compute; reflexivity)) as (H1 & _ & H3).
  exact (conj H1 (H3 eq_refl ltac:(discriminate))).
Defined.

(** A session whose id has 4300 digits is read, one with 4301 digits is
    refused; the spaces [int()] skips include the no-break space. *)
Example session_ids_of_4300_digits :
  (exists n,
      get_current_user_payload
        (SessionSpec.with_header "/api/quizzes/1"
           (Some ("student|" ++ Examples.ones 4300 ++ "|x")%string))
      = Ok {| user_id := n; email := "x"; role := "student" |})
  /\ get_current_user_payload
       (SessionSpec.with_header "/api/quizzes/1"
          (Some ("student|" ++ Examples.ones 4301 ++ "|x")%string))
     = Raise (HTTPException 401 (InvalidSession (ExceedsMaxStrDigits 4301)))
  /\ Py.int_of_str (String (ascii_of_N 160) "5") = Some 5.
Proof.
  split; [|split; vm_compute; reflexivity].
  destruct (get_current_user_payload _) as [[n e r]|e] eqn:H;
    [|vm_compute in H; discriminate].
  exists n. f_equal. vm_compute in H. now injection H as <- <- <-.
Qed.

(** X2. [parse_session] accepts exactly the texts with three "|"-separated
    fields whose middle field [int()] can read; the role and the e-mail are
    returned as they stand in the header, neither trimmed nor lower-cased. *)
Theorem session_accepted_iff_well_formed (s : string) (p : Payload) :
  parse_session s = Ok p <->
  exists uid_text,
    s = (role p ++ "|" ++ uid_text ++ "|" ++ email p)%string
    /\ Py.int_of_str uid_text = Some (user_id p)
    /\ Py.contains "|" (role p) = false
    /\ Py.contains "|" uid_text = false
    /\ Py.contains "|" (email p) = false.
Proof.
  split; [apply SessionFacts.parse_session_ok_inv|].
  intros (u & -> & Hint & Hr & Hu & He). unfold parse_session.
  change (role p ++ "|" ++ u ++ "|" ++ email p)%string
    with (role p ++ String "|" (u ++ String "|" (email p)))%string.
  rewrite (SessionFacts.split_app_sep _ _ _ Hr), (SessionFacts.split_app_sep _ _ _ Hu),
          (SessionFacts.split_no_sep _ _ He), Hint.
  now destruct p.
Qed.

(** X3. [get_current_teacher_id] returns an id only for a request on a
    guarded path whose session header parses to the role "teacher" (exactly
    that text) and to that id, and the id is not 0. *)
Theorem teacher_id_requires_a_teacher_session (request : Request) (tid : Z) :
  get_current_teacher_id request = Ok tid <->
  SessionSpec.guarded (url_path request) = true
  /\ tid <> 0
  /\ exists s email,
       x_session_id request = Some s
       /\ parse_session s
          = Ok {| user_id := tid; email := email; role := "teacher" |}.
Proof.
  unfold get_current_teacher_id, get_current_user_payload, SessionSpec.guarded.
  split.
  - destruct (is_protected (url_path request) && negb (should_skip_auth (url_path request)));
      [|discriminate].
    destruct (x_session_id request) as [[|c s]|]; try discriminate.
    destruct (parse_session (String c s)) as [p|e] eqn:Hp;
      [|destruct e; discriminate].
    cbn [Py.bind]. destruct (user_id p =? 0) eqn:Hz; [discriminate|].
    destruct (String.eqb (role p) "teacher") eqn:Hr; [|discriminate].
    cbn [negb]. intros [= <-]. split; [reflexivity|]. split; [now apply Z.eqb_neq|].
    exists (String c s), (email p). split; [reflexivity|].
    apply String.eqb_eq in Hr. rewrite Hp. destruct p; cbn in *. now subst.
  - intros (-> & Hz & s & e & -> & Hp).
    destruct s as [|c s]; [discriminate|]. rewrite Hp. cbn [Py.bind user_id role].
    apply Z.eqb_neq in Hz. now rewrite Hz.
Qed.

Module IdentityFacts.

Import SessionSpec AuthDependencies.

Lemma unguarded_payload (request : Request) :
  guarded (url_path request) = false ->
  get_current_user_payload request = Ok anonymous.
Proof. unfold guarded, get_current_user_payload. now intros ->. Qed.

Lemma payload_raises_401 (request : Request) (e : Exception) :
  get_current_user_payload request = Raise e ->
  exists d, e = HTTPException 401 d.
Proof.
  unfold get_current_user_payload.
  destruct (is_protected _ && negb _); [|discriminate].
  destruct (x_session_id request) as [[|c s]|]; try (intros [= <-]; eauto).
  destruct (parse_session (String c s)) as [p|[]]; try discriminate;
    intros [= <-]; eauto.
Qed.

End IdentityFacts.

(** X4. The dependencies built on the payload: [get_current_user_id] never
    returns 0, [get_current_user_role] returns only "student" or "teacher",
    the two fail only with status 401 and [get_current_teacher_id] only with
    401 or 403; on a path that is not guarded all three refuse the request,
    whatever session header it carries. *)
Theorem identity_dependencies_answers (request : Request) :
  (forall n, AuthDependencies.get_current_user_id request = Ok n -> n <> 0)
  /\ (forall r, AuthDependencies.get_current_user_role request = Ok r ->
                r = "student" \/ r = "teacher")
  /\ (forall e,
         AuthDependencies.get_current_user_id request = Raise e
         \/ AuthDependencies.get_current_user_role request = Raise e ->
         exists d, e = HTTPException 401 d)
  /\ (forall e, get_current_teacher_id request = Raise e ->
                exists d, e = HTTPException 401 d \/ e = HTTPException 403 d)
  /\ (SessionSpec.guarded (url_path request) = false ->
      AuthDependencies.get_current_user_id request
      = Raise (HTTPException 401 (Text "Not authenticated"))
      /\ AuthDependencies.get_current_user_role request
         = Raise (HTTPException 401 (Text "Invalid user role"))
      /\ get_current_teacher_id request
         = Raise (HTTPException 401 (Text "Not authenticated"))).
Proof.
  unfold AuthDependencies.get_current_user_id, AuthDependencies.get_current_user_role,
    get_current_teacher_id.
  split; [|split; [|split; [|split]]].
  - intros n. destruct (get_current_user_payload request) as [p|e]; [|discriminate].
    cbn [Py.bind]. destruct (user_id p =? 0) eqn:Hz; [discriminate|].
    intros [= <-]. now apply Z.eqb_neq.
  - intros r. destruct (get_current_user_payload request) as [p|e]; [|discriminate].
    cbn [Py.bind existsb].
    destruct (String.eqb_spec (role p) "student") as [->|_]; [intros [= <-]; now left|].
    destruct (String.eqb_spec (role p) "teacher") as [->|_]; [intros [= <-]; now right|].
    discriminate.
  - intros e. destruct (get_current_user_payload request) as [p|e'] eqn:Hp; cbn [Py.bind].
    + intros [H|H].
      * destruct (user_id p =? 0); [injection H as <-; eauto | discriminate].
      * destruct (negb _); [injection H as <-; eauto | discriminate].
    + intros [[= <-]|[= <-]]; exact (IdentityFacts.payload_raises_401 _ _ Hp).
  - intros e. destruct (get_current_user_payload request) as [p|e'] eqn:Hp; cbn [Py.bind].
    + destruct (user_id p =? 0); [intros [= <-]; eauto|].
      destruct (negb _); [intros [= <-]; eauto | discriminate].
    + intros [= <-]. destruct (IdentityFacts.payload_raises_401 _ _ Hp) as [d ->]. eauto.
  - intros H. now rewrite (IdentityFacts.unguarded_payload _ H).
Qed.

(* ================================================================== *)
(** * Submissions: creation, listings and evaluation *)
(* ================================================================== *)

Module ListingFacts.

Section Pages.

Context {A : Type}.







(** The key an INSERT assigns is in use by no row. *)
Lemma first_next_id (key : A -> Z) (rows : list A) :
  Query.first (fun r => key r =? Query.next_id (map key rows)) rows = None.
Proof.
  destruct (Query.first _ rows) as [r|] eqn:H; [|reflexivity].
  apply find_some in H as [Hin Heq]. apply Z.eqb_eq in Heq.
  pose proof (AnswerFacts.next_id_fresh (map key rows) (key r) (in_map key _ _ Hin)).
  lia.
Qed.


End Pages.

End ListingFacts.

(** X5. A submission that [create_submission] stores gets an id larger than
    every id in use, is returned by [get_submission] under that id with
    status "submitted", leaves every other lookup as it was, and is the row
    that follows the student's earlier submissions in the student's listing. *)
Theorem created_submission_is_read_back
  (db : Database.t) (student exercise : Z) (code language : string) :
  let created := SubmissionListing.create_submission db student exercise code language in
  let new_id := ExerciseSubmission.id (snd created) in
  SubmissionService.get_submission (fst created) new_id = Some (snd created)
  /\ SubmissionService.get_submission db new_id = None
  /\ (forall i, i <> new_id ->
                SubmissionService.get_submission (fst created) i
                = SubmissionService.get_submission db i)
  /\ (forall s, In s (Database.exercise_submissions db) ->
                ExerciseSubmission.id s < new_id)
  /\ ExerciseSubmission.status (snd created) = "submitted"
  /\ SubmissionListing.get_student_submissions
       (fst created) student
       (Z.of_nat (List.length
                    (Query.all (fun s => ExerciseSubmission.student_id s =? student)
                               (Database.exercise_submissions db))))
       1
     = [snd created].
Proof.
  cbv zeta. unfold SubmissionListing.create_submission, SubmissionService.get_submission.
  cbn [fst snd ExerciseSubmission.id Database.exercise_submissions
       set_exercise_submissions ExerciseSubmission.status].
  pose proof (ListingFacts.first_next_id ExerciseSubmission.id
                (Database.exercise_submissions db)) as Hfresh.
  split; [|split; [exact Hfresh|split; [|split; [|split; [reflexivity|]]]]].
  - apply first_app_fresh; [exact Hfresh|].
    unfold SubmissionService.by_id. cbn [ExerciseSubmission.id]. apply Z.eqb_refl.
  - intros i Hi. apply first_app_frame.
    unfold SubmissionService.by_id. cbn [ExerciseSubmission.id]. now apply Z.eqb_neq.
  - intros s Hin. apply AnswerFacts.next_id_fresh. now apply in_map.
  - unfold SubmissionListing.get_student_submissions.
    cbn [Database.exercise_submissions set_exercise_submissions].
    unfold Query.all. rewrite filter_app. cbn [filter ExerciseSubmission.student_id].
    rewrite Z.eqb_refl.
    unfold Page.limit, Page.offset. cbn [Z.ltb Z.compare Z.to_nat].
    rewrite Nat2Z.id. cbn [Pos.to_nat Pos.iter_op]. unfold Query.all.
    rewrite skipn_app, skipn_all, Nat.sub_diag. reflexivity.
Qed.


Module EvaluationFacts.

Section UpdateFirst.

Context {A B : Type}.
Variables (p : A -> bool) (key : A -> B).

(** Rewriting the first selected row with a row of the same [key] keeps
    the column [key] of the table as it was. *)
Lemma map_update_first (r' old : A) (rows : list A) :
  Query.first p rows = Some old ->
  key r' = key old ->
  map key (Query.update_first p (fun _ => r') rows) = map key rows.
Proof.
  intros Hold Hkey. induction rows as [|r rows IH]; [reflexivity|].
  cbn [Query.update_first Query.first find] in *. destruct (p r) eqn:Hp; cbn [map].
  - injection Hold as ->. now rewrite Hkey.
  - now rewrite IH.
Qed.

End UpdateFirst.

End EvaluationFacts.

(** X7. [update_submission_status] rewrites one row: the ids, students,
    exercises and code of the table stay as they were, every other
    submission reads as before, the progress table is not touched; the row
    itself takes the new status, keeps its score and feedback where none is
    given, and is stamped as completed only for the status "passing". For an
    unknown id nothing changes. *)
Theorem update_submission_status_touches_one_row
  (now : datetime) (db : Database.t) (submission_id : Z) (status : string)
  (score : option Z) (feedback : option string) :
  let updated :=
    SubmissionService.update_submission_status now db submission_id status score feedback in
  let rows := Database.exercise_submissions db in
  let rows' := Database.exercise_submissions (fst updated) in
  map ExerciseSubmission.id rows' = map ExerciseSubmission.id rows
  /\ map ExerciseSubmission.student_id rows' = map ExerciseSubmission.student_id rows
  /\ map ExerciseSubmission.exercise_id rows' = map ExerciseSubmission.exercise_id rows
  /\ map ExerciseSubmission.code rows' = map ExerciseSubmission.code rows
  /\ (forall i, i <> submission_id ->
                SubmissionService.get_submission (fst updated) i
                = SubmissionService.get_submission db i)
  /\ Database.progress (fst updated) = Database.progress db
  /\ match SubmissionService.get_submission db submission_id, snd updated with
     | Some old, Some new =>
         ExerciseSubmission.status new = status
         /\ ExerciseSubmission.score new
            = match score with Some _ => score | None => ExerciseSubmission.score old end
         /\ ExerciseSubmission.feedback new
            = match feedback with
              | Some _ => feedback
              | None => ExerciseSubmission.feedback old
              end
         /\ ExerciseSubmission.completed_at new
            = (if String.eqb status "passing" then Some now
               else ExerciseSubmission.completed_at old)
         /\ SubmissionService.get_submission (fst updated) submission_id = Some new
     | None, None => fst updated = db
     | _, _ => False
     end.
Proof.
  cbv zeta. unfold SubmissionService.update_submission_status,
              SubmissionService.get_submission.
  destruct (Query.first (SubmissionService.by_id submission_id)
                        (Database.exercise_submissions db)) as [old|] eqn:Hold.
  - cbn [fst snd Database.exercise_submissions set_exercise_submissions
         Database.progress].
    pose proof (first_Some_holds _ _ _ Hold) as Hid.
    repeat split;
      try (apply (EvaluationFacts.map_update_first _ _ _ old); [exact Hold | reflexivity]).
    + intros i Hi. apply first_update_first_frame.
      * intros r Hr. unfold SubmissionService.by_id in *.
        apply Z.eqb_eq in Hr. apply Z.eqb_neq. congruence.
      * unfold SubmissionService.by_id in *. cbn [ExerciseSubmission.id].
        apply Z.eqb_eq in Hid. apply Z.eqb_neq. congruence.
    + now destruct score.
    + now destruct feedback.
    + apply (first_update_first _ _ _ old); [|exact Hold].
      unfold SubmissionService.by_id in *. cbn [ExerciseSubmission.id]. exact Hid.
  - cbn [fst snd]. repeat split; auto.
Qed.

(* ================================================================== *)
(** * Progress rows and the statistics drawn from them *)
(* ================================================================== *)

Module StatsFacts.

Import Progress ProgressService ProgressSpec ProgressStats.

Lemma sum_from (l : list Z) (a : Z) : fold_left Z.add l a = a + Query.sum l.
Proof.
  unfold Query.sum. revert a. induction l as [|x l IH]; intros a; cbn [fold_left]; [lia|].
  rewrite (IH (a + x)), (IH (0 + x)). lia.
Qed.

Lemma sum_cons (x : Z) (l : list Z) : Query.sum (x :: l) = x + Query.sum l.
Proof. unfold Query.sum at 1. cbn [fold_left]. rewrite sum_from. lia. Qed.

Lemma sum_app (l l' : list Z) : Query.sum (l ++ l') = Query.sum l + Query.sum l'.
Proof.
  induction l as [|x l IH]; [reflexivity|].
  cbn [app]. rewrite !sum_cons, IH. lia.
Qed.

(** The attempts a student's rows add up to, and the number of those rows. *)
Lemma sum_filter_update_first {A} (p q : A -> bool) (g : A -> Z) (r' old : A)
      (rows : list A) :
  Query.first p rows = Some old ->
  q r' = q old ->
  Query.sum (map g (filter q (Query.update_first p (fun _ => r') rows)))
  = Query.sum (map g (filter q rows)) + (if q old then g r' - g old else 0).
Proof.
  intros Hold Hq. induction rows as [|r rows IH]; [discriminate|].
  cbn [Query.first find Query.update_first] in *. destruct (p r) eqn:Hp.
  - injection Hold as ->. cbn [filter]. rewrite Hq.
    destruct (q old); cbn [map]; rewrite ?sum_cons; lia.
  - cbn [filter]. destruct (q r); cbn [map]; rewrite ?sum_cons, (IH Hold); lia.
Qed.

Lemma length_filter_update_first {A} (p q : A -> bool) (r' old : A) (rows : list A) :
  Query.first p rows = Some old ->
  q r' = q old ->
  List.length (filter q (Query.update_first p (fun _ => r') rows))
  = List.length (filter q rows).
Proof.
  intros Hold Hq. induction rows as [|r rows IH]; [discriminate|].
  cbn [Query.first find Query.update_first] in *. destruct (p r) eqn:Hp.
  - injection Hold as ->. cbn [filter]. rewrite Hq. now destruct (q old).
  - cbn [filter]. destruct (q r); cbn [List.length]; now rewrite (IH Hold).
Qed.

Lemma attempts_apply db c s :
  Query.sum (map attempts
               (Query.all (fun p => student_id p =? s) (Database.progress (apply db c))))
  = Query.sum (map attempts
                 (Query.all (fun p => student_id p =? s) (Database.progress db)))
    + (if call_student c =? s then 1 else 0).
Proof.
  unfold apply, Query.all.
  destruct (lookup db (call_student c) (call_exercise c)) as [p|] eqn:Hp.
  - rewrite (ProgressFacts.update_progress_found _ _ _ _ _ _ _ Hp).
    cbn [fst Database.progress set_progress].
    rewrite (sum_filter_update_first _ _ _ _ p _ Hp) by reflexivity.
    destruct (ProgressFacts.for_pair_eq _ _ _ (first_Some_holds _ _ _ Hp)) as [Hs _].
    rewrite Hs. cbn [bump attempts]. destruct (call_student c =? s); lia.
  - rewrite (ProgressFacts.update_progress_absent _ _ _ _ _ _ Hp).
    cbn [fst Database.progress set_progress].
    rewrite filter_app, map_app, sum_app. cbn [filter create_progress snd bump student_id].
    destruct (call_student c =? s); cbn [map]; reflexivity.
Qed.

Lemma rows_apply db c s :
  (List.length (Query.all (fun p => (student_id p =? s)%Z) (Database.progress db))
   <= List.length (Query.all (fun p => (student_id p =? s)%Z)
                             (Database.progress (apply db c))))%nat.
Proof.
  unfold apply, Query.all.
  destruct (lookup db (call_student c) (call_exercise c)) as [p|] eqn:Hp.
  - rewrite (ProgressFacts.update_progress_found _ _ _ _ _ _ _ Hp).
    cbn [fst Database.progress set_progress].
    rewrite (length_filter_update_first _ _ _ p _ Hp) by reflexivity. lia.
  - rewrite (ProgressFacts.update_progress_absent _ _ _ _ _ _ Hp).
    cbn [fst Database.progress set_progress].
    rewrite filter_app, length_app. lia.
Qed.

Lemma get_student_stats_ok_inv db s stats :
  get_student_stats db s = Ok stats ->
  total_attempts stats
  = Query.sum (map attempts
                 (Query.all (fun p => student_id p =? s) (Database.progress db)))
  /\ total_exercises stats
     = Z.of_nat (List.length (Query.all (fun p => student_id p =? s)
                                        (Database.progress db))).
Proof.
  unfold get_student_stats.
  destruct (Query.all _ (Database.progress db)) as [|x l] eqn:E.
  all: match goal with
       | |- context [Py.bind ?c _] => destruct c as [avg|e]; [|discriminate]
       end; cbn [Py.bind]; intros [= <-]; cbn [total_attempts total_exercises]; auto.
Qed.

Lemma run_totals calls s :
  forall db,
    Query.sum (map attempts
                 (Query.all (fun p => student_id p =? s)
                            (Database.progress (run db calls))))
    = Query.sum (map attempts
                   (Query.all (fun p => student_id p =? s) (Database.progress db)))
      + Z.of_nat (List.length (filter (fun c => call_student c =? s) calls))
    /\ (List.length (Query.all (fun p => (student_id p =? s)%Z) (Database.progress db))
        <= List.length (Query.all (fun p => (student_id p =? s)%Z)
                                  (Database.progress (run db calls))))%nat.
Proof.
  induction calls as [|c calls IH]; intros db.
  - cbn [run fold_left filter List.length]. split; [lia | apply Nat.le_refl].
  - rewrite ProgressFacts.progress_run_cons.
    destruct (IH (apply db c)) as [IHsum IHlen].
    rewrite IHsum, attempts_apply. split.
    + cbn [filter]. destruct (call_student c =? s); cbn [List.length]; lia.
    + eapply Nat.le_trans; [apply rows_apply | exact IHlen].
Qed.

Lemma int_truediv_raise_inv (a b : Z) (e : Exception) :
  Py.int_truediv a b = Raise e ->
  (e = ZeroDivisionError /\ b = 0) \/ e = OverflowError.
Proof.
  unfold Py.int_truediv.
  destruct a, b; try discriminate; try (intros [= <-]; now left);
    match goal with
    | |- context [SpecFloat.SFdiv ?p ?m ?x ?y] => destruct (SpecFloat.SFdiv p m x y)
    end; try discriminate; intros [= <-]; now right.
Qed.

Lemma filter_and_nil {A} (a b : A -> bool) (rows : list A) :
  filter a rows = [] -> filter (fun r => a r && b r) rows = [].
Proof.
  induction rows as [|r rows IH]; [reflexivity|].
  cbn [filter]. destruct (a r); [discriminate|]. exact IH.
Qed.

Lemma filter_nil_iff {A} (a : A -> bool) (rows : list A) :
  filter a rows = [] <-> forall r, In r rows -> a r = false.
Proof.
  induction rows as [|r rows IH]; cbn [filter In]; [tauto|].
  destruct (a r) eqn:Ha; split.
  - discriminate.
  - intros H. rewrite (H r (or_introl eq_refl)) in Ha. discriminate.
  - intros H x [<-|Hx]; [exact Ha | now apply IH].
  - intros H. apply IH. intros x Hx. apply H. now right.
Qed.

Lemma exclusive_filters {A} (a b c : A -> bool) (rows : list A) :
  (forall r, b r = true -> c r = false) ->
  (List.length (filter (fun r => a r && b r) rows)
   + List.length (filter (fun r => a r && c r) rows)
   <= List.length (filter a rows))%nat.
Proof.
  intros Hbc. induction rows as [|r rows IH]; [apply Nat.le_refl|].
  cbn [filter]. destruct (a r), (b r) eqn:Hb, (c r) eqn:Hc; cbn [andb List.length];
    try (rewrite (Hbc r Hb) in Hc; discriminate); lia.
Qed.

End StatsFacts.

(** X8. The ["total_attempts"] that [get_student_stats] reports grows by
    exactly one with every [update_progress] call made for the student,
    whatever the exercise, status and score of the call, and by nothing with
    calls for other students; ["total_exercises"] never shrinks. *)
Theorem stats_total_attempts_count_the_updates
  (db : Database.t) (calls : list ProgressSpec.Call) (student : Z)
  (before after : ProgressStats.Stats) :
  ProgressStats.get_student_stats db student = Ok before ->
  ProgressStats.get_student_stats (ProgressSpec.run db calls) student = Ok after ->
  ProgressStats.total_attempts after
  = ProgressStats.total_attempts before
    + Z.of_nat (List.length
                  (filter (fun c => ProgressSpec.call_student c =? student) calls))
  /\ ProgressStats.total_exercises before <= ProgressStats.total_exercises after.
Proof.
  intros Hb Ha.
  destruct (StatsFacts.get_student_stats_ok_inv _ _ _ Hb) as [-> ->].
  destruct (StatsFacts.get_student_stats_ok_inv _ _ _ Ha) as [-> ->].
  destruct (StatsFacts.run_totals calls student db) as [Hsum Hlen].
  split; [exact Hsum | lia].
Qed.

Lemma stats_total_attempts_count_the_updates_witness :
  exists after,
    ProgressStats.get_student_stats
      (ProgressSpec.run Examples.empty Examples.scenario_C_D) 1 = Ok after
    /\ ProgressStats.total_attempts after = 2
    /\ 0 <= ProgressStats.total_exercises after.
Proof.
  eexists. split; [vm_compute; reflexivity|].
  exact (stats_total_attempts_count_the_updates
           Examples.empty Examples.scenario_C_D 1 _ _ eq_refl eq_refl).
Defined.

(** X9. [get_student_stats] never divides by zero: the only exception it
    can raise is the OverflowError of the division. For a student without
    progress rows every figure is 0; the figures returned satisfy
    completed + mastered <= total, and the average is the integer 0 exactly
    when none of the student's rows has a best score. *)
Theorem stats_never_divide_by_zero (db : Database.t) (student : Z) :
  (forall e, ProgressStats.get_student_stats db student = Raise e -> e = OverflowError)
  /\ (Query.all (fun p => Progress.student_id p =? student) (Database.progress db) = [] ->
      ProgressStats.get_student_stats db student
      = Ok {| ProgressStats.total_exercises := 0;
              ProgressStats.completed_exercises := 0;
              ProgressStats.mastered_exercises := 0;
              ProgressStats.average_score := ProgressStats.Int 0;
              ProgressStats.total_attempts := 0 |})
  /\ (forall stats,
         ProgressStats.get_student_stats db student = Ok stats ->
         0 <= ProgressStats.completed_exercises stats
         /\ 0 <= ProgressStats.mastered_exercises stats
         /\ ProgressStats.completed_exercises stats
            + ProgressStats.mastered_exercises stats
            <= ProgressStats.total_exercises stats
         /\ (ProgressStats.average_score stats = ProgressStats.Int 0 <->
             forall p, In p (Database.progress db) ->
                       Progress.student_id p = student ->
                       Progress.best_score p = None)).
Proof.
  unfold ProgressStats.get_student_stats, Query.all.
  set (scored := filter (fun p => (Progress.student_id p =? student)
                                  && match Progress.best_score p with
                                     | Some _ => true
                                     | None => false
                                     end) (Database.progress db)).
  assert (Hscored : scored = [] <->
                    forall p, In p (Database.progress db) ->
                              Progress.student_id p = student ->
                              Progress.best_score p = None).
  { unfold scored. rewrite StatsFacts.filter_nil_iff. split; intros H p Hin.
    - intros Hs. specialize (H p Hin). apply Z.eqb_eq in Hs. rewrite Hs in H.
      now destruct (Progress.best_score p).
    - destruct (Z.eqb_spec (Progress.student_id p) student) as [Hs|_]; [|reflexivity].
      now rewrite (H p Hin Hs). }
  split; [|split].
  - intros e. destruct scored as [|x l]; [discriminate|].
    destruct (Py.int_truediv _ _) as [q|e'] eqn:Hdiv; [discriminate|].
    cbn [Py.bind]. intros [= <-].
    destruct (StatsFacts.int_truediv_raise_inv _ _ _ Hdiv) as [[_ Hz]|He];
      [cbn [List.length] in Hz; lia | exact He].
  - intros Hnone.
    assert (scored = []) as -> by (unfold scored; now apply StatsFacts.filter_and_nil).
    rewrite !(StatsFacts.filter_and_nil _ _ _ Hnone), Hnone. reflexivity.
  - intros stats Hok.
    pose proof (StatsFacts.exclusive_filters
                  (fun p => Progress.student_id p =? student)
                  (fun p => String.eqb (Progress.status p) "completed")
                  (fun p => String.eqb (Progress.status p) "mastered")
                  (Database.progress db)) as Hexcl.
    assert (Hcm : forall p : Progress.t,
               String.eqb (Progress.status p) "completed" = true ->
               String.eqb (Progress.status p) "mastered" = false).
    { intros p Hp. apply String.eqb_eq in Hp. now rewrite Hp. }
    specialize (Hexcl Hcm). cbv beta in Hexcl.
    destruct scored as [|x l] eqn:Escored.
    + cbn [Py.bind] in Hok. injection Hok as <-.
      cbn [ProgressStats.completed_exercises ProgressStats.mastered_exercises
           ProgressStats.total_exercises ProgressStats.average_score].
      split; [lia | split; [lia | split; [lia | split]]];
        [intros _; now apply Hscored | reflexivity].
    + destruct (Py.int_truediv _ _) as [q|e']; [|discriminate].
      cbn [Py.bind] in Hok. injection Hok as <-.
      cbn [ProgressStats.completed_exercises ProgressStats.mastered_exercises
           ProgressStats.total_exercises ProgressStats.average_score].
      split; [lia | split; [lia | split; [lia | split]]]; [discriminate|].
      intros H. apply Hscored in H. discriminate.
Qed.


(** X10. [update_progress] never stores a second row for a (student,
    exercise) pair: the number of rows of the pair it is called for goes
    from 0 to 1 or stays as it is, and that of every other pair stays as it
    is. A table with at most one row per pair keeps that shape under every
    run of calls. *)
Theorem update_progress_never_duplicates_a_row
  (now : datetime) (db : Database.t) (student exercise : Z)
  (status : string) (score : option Z) :
  let db' := fst (ProgressService.update_progress now db student exercise status score) in
  let rows_for (d : Database.t) (s e : Z) :=
    List.length (filter (ProgressService.for_pair s e) (Database.progress d)) in
  (forall s e,
      rows_for db' s e
      = if (s =? student) && (e =? exercise)
        then Nat.max 1 (rows_for db s e)
        else rows_for db s e)
  /\ (IntegritySpec.one_progress_row_per_pair db ->
      forall calls, IntegritySpec.one_progress_row_per_pair (ProgressSpec.run db calls)).
Proof.
  cbv zeta.
  assert (Hstep : forall now db student exercise status score s e,
             List.length
               (filter (ProgressService.for_pair s e)
                  (Database.progress
                     (fst (ProgressService.update_progress
                             now db student exercise status score))))
             = if (s =? student) && (e =? exercise)
               then Nat.max 1 (List.length (filter (ProgressService.for_pair s e)
                                                   (Database.progress db)))
               else List.length (filter (ProgressService.for_pair s e)
                                        (Database.progress db))).
  { clear. intros now db student exercise status score s e.
    destruct (ProgressSpec.lookup db student exercise) as [p|] eqn:Hp.
    - rewrite (ProgressFacts.update_progress_found _ _ _ _ _ _ _ Hp).
      cbn [fst Database.progress set_progress].
      rewrite (StatsFacts.length_filter_update_first _ _ _ p _ Hp) by reflexivity.
      destruct ((s =? student) && (e =? exercise)) eqn:Hse; [|reflexivity].
      apply andb_true_iff in Hse as [Hs He]. apply Z.eqb_eq in Hs, He. subst s e.
      unfold ProgressSpec.lookup, Query.first in Hp.
      destruct (filter (ProgressService.for_pair student exercise) (Database.progress db))
        as [|x l] eqn:Hf; [|reflexivity].
      apply find_some in Hp as [Hin Hpair].
      assert (In p []) as [] by (rewrite <- Hf; apply filter_In; auto).
    - rewrite (ProgressFacts.update_progress_absent _ _ _ _ _ _ Hp).
      cbn [fst Database.progress set_progress].
      rewrite filter_app, length_app.
      cbn [filter ProgressService.create_progress snd ProgressSpec.bump].
      change (ProgressService.for_pair s e (ProgressSpec.bump _ _ _ _))
        with ((student =? s) && (exercise =? e)).
      rewrite (Z.eqb_sym student s), (Z.eqb_sym exercise e).
      destruct ((s =? student) && (e =? exercise)) eqn:Hse; cbn [List.length]; [|lia].
      apply andb_true_iff in Hse as [Hs He]. apply Z.eqb_eq in Hs, He. subst s e.
      rewrite (AnswerFacts.first_None_filter _ _ Hp). reflexivity. }
  split; [apply Hstep|].
  intros Hone calls. revert db Hone.
  induction calls as [|c calls IH]; intros db Hone; [exact Hone|].
  rewrite ProgressFacts.progress_run_cons. apply IH.
  intros s e. unfold ProgressSpec.apply. rewrite Hstep.
  specialize (Hone s e). destruct ((s =? _) && (e =? _)); lia.
Qed.

(* ================================================================== *)
(** * The notifier: shutdowns, reconnections and what is sent *)
(* ================================================================== *)

Module NotifierFacts.

Import Kafka KafkaSpec NotifierSpec.

Lemma str_of_int_nonempty (n : Z) : PyJson.str_of_int n <> EmptyString.
Proof.
  unfold PyJson.str_of_int.
  destruct (Z.to_int n) as [d|d]; cbn [NilZero.string_of_int]; [|discriminate].
  destruct d; discriminate.
Qed.

(** What one publication hands to the broker: one message when the notifier
    is connected afterwards, none otherwise. *)
Lemma publish_event_sends net topic event key cls :
  key <> Some EmptyString ->
  sends (snd (fst (publish_event net topic event key cls)))
  = if connected (fst (fst (publish_event net topic event key cls)))
    then [Send topic key event (send_succeeds net)]
    else [].
Proof.
  intros Hkey. unfold publish_event, get_producer, connected, start, send_and_wait.
  destruct cls as [[p|] []]; cbn [_is_disabled _producer]; try reflexivity.
  - destruct key as [[|c k]|]; [congruence | |]; now destruct (send_succeeds net).
  - destruct (start_succeeds net); [|reflexivity].
    destruct key as [[|c k]|]; [congruence | |]; now destruct (send_succeeds net).
Qed.

Lemma step_attempts (cls : KafkaService) (op : Op) :
  let ready (c : KafkaService) : nat :=
    if connected c || _is_disabled c then 0%nat else 1%nat in
  (connection_attempts (snd (step cls op)) + ready (fst (step cls op))
   <= ready cls + (if is_publish op then 0 else 1))%nat.
Proof.
  cbv zeta. destruct op as [net topic event key|]; cbn [step is_publish].
  - unfold publish_event, get_producer, connected, start, send_and_wait.
    destruct cls as [[p|] []]; cbn [_is_disabled _producer];
      destruct (start_succeeds net), (send_succeeds net); cbn; lia.
  - unfold close_producer, connected.
    destruct cls as [[p|] []]; cbn; lia.
Qed.

Lemma run_attempts (ops : list Op) :
  forall cls,
    (connection_attempts (snd (run cls ops))
     <= (if connected cls || _is_disabled cls then 0 else 1) + closes ops)%nat.
Proof.
  induction ops as [|op ops IH]; intros cls.
  - cbn. lia.
  - rewrite KafkaFacts.kafka_run_cons. cbn [snd].
    rewrite KafkaFacts.connection_attempts_app.
    pose proof (step_attempts cls op) as Hstep. cbv zeta in Hstep.
    specialize (IH (fst (step cls op))).
    unfold closes in *. cbn [filter].
    destruct (is_publish op); cbn [negb List.length] in *; lia.
Qed.

Lemma run_sends (ops : list Op) :
  forall cls,
    (List.length (sends (snd (run cls ops))) <= List.length (filter is_publish ops))%nat.
Proof.
  induction ops as [|op ops IH]; intros cls.
  - cbn. lia.
  - rewrite KafkaFacts.kafka_run_cons. cbn [snd]. unfold sends in *.
    rewrite filter_app, length_app. specialize (IH (fst (step cls op))).
    assert (List.length (filter is_send (snd (step cls op)))
            <= (if is_publish op then 1 else 0))%nat.
    { destruct op as [net topic event key|]; cbn [step is_publish].
      - unfold publish_event, get_producer, start, send_and_wait.
        destruct cls as [[p|] []]; cbn [_is_disabled _producer];
          destruct (start_succeeds net), (send_succeeds net); cbn; lia.
      - unfold close_producer. destruct (_producer cls); cbn; lia. }
    cbn [filter]. destruct (is_publish op); cbn [List.length]; lia.
Qed.

End NotifierFacts.

(** X11. Over any run of publications and shutdowns the notifier tries to
    connect at most once more than it was shut down, and not more often than
    it was shut down when it starts connected; it hands the broker at most
    one message per publication. *)
Theorem notifier_connects_at_most_once_per_shutdown
  (cls : Kafka.KafkaService) (ops : list KafkaSpec.Op) :
  (KafkaSpec.connection_attempts (snd (KafkaSpec.run cls ops))
   <= 1 + NotifierSpec.closes ops)%nat
  /\ (NotifierSpec.connected cls = true ->
      KafkaSpec.connection_attempts (snd (KafkaSpec.run cls ops))
      <= NotifierSpec.closes ops)%nat
  /\ (List.length (NotifierSpec.sends (snd (KafkaSpec.run cls ops)))
      <= List.length (filter KafkaSpec.is_publish ops))%nat.
Proof.
  pose proof (NotifierFacts.run_attempts ops cls) as H.
  split; [|split].
  - destruct (NotifierSpec.connected cls || Kafka._is_disabled cls); lia.
  - intros Hc. rewrite Hc in H. exact H.
  - apply NotifierFacts.run_sends.
Qed.

(** X12. [close_producer] forgets the connection and nothing else: the
    producer is gone, the disabled flag is as before, a second close does
    nothing. The next publication reconnects (one attempt) unless the
    notifier was disabled, in which case it stays silent; when the broker is
    up again that publication is sent over the new connection. *)
Theorem close_producer_forgets_only_the_connection (cls : Kafka.KafkaService) :
  let closed := fst (Kafka.close_producer cls) in
  Kafka._producer closed = None
  /\ Kafka._is_disabled closed = Kafka._is_disabled cls
  /\ Kafka.close_producer closed = (closed, [])
  /\ (forall net topic event key,
         KafkaSpec.connection_attempts
           (snd (fst (Kafka.publish_event net topic event key closed)))
         = if Kafka._is_disabled cls then 0%nat else 1%nat)
  /\ (forall net topic event key,
         Kafka._is_disabled cls = false ->
         Kafka.start_succeeds net = true ->
         key <> Some EmptyString ->
         fst (Kafka.publish_event net topic event key closed)
         = ({| Kafka._producer := Some (Kafka.Producer Kafka.kafka_bootstrap_servers);
               Kafka._is_disabled := false |},
            if Kafka.send_succeeds net
            then [Kafka.Connect true; Kafka.Log Kafka.INFO;
                  Kafka.Send topic key event true; Kafka.Log Kafka.DEBUG]
            else [Kafka.Connect true; Kafka.Log Kafka.INFO;
                  Kafka.Send topic key event false; Kafka.Log Kafka.ERROR])).
Proof.
  cbv zeta. unfold Kafka.close_producer.
  destruct cls as [[p|] dis]; cbn [fst Kafka._producer Kafka._is_disabled];
    (split; [reflexivity|]); (split; [reflexivity|]); (split; [reflexivity|]); split.
  all: try (intros net topic event key;
            unfold Kafka.publish_event, Kafka.get_producer, Kafka.start, Kafka.send_and_wait;
            cbn [Kafka._producer Kafka._is_disabled];
            destruct dis; [reflexivity|];
            destruct (Kafka.start_succeeds net), (Kafka.send_succeeds net); reflexivity).
  all: intros net topic event key -> Hstart Hkey;
    unfold Kafka.publish_event, Kafka.get_producer, Kafka.start, Kafka.send_and_wait;
    cbn [Kafka._producer Kafka._is_disabled]; rewrite Hstart;
    destruct key as [[|c k]|]; [congruence | |];
    now destruct (Kafka.send_succeeds net).
Qed.

(** X13. What the event publishers hand to the broker: one message when
    the notifier is connected after the call and none otherwise, on the
    publisher's own topic, keyed by the decimal text of the session id (chat
    messages), of the submission id (submissions) or by "student:exercise"
    (progress), the key never being dropped, and carrying the event type and
    the timestamp; the chat publisher, like the others, always returns. *)
Theorem wrappers_send_one_keyed_message
  (net : Kafka.Transport) (now : datetime) (cls : Kafka.KafkaService)
  (session_id student_id exercise_id submission_id : Z)
  (role content status : string) (score : option Z) :
  let chat :=
    KafkaChat.publish_chat_message net now session_id student_id role content cls in
  let submission :=
    Kafka.publish_submission_event net now student_id exercise_id submission_id status cls in
  let progress :=
    Kafka.publish_progress_event net now student_id exercise_id status score cls in
  NotifierSpec.sends (snd (fst chat))
  = (if NotifierSpec.connected (fst (fst chat))
     then [Kafka.Send "chat-messages" (Some (PyJson.str_of_int session_id))
             [ ("event_type", Kafka.VStr "chat_message");
               ("session_id", Kafka.VInt session_id);
               ("student_id", Kafka.VInt student_id);
               ("role", Kafka.VStr role);
               ("content", Kafka.VStr content);
               ("timestamp", Kafka.VTime now) ]
             (Kafka.send_succeeds net)]
     else [])
  /\ (exists event,
         NotifierSpec.sends (snd (fst submission))
         = (if NotifierSpec.connected (fst (fst submission))
            then [Kafka.Send "exercise-submissions"
                    (Some (PyJson.str_of_int submission_id)) event
                    (Kafka.send_succeeds net)]
            else [])
         /\ In ("event_type", Kafka.VStr "submission") event
         /\ In ("timestamp", Kafka.VTime now) event)
  /\ (exists event,
         NotifierSpec.sends (snd (fst progress))
         = (if NotifierSpec.connected (fst (fst progress))
            then [Kafka.Send "progress-updates"
                    (Some (PyJson.str_of_int student_id ++ ":"
                           ++ PyJson.str_of_int exercise_id)%string) event
                    (Kafka.send_succeeds net)]
            else [])
         /\ In ("event_type", Kafka.VStr "progress_update") event
         /\ In ("timestamp", Kafka.VTime now) event)
  /\ snd chat = Ok tt.
Proof.
  cbv zeta. split; [|split; [|split]].
  - unfold KafkaChat.publish_chat_message.
    apply NotifierFacts.publish_event_sends.
    intros [= H]. exact (NotifierFacts.str_of_int_nonempty _ H).
  - eexists. split; [|split].
    + unfold Kafka.publish_submission_event.
      apply NotifierFacts.publish_event_sends.
      intros [= H]. exact (NotifierFacts.str_of_int_nonempty _ H).
    + cbn [In]. auto.
    + cbn [In]. auto 10.
  - eexists. split; [|split].
    + unfold Kafka.publish_progress_event.
      apply NotifierFacts.publish_event_sends.
      intros [= H]. destruct (PyJson.str_of_int student_id) eqn:E; [|discriminate].
      exact (NotifierFacts.str_of_int_nonempty _ E).
    + cbn [In]. auto.
    + cbn [In]. auto 10.
  - apply KafkaFacts.publish_event_returns.
Qed.

(* ================================================================== *)
(** * The routes under /api/submissions and /api/progress *)
(* ================================================================== *)

Module PathFacts.

Import SessionSpec.





End PathFacts.

Module SubmissionRouteFacts.

Import SessionSpec SubmissionRoutes.

Lemma create_submission_ok_inv net now submission request dir w w' fx s :
  create_submission net now submission request dir w = (w', fx, Ok s) ->
  exists current_user exercise,
    get_current_user_payload request = Ok current_user
    /\ role current_user = "student"
    /\ student_id submission = user_id current_user
    /\ ExerciseService.get_exercise dir (exercise_id submission) = Some exercise
    /\ (db w', s) = SubmissionListing.create_submission
                      (db w) (student_id submission) (exercise_id submission)
                      (code submission) (language submission).
Proof.
  unfold create_submission.
  destruct (get_current_user_payload request) as [u|e]; [|destruct e; discriminate].
  destruct (String.eqb_spec (role u) "student") as [Hr|_]; [|discriminate].
  cbn [negb]. destruct (Z.eqb_spec (student_id submission) (user_id u)) as [Hid|_];
    [|discriminate].
  cbn [negb].
  destruct (ExerciseService.get_exercise dir (exercise_id submission)) as [ex|] eqn:Hex;
    [|discriminate].
  destruct (SubmissionListing.create_submission _ _ _ _ _) as [db1 s1].
  destruct (Kafka.publish_submission_event _ _ _ _ _ _ _) as [[k1 fx1] r1].
  destruct r1 as [[]|e]; [|destruct e; discriminate].
  intros [= <- <- <-]. exists u, ex. cbn [db]. auto.
Qed.

Lemma create_submission_raise_inv net now submission request dir w w' fx e :
  create_submission net now submission request dir w = (w', fx, Raise e) ->
  w' = w /\ fx = [].
Proof.
  unfold create_submission.
  destruct (get_current_user_payload request) as [u|e']; [|now intros [= <- <- _]].
  destruct (negb _); [now intros [= <- <- _]|].
  destruct (negb _); [now intros [= <- <- _]|].
  destruct (ExerciseService.get_exercise _ _); [|now intros [= <- <- _]].
  destruct (SubmissionListing.create_submission _ _ _ _ _) as [db1 s1].
  pose proof (SubmissionFacts.publish_submission_event_returns
                net now (student_id submission) (exercise_id submission)
                (ExerciseSubmission.id s1) "submitted" (kafka w)) as Hret.
  destruct (Kafka.publish_submission_event _ _ _ _ _ _ _) as [[k1 fx1] r1].
  cbn [snd] in Hret. subst r1. discriminate.
Qed.

Lemma create_submission_stored db student exercise code language :
  SubmissionService.get_submission
    (fst (SubmissionListing.create_submission db student exercise code language))
    (ExerciseSubmission.id
       (snd (SubmissionListing.create_submission db student exercise code language)))
  = Some (snd (SubmissionListing.create_submission db student exercise code language)).
Proof.
  unfold SubmissionListing.create_submission, SubmissionService.get_submission.
  cbn [fst snd ExerciseSubmission.id Database.exercise_submissions
       set_exercise_submissions].
  apply first_app_fresh; [apply ListingFacts.first_next_id|].
  unfold SubmissionService.by_id. cbn [ExerciseSubmission.id]. apply Z.eqb_refl.
Qed.

End SubmissionRouteFacts.

(** X14. POST /api/submissions/ stores nothing: its path is not guarded, the
    caller counts as anonymous and the handler answers 403 "Only students can
    submit code" for every body and every session header, with the store and
    the notifier untouched. Taken by itself the handler changes nothing and
    publishes nothing when it fails, and when it returns a submission the
    request carried a student's session, the submission belongs to that
    student, has status "submitted" and can be read back under its id. *)
Theorem create_submission_route_refuses_every_caller
  (net : Kafka.Transport) (now : datetime)
  (submission : SubmissionRoutes.SubmissionCreate) (header : option string)
  (dir : Directory.t) (w : World) :
  SubmissionRoutes.create_submission
    net now submission (SessionSpec.with_header SubmissionRoutes.create_path header) dir w
  = (w, [], Raise (HTTPException 403 (Text "Only students can submit code")))
  /\ (forall request w' fx e,
         SubmissionRoutes.create_submission net now submission request dir w
         = (w', fx, Raise e) ->
         w' = w /\ fx = [])
  /\ (forall request w' fx s,
         SubmissionRoutes.create_submission net now submission request dir w
         = (w', fx, Ok s) ->
         exists current_user,
           get_current_user_payload request = Ok current_user
           /\ role current_user = "student"
           /\ ExerciseSubmission.student_id s = user_id current_user
           /\ ExerciseSubmission.student_id s = SubmissionRoutes.student_id submission
           /\ ExerciseSubmission.status s = "submitted"
           /\ SubmissionService.get_submission (db w') (ExerciseSubmission.id s) = Some s).
Proof.
  split; [reflexivity|]. split.
  - intros request w' fx e. apply SubmissionRouteFacts.create_submission_raise_inv.
  - intros request w' fx s H.
    destruct (SubmissionRouteFacts.create_submission_ok_inv _ _ _ _ _ _ _ _ _ H)
      as (u & ex & Hu & Hr & Hid & _ & Hcreate).
    exists u.
    pose proof (SubmissionRouteFacts.create_submission_stored
                  (db w) (SubmissionRoutes.student_id submission)
                  (SubmissionRoutes.exercise_id submission)
                  (SubmissionRoutes.code submission)
                  (SubmissionRoutes.language submission)) as Hstored.
    rewrite <- Hcreate in Hstored. cbn [fst snd] in Hstored.
    assert (Hs : s = snd (SubmissionListing.create_submission
                            (db w) (SubmissionRoutes.student_id submission)
                            (SubmissionRoutes.exercise_id submission)
                            (SubmissionRoutes.code submission)
                            (SubmissionRoutes.language submission)))
      by now rewrite <- Hcreate.
    repeat split; auto; rewrite Hs; cbn; congruence.
Qed.





(* ================================================================== *)
(** * Quizzes: starting, reading and deleting *)
(* ================================================================== *)

Module QuizRouteFacts.

Import Quizzes QuizRoutes.

Lemma first_None_iff {A} (p : A -> bool) (rows : list A) :
  Query.first p rows = None <-> forall r, In r rows -> p r = false.
Proof.
  unfold Query.first. split.
  - intros H r Hin. exact (find_none _ _ H r Hin).
  - intros H. destruct (find p rows) as [r|] eqn:E; [|reflexivity].
    apply find_some in E as [Hin Hp]. rewrite (H r Hin) in Hp. discriminate.
Qed.

Lemma first_In {A} (p : A -> bool) (rows : list A) (r : A) :
  Query.first p rows = Some r -> In r rows /\ p r = true.
Proof. apply find_some. Qed.

Lemma start_quiz_ok_inv now quiz_id request dir db db' s :
  start_quiz now quiz_id request dir db = (db', Ok s) ->
  exists current_user quiz student,
    get_current_user_payload request = Ok current_user
    /\ role current_user = "student"
    /\ Query.first (fun q => Quiz.id q =? quiz_id) (Database.quizzes db) = Some quiz
    /\ Query.first (fun x => Student.id x =? user_id current_user)
                   (Directory.students dir) = Some student
    /\ Sqlite.fits quiz_id = true
    /\ Sqlite.fits (user_id current_user) = true
    /\ s = {| QuizSubmission.id :=
                Query.next_id (map QuizSubmission.id (Database.quiz_submissions db));
              QuizSubmission.student_id := user_id current_user;
              QuizSubmission.quiz_id := quiz_id;
              QuizSubmission.started_at := now;
              QuizSubmission.completed_at := None;
              QuizSubmission.score := None;
              QuizSubmission.passed := false |}
    /\ db' = set_quiz_submissions db (Database.quiz_submissions db ++ [s]).
Proof.
  unfold start_quiz.
  destruct (get_current_user_payload request) as [u|e]; [|destruct e; discriminate].
  destruct (String.eqb_spec (role u) "student") as [Hr|_]; [|discriminate].
  cbn [negb]. unfold Sqlite.bind. cbn [forallb]. rewrite !andb_true_r.
  destruct (Sqlite.fits quiz_id) eqn:Hfq; [|discriminate].
  destruct (Query.first _ (Database.quizzes db)) as [quiz|] eqn:Hq; [|discriminate].
  destruct (Sqlite.fits (user_id u)) eqn:Hfu; [|discriminate].
  destruct (Query.first _ (Directory.students dir)) as [st|] eqn:Hs; [|discriminate].
  intros [= <- <-]. exists u, quiz, st. auto 10.
Qed.

End QuizRouteFacts.

(** X17. [start_quiz] stores an open submission (no completion time, no
    score) of the caller for the quiz of the path, under an id larger than
    every id in use. If every stored answer belongs to a stored submission,
    completing the new submission at once gives score 0, and it passes only
    a quiz whose pass mark is 0 or less; the completion is refused with
    status 500, and nothing is stored, when the quiz has no pass mark (the
    column is NULL) or when the new id does not fit an INTEGER. *)
Theorem started_quiz_completes_with_score_0
  (now now' : datetime) (quiz_id : Z) (request request' : Request)
  (dir : Directory.t) (db db1 : Database.t) (s : QuizSubmission.t) :
  IntegritySpec.answers_have_submissions db ->
  QuizRoutes.start_quiz now quiz_id request dir db = (db1, Ok s) ->
  get_current_user_payload request' = get_current_user_payload request ->
  (forall old, In old (Database.quiz_submissions db) ->
               QuizSubmission.id old < QuizSubmission.id s)
  /\ QuizSubmission.quiz_id s = quiz_id
  /\ QuizSubmission.started_at s = now
  /\ QuizSubmission.completed_at s = None
  /\ QuizSubmission.score s = None
  /\ exists quiz,
       Query.first (fun q => Quiz.id q =? quiz_id) (Database.quizzes db) = Some quiz
       /\ match Quiz.passing_score quiz, Sqlite.fits (QuizSubmission.id s) with
          | Some threshold, true =>
              exists db2 done,
                Quizzes.complete_quiz now' quiz_id (QuizSubmission.id s) request' db1
                = (db2, Ok done)
                /\ QuizSubmission.id done = QuizSubmission.id s
                /\ QuizSubmission.student_id done = QuizSubmission.student_id s
                /\ QuizSubmission.score done = Some 0
                /\ QuizSubmission.passed done = (threshold <=? 0)
                /\ QuizSubmission.completed_at done = Some now'
          | _, _ =>
              Quizzes.complete_quiz now' quiz_id (QuizSubmission.id s) request' db1
              = (db1, Raise (HTTPException 500 (Text "Failed to complete quiz")))
          end.
Proof.
  intros Hfk Hstart Hsame.
  destruct (QuizRouteFacts.start_quiz_ok_inv _ _ _ _ _ _ _ Hstart)
    as (u & quiz & st & Hu & Hr & Hq & _ & Hfq & Hfu & Hs & Hdb).
  assert (Hfresh : forall old, In old (Database.quiz_submissions db) ->
                               QuizSubmission.id old < QuizSubmission.id s).
  { intros old Hin. rewrite Hs. cbn [QuizSubmission.id].
    apply AnswerFacts.next_id_fresh. now apply in_map. }
  split; [exact Hfresh|].
  rewrite Hs at 1 2 3 4. cbn [QuizSubmission.quiz_id QuizSubmission.started_at
                              QuizSubmission.completed_at QuizSubmission.score].
  repeat (split; [reflexivity|]).
  assert (Hfound : Query.first (Quizzes.submission_of (QuizSubmission.id s) (user_id u))
                               (Database.quiz_submissions db1) = Some s).
  { rewrite Hdb. cbn [Database.quiz_submissions set_quiz_submissions].
    apply first_app_fresh.
    - apply QuizRouteFacts.first_None_iff. intros old Hin.
      unfold Quizzes.submission_of. specialize (Hfresh old Hin).
      destruct (Z.eqb_spec (QuizSubmission.id old) (QuizSubmission.id s)); [lia|reflexivity].
    - unfold Quizzes.submission_of. rewrite Hs.
      cbn [QuizSubmission.id QuizSubmission.student_id]. now rewrite !Z.eqb_refl. }
  assert (Hq1 : Query.first (fun q => Quiz.id q =? quiz_id) (Database.quizzes db1)
                = Some quiz) by now rewrite Hdb.
  assert (Hpoints : Quizzes.total_points db1 (QuizSubmission.id s) = 0).
  { unfold Quizzes.total_points, Query.all. rewrite Hdb.
    cbn [Database.quiz_answers set_quiz_submissions].
    replace (filter _ (Database.quiz_answers db)) with (@nil QuizAnswer.t); [reflexivity|].
    symmetry. apply StatsFacts.filter_nil_iff. intros a Hin.
    destruct (Hfk a Hin) as (old & Hold & Hid). specialize (Hfresh old Hold).
    apply Z.eqb_neq. lia. }
  rewrite <- Hsame in Hu.
  pose proof (ScoringFacts.complete_quiz_past_guards
                now' quiz_id (QuizSubmission.id s) request' db1 u s quiz
                Hu Hr Hfound Hq1) as Hcomplete.
  rewrite Hpoints in Hcomplete.
  rewrite (ScoringFacts.score_of_zero_points _ (ScoringFacts.max_score_nonzero db1 quiz_id))
    in Hcomplete.
  cbn [forallb] in Hcomplete. rewrite Hfq, Hfu, !andb_true_r in Hcomplete.
  change (Sqlite.fits 0) with true in Hcomplete. cbv iota in Hcomplete.
  exists quiz. split; [exact Hq|].
  destruct (Quiz.passing_score quiz) as [threshold|];
    destruct (Sqlite.fits (QuizSubmission.id s)); try exact Hcomplete.
  eexists. eexists. split; [exact Hcomplete|]. cbn. auto.
Qed.

Lemma started_quiz_completes_with_score_0_witness :
  let started :=
    QuizRoutes.start_quiz 65 1 (Samples.as_student_3 "/api/quizzes/1/start")
                          Samples.school Examples.answered in
  exists s db2 done,
    snd started = Ok s
    /\ QuizSubmission.id s = 11
    /\ Quizzes.complete_quiz
         80 1 11 (Samples.as_student_3 "/api/quizzes/1/submissions/11/complete")
         (fst started)
       = (db2, Ok done)
    /\ QuizSubmission.score done = Some 0
    /\ QuizSubmission.passed done = false.
Proof.
  cbv zeta.
  assert (Hfk : IntegritySpec.answers_have_submissions Examples.answered).
  { intros a Ha. vm_compute in Ha.
    destruct Ha as [<-|[<-|[]]]; exists Examples.submission_10;
      (split; [now left | reflexivity]). }
  destruct (started_quiz_completes_with_score_0
              65 80 1 (Samples.as_student_3 "/api/quizzes/1/start")
              (Samples.as_student_3 "/api/quizzes/1/submissions/11/complete")
              Samples.school Examples.answered _ _ Hfk eq_refl eq_refl)
    as (_ & _ & _ & _ & _ & quiz & Hq & Hc).
  vm_compute in Hq. injection Hq as <-.
  cbn [Quiz.passing_score] in Hc.
  change (Sqlite.fits _) with true in Hc. cbv iota in Hc.
  destruct Hc as (db2 & done & Hc & _ & _ & Hscore & Hpassed & _).
  eexists. exists db2, done.
  split; [reflexivity|]. split; [reflexivity|]. split; [exact Hc|].
  split; [exact Hscore|]. exact Hpassed.
Defined.

(** X18. [get_submission] of the quiz routes returns a submission only if
    it is stored under the submission id and the quiz id of the path and
    either the caller is the student it belongs to or the caller is the
    teacher who owns that quiz. *)
Theorem quiz_submission_is_shown_to_its_student_or_the_quiz_owner
  (quiz_id submission_id : Z) (request : Request) (db : Database.t)
  (s : QuizSubmission.t) :
  QuizRoutes.get_submission quiz_id submission_id request db = Ok s ->
  In s (Database.quiz_submissions db)
  /\ QuizSubmission.id s = submission_id
  /\ QuizSubmission.quiz_id s = quiz_id
  /\ exists current_user,
       get_current_user_payload request = Ok current_user
       /\ ((role current_user = "student"
            /\ QuizSubmission.student_id s = user_id current_user)
           \/ (role current_user = "teacher"
               /\ exists quiz,
                    In quiz (Database.quizzes db)
                    /\ Quiz.id quiz = quiz_id
                    /\ Quiz.teacher_id quiz = Some (user_id current_user))).
Proof.
  unfold QuizRoutes.get_submission.
  destruct (get_current_user_payload request) as [u|e]; [|destruct e; discriminate].
  destruct (String.eqb_spec (role u) "student") as [Hstudent|_].
  - destruct (Sqlite.bind _) as [ok|[]]; try discriminate.
    destruct (Query.first _ (Database.quiz_submissions db)) as [x|] eqn:Hx; [|discriminate].
    intros [= <-]. apply QuizRouteFacts.first_In in Hx as [Hin Hp].
    apply andb_true_iff in Hp as [Hp Hsid]. apply andb_true_iff in Hp as [Hid Hqid].
    apply Z.eqb_eq in Hid, Hqid, Hsid.
    repeat (split; [assumption|]). exists u. split; [reflexivity|]. now left.
  - destruct (String.eqb_spec (role u) "teacher") as [Hteacher|_]; [|discriminate].
    destruct (Sqlite.bind [quiz_id; _]) as [ok|[]]; try discriminate.
    destruct (Query.first _ (Database.quizzes db)) as [quiz|] eqn:Hquiz; [|discriminate].
    destruct (Sqlite.bind [submission_id; _]) as [ok'|[]]; try discriminate.
    destruct (Query.first _ (Database.quiz_submissions db)) as [x|] eqn:Hx; [|discriminate].
    intros [= <-]. apply QuizRouteFacts.first_In in Hx as [Hin Hp].
    apply andb_true_iff in Hp as [Hid Hqid]. apply Z.eqb_eq in Hid, Hqid.
    repeat (split; [assumption|]). exists u. split; [reflexivity|]. right.
    split; [assumption|]. exists quiz.
    apply QuizRouteFacts.first_In in Hquiz as [Hqin Hqp].
    apply andb_true_iff in Hqp as [Hqid' Howner]. apply Z.eqb_eq in Hqid'.
    split; [assumption|]. split; [assumption|].
    destruct (Quiz.teacher_id quiz) as [owner|]; [|discriminate].
    apply Z.eqb_eq in Howner. now subst.
Qed.

Lemma quiz_submission_is_shown_to_its_student_or_the_quiz_owner_witness :
  QuizRoutes.get_submission
    1 10 (Samples.as_teacher_2 "/api/quizzes/1/submissions/10") Examples.started
  = Ok Examples.submission_10
  /\ Quiz.teacher_id Examples.quiz_1 = Some 2.
Proof.
  split; [reflexivity|].
  destruct (quiz_submission_is_shown_to_its_student_or_the_quiz_owner
              1 10 (Samples.as_teacher_2 "/api/quizzes/1/submissions/10")
              Examples.started Examples.submission_10 eq_refl)
    as (_ & _ & _ & u & Hu & [[Hr _]|[_ (quiz & [<-|[<-|[]]] & Hid & Howner)]]).
  - vm_compute in Hu. injection Hu as <-. discriminate.
  - vm_compute in Hu. injection Hu as <-. exact Howner.
  - discriminate.
Defined.

(** X19. A student cannot reach a submission of another student: when no
    submission with the given id belongs to the caller, [submit_answer] and
    [complete_quiz] refuse the call and leave the store as it is, and
    [get_submission] refuses it too. The answer is 404 when the ids the
    lookup binds fit an INTEGER; when one of them does not (the caller's id
    is whatever number the session header names) the lookup itself fails and
    the answer is the handler's 500. *)
Theorem other_students_submissions_are_out_of_reach
  (now : datetime) (quiz_id submission_id : Z) (answer : Quizzes.QuizAnswerCreate)
  (request : Request) (db : Database.t) (current_user : Payload) :
  get_current_user_payload request = Ok current_user ->
  role current_user = "student" ->
  (forall s, In s (Database.quiz_submissions db) ->
             QuizSubmission.id s = submission_id ->
             QuizSubmission.student_id s <> user_id current_user) ->
  Quizzes.submit_answer now quiz_id submission_id answer request db
  = (db, Raise (if forallb Sqlite.fits [submission_id; user_id current_user]
                then HTTPException 404
                       (Text "Submission not found or does not belong to current student")
                else HTTPException 500 (Text "Failed to submit answer")))
  /\ Quizzes.complete_quiz now quiz_id submission_id request db
     = (db, Raise (if forallb Sqlite.fits [submission_id; user_id current_user]
                   then HTTPException 404
                          (Text "Submission not found or does not belong to current student")
                   else HTTPException 500 (Text "Failed to complete quiz")))
  /\ QuizRoutes.get_submission quiz_id submission_id request db
     = Raise (if forallb Sqlite.fits [submission_id; quiz_id; user_id current_user]
              then HTTPException 404 (Text "Submission not found")
              else HTTPException 500 (Text "Failed to fetch submission")).
Proof.
  intros Hu Hr Hother.
  assert (Hnone : Query.first (Quizzes.submission_of submission_id (user_id current_user))
                              (Database.quiz_submissions db) = None).
  { apply QuizRouteFacts.first_None_iff. intros s Hin. unfold Quizzes.submission_of.
    destruct (Z.eqb_spec (QuizSubmission.id s) submission_id) as [Hid|]; [|reflexivity].
    apply Z.eqb_neq. now apply Hother. }
  assert (Hnone' : Query.first
                     (fun s => (QuizSubmission.id s =? submission_id)
                               && (QuizSubmission.quiz_id s =? quiz_id)
                               && (QuizSubmission.student_id s =? user_id current_user))
                     (Database.quiz_submissions db) = None).
  { apply QuizRouteFacts.first_None_iff. intros s Hin.
    destruct (Z.eqb_spec (QuizSubmission.id s) submission_id) as [Hid|]; [|reflexivity].
    rewrite (proj2 (Z.eqb_neq _ _) (Hother s Hin Hid)). now rewrite andb_false_r. }
  unfold Quizzes.submit_answer, Quizzes.complete_quiz, QuizRoutes.get_submission.
  rewrite Hu, Hr, Hnone, Hnone'. cbn [String.eqb Ascii.eqb Bool.eqb negb andb].
  unfold Sqlite.bind.
  destruct (forallb Sqlite.fits [submission_id; user_id current_user]);
    destruct (forallb Sqlite.fits [submission_id; quiz_id; user_id current_user]);
    repeat split.
Qed.

Lemma other_students_submissions_are_out_of_reach_witness :
  Quizzes.complete_quiz
    70 1 10 (Samples.as_student_4 "/api/quizzes/1/submissions/10/complete")
    Examples.answered
  = (Examples.answered,
     Raise (HTTPException 404
              (Text "Submission not found or does not belong to current student"))).
Proof.
  refine (proj1 (proj2 (other_students_submissions_are_out_of_reach
            70 1 10 (Examples.answer 11 (JStr "A"))
            (Samples.as_student_4 "/api/quizzes/1/submissions/10/complete")
            Examples.answered _ eq_refl eq_refl _))).
  intros s [<-|[]] _. discriminate.
Defined.

Module DeleteFacts.

Import QuizRoutes.

Lemma delete_quiz_ok_inv quiz_id request db db' :
  delete_quiz quiz_id request db = (db', Ok tt) ->
  exists tid quiz,
    get_current_teacher_id request = Ok tid
    /\ Query.first (fun q => Quiz.id q =? quiz_id) (Database.quizzes db) = Some quiz
    /\ Quiz.teacher_id quiz = Some tid
    /\ db' = delete_cascade quiz_id db.
Proof.
  unfold delete_quiz.
  destruct (get_current_teacher_id request) as [tid|e]; [|discriminate].
  destruct (Sqlite.bind _) as [ok|[]]; try discriminate.
  destruct (Query.first _ (Database.quizzes db)) as [quiz|] eqn:Hq; [|discriminate].
  destruct (Quiz.teacher_id quiz) as [owner|] eqn:Ho; [|discriminate].
  destruct (Z.eqb_spec owner tid) as [->|_]; [|discriminate].
  cbn [negb]. intros [= <-]. exists tid, quiz. auto.
Qed.

Lemma first_delete_first_frame {A} (p q : A -> bool) (rows : list A) :
  (forall r, p r = true -> q r = false) ->
  Query.first q (Query.delete_first p rows) = Query.first q rows.
Proof.
  intros Hpq. induction rows as [|r rows IH]; [reflexivity|].
  cbn [Query.delete_first Query.first find] in *. destruct (p r) eqn:Hp.
  - now rewrite (Hpq r Hp).
  - cbn [find]. destruct (q r); [reflexivity | exact IH].
Qed.

Lemma first_delete_first_unique {A} (key : A -> Z) (k : Z) (rows : list A) :
  NoDup (map key rows) ->
  Query.first (fun r => key r =? k) (Query.delete_first (fun r => key r =? k) rows) = None.
Proof.
  induction rows as [|r rows IH]; [reflexivity|].
  cbn [map Query.delete_first Query.first find]. intros Hnd.
  inversion Hnd as [|? ? Hnotin Hnd']; subst.
  destruct (Z.eqb_spec (key r) k) as [Hk|Hk].
  - apply QuizRouteFacts.first_None_iff. intros x Hx. apply Z.eqb_neq. intros Hxk.
    apply Hnotin. rewrite Hk, <- Hxk. now apply in_map.
  - cbn [find]. destruct (Z.eqb_spec (key r) k); [contradiction|]. now apply IH.
Qed.

End DeleteFacts.

(** X20. When [delete_quiz] succeeds the caller is the teacher who owns
    the quiz, and with the quiz go exactly its questions, its submissions
    and the answers given to those questions or on those submissions; rows
    of other quizzes, exercise submissions and progress stay. No answer is
    left without its submission if none was before. Afterwards [get_quiz]
    reads every other quiz as before and, quiz ids being unique, no longer
    finds the deleted one. *)
Theorem delete_quiz_removes_the_quiz_with_its_rows
  (quiz_id : Z) (request : Request) (db db' : Database.t) :
  QuizRoutes.delete_quiz quiz_id request db = (db', Ok tt) ->
  (exists tid quiz,
      get_current_teacher_id request = Ok tid
      /\ Query.first (fun q => Quiz.id q =? quiz_id) (Database.quizzes db) = Some quiz
      /\ Quiz.teacher_id quiz = Some tid)
  /\ (forall q, In q (Database.quiz_questions db') <->
                In q (Database.quiz_questions db) /\ QuizQuestion.quiz_id q <> quiz_id)
  /\ (forall s, In s (Database.quiz_submissions db') <->
                In s (Database.quiz_submissions db) /\ QuizSubmission.quiz_id s <> quiz_id)
  /\ (forall a, In a (Database.quiz_answers db') <->
                In a (Database.quiz_answers db)
                /\ (forall q, In q (Database.quiz_questions db) ->
                              QuizQuestion.quiz_id q = quiz_id ->
                              QuizQuestion.id q <> QuizAnswer.question_id a)
                /\ (forall s, In s (Database.quiz_submissions db) ->
                              QuizSubmission.quiz_id s = quiz_id ->
                              QuizSubmission.id s <> QuizAnswer.submission_id a))
  /\ (IntegritySpec.answers_have_submissions db ->
      IntegritySpec.answers_have_submissions db')
  /\ Database.exercise_submissions db' = Database.exercise_submissions db
  /\ Database.progress db' = Database.progress db
  /\ (forall request' i,
         i <> quiz_id ->
         QuizRoutes.get_quiz request' i db' = QuizRoutes.get_quiz request' i db)
  /\ (NoDup (map Quiz.id (Database.quizzes db)) ->
      forall request' found, QuizRoutes.get_quiz request' quiz_id db' <> Ok found).
Proof.
  intros H.
  destruct (DeleteFacts.delete_quiz_ok_inv _ _ _ _ H) as (tid & quiz & Ht & Hq & Ho & ->).
  split; [now exists tid, quiz|].
  assert (Hquestions : forall q, In q (Database.quiz_questions
                                         (QuizRoutes.delete_cascade quiz_id db)) <->
                                 In q (Database.quiz_questions db)
                                 /\ QuizQuestion.quiz_id q <> quiz_id).
  { intros q. cbn [QuizRoutes.delete_cascade Database.quiz_questions].
    rewrite filter_In, negb_true_iff, Z.eqb_neq. reflexivity. }
  assert (Hsubs : forall s, In s (Database.quiz_submissions
                                    (QuizRoutes.delete_cascade quiz_id db)) <->
                            In s (Database.quiz_submissions db)
                            /\ QuizSubmission.quiz_id s <> quiz_id).
  { intros s. cbn [QuizRoutes.delete_cascade Database.quiz_submissions].
    rewrite filter_In, negb_true_iff, Z.eqb_neq. reflexivity. }
  assert (Hanswers :
            forall a, In a (Database.quiz_answers (QuizRoutes.delete_cascade quiz_id db)) <->
                      In a (Database.quiz_answers db)
                      /\ (forall q, In q (Database.quiz_questions db) ->
                                    QuizQuestion.quiz_id q = quiz_id ->
                                    QuizQuestion.id q <> QuizAnswer.question_id a)
                      /\ (forall s, In s (Database.quiz_submissions db) ->
                                    QuizSubmission.quiz_id s = quiz_id ->
                                    QuizSubmission.id s <> QuizAnswer.submission_id a)).
  { intros a. cbn [QuizRoutes.delete_cascade Database.quiz_answers].
    rewrite filter_In, negb_true_iff, orb_false_iff.
    rewrite <- !not_true_iff_false, !existsb_exists. unfold Query.all.
    split.
    - intros (Hin & Hnq & Hns). split; [exact Hin|]. split.
      + intros q Hq' Hqid Heq. apply Hnq. exists q. split.
        * apply filter_In. split; [exact Hq'|]. now apply Z.eqb_eq.
        * now apply Z.eqb_eq.
      + intros s Hs' Hsid Heq. apply Hns. exists s. split.
        * apply filter_In. split; [exact Hs'|]. now apply Z.eqb_eq.
        * now apply Z.eqb_eq.
    - intros (Hin & Hnq & Hns). split; [exact Hin|]. split.
      + intros (q & Hq' & Heq). apply filter_In in Hq' as [Hq' Hqid].
        apply Z.eqb_eq in Hqid, Heq. exact (Hnq q Hq' Hqid Heq).
      + intros (s & Hs' & Heq). apply filter_In in Hs' as [Hs' Hsid].
        apply Z.eqb_eq in Hsid, Heq. exact (Hns s Hs' Hsid Heq). }
  split; [exact Hquestions|]. split; [exact Hsubs|]. split; [exact Hanswers|].
  split; [|split; [reflexivity|split; [reflexivity|split]]].
  - intros Hfk a Ha. apply Hanswers in Ha as (Ha & _ & Hns).
    destruct (Hfk a Ha) as (s & Hs & Hid). exists s. split; [|exact Hid].
    apply Hsubs. split; [exact Hs|]. intros Hqid. exact (Hns s Hs Hqid Hid).
  - intros request' i Hi. unfold QuizRoutes.get_quiz.
    cbn [QuizRoutes.delete_cascade Database.quizzes].
    rewrite DeleteFacts.first_delete_first_frame; [reflexivity|].
    intros r Hr. apply Z.eqb_eq in Hr. apply Z.eqb_neq. congruence.
  - intros Hnodup request' found. unfold QuizRoutes.get_quiz.
    cbn [QuizRoutes.delete_cascade Database.quizzes].
    rewrite (DeleteFacts.first_delete_first_unique Quiz.id quiz_id _ Hnodup).
    destruct (get_current_user_payload request') as [u|e]; [|destruct e; discriminate].
    destruct (user_id u =? 0); [discriminate|].
    destruct (Sqlite.bind _) as [ok|[]]; discriminate.
Qed.

Lemma delete_quiz_removes_the_quiz_with_its_rows_witness :
  let deleted :=
    fst (QuizRoutes.delete_quiz 1 (Samples.as_teacher_2 "/api/quizzes/1")
                                Examples.answered) in
  Database.quiz_questions deleted = [Examples.question_21]
  /\ Database.quiz_submissions deleted = []
  /\ Database.quiz_answers deleted = []
  /\ Database.quizzes deleted = [Examples.quiz_2]
  /\ forall s, In s (Database.quiz_submissions deleted) -> QuizSubmission.quiz_id s <> 1.
Proof.
  cbv zeta. repeat (split; [reflexivity|]).
  intros s Hin.
  exact (proj2 (proj1 (proj1 (proj2 (proj2
           (delete_quiz_removes_the_quiz_with_its_rows
              1 (Samples.as_teacher_2 "/api/quizzes/1") Examples.answered _ eq_refl)))
           s) Hin)).
Defined.

Module RestartFacts.

Lemma max_id_app (ids : list Z) (id x : Z) :
  fold_right Z.max id (ids ++ [x]) = Z.max x (fold_right Z.max id ids).
Proof.
  induction ids as [|y ids IH]; cbn [app fold_right]; [reflexivity|].
  rewrite IH. lia.
Qed.

Lemma next_id_app (ids : list Z) :
  Query.next_id (ids ++ [Query.next_id ids]) = Query.next_id ids + 1.
Proof.
  destruct ids as [|id ids]; [reflexivity|].
  cbn [app Query.next_id]. rewrite max_id_app. lia.
Qed.

End RestartFacts.

(** X21. [start_quiz] never refuses a restart: a caller who has just
    started a quiz can start it again at once and gets a second open
    submission for the same quiz, numbered one higher, beside the first. *)
Theorem start_quiz_never_refuses_a_restart
  (now now' : datetime) (quiz_id : Z) (request : Request)
  (dir : Directory.t) (db db1 : Database.t) (first : QuizSubmission.t) :
  QuizRoutes.start_quiz now quiz_id request dir db = (db1, Ok first) ->
  exists db2 second,
    QuizRoutes.start_quiz now' quiz_id request dir db1 = (db2, Ok second)
    /\ QuizSubmission.id second = QuizSubmission.id first + 1
    /\ QuizSubmission.student_id second = QuizSubmission.student_id first
    /\ QuizSubmission.quiz_id second = QuizSubmission.quiz_id first
    /\ QuizSubmission.completed_at first = None
    /\ QuizSubmission.completed_at second = None
    /\ Database.quiz_submissions db2
       = Database.quiz_submissions db ++ [first; second].
Proof.
  intros H.
  destruct (QuizRouteFacts.start_quiz_ok_inv _ _ _ _ _ _ _ H)
    as (u & quiz & st & Hu & Hr & Hq & Hst & Hfq & Hfu & Hs & Hdb).
  unfold QuizRoutes.start_quiz. rewrite Hu, Hr. cbn [String.eqb Ascii.eqb Bool.eqb negb].
  unfold Sqlite.bind. cbn [forallb]. rewrite Hfq, Hfu. cbn [andb].
  rewrite Hdb. cbn [Database.quizzes Database.quiz_submissions set_quiz_submissions].
  rewrite Hq, Hst. eexists. eexists. split; [reflexivity|].
  cbn [QuizSubmission.id QuizSubmission.student_id QuizSubmission.quiz_id
       QuizSubmission.completed_at Database.quiz_submissions set_quiz_submissions].
  rewrite map_app. cbn [map]. rewrite Hs at 1 2.
  cbn [QuizSubmission.id].
  rewrite RestartFacts.next_id_app, Hs.
  cbn [QuizSubmission.id QuizSubmission.student_id QuizSubmission.quiz_id
       QuizSubmission.completed_at].
  rewrite <- app_assoc. repeat split.
Qed.

Lemma start_quiz_never_refuses_a_restart_witness :
  let first :=
    QuizRoutes.start_quiz 55 1 (Samples.as_student_3 "/api/quizzes/1/start")
                          Samples.school Examples.started in
  exists db2 second,
    QuizRoutes.start_quiz 56 1 (Samples.as_student_3 "/api/quizzes/1/start")
                          Samples.school (fst first)
    = (db2, Ok second)
    /\ QuizSubmission.id second = 12
    /\ List.length (Database.quiz_submissions db2) = 3%nat.
Proof.
  cbv zeta.
  destruct (start_quiz_never_refuses_a_restart
              55 56 1 (Samples.as_student_3 "/api/quizzes/1/start")
              Samples.school Examples.started _ _ eq_refl)
    as (db2 & second & Hstart & Hid & _ & _ & _ & _ & Hrows).
  exists db2, second. split; [exact Hstart|]. split; [exact Hid|].
  now rewrite Hrows.
Defined.

(** X22. Completing a quiz does not close it: after [complete_quiz] has
    stamped the submission, [submit_answer] answers the same request exactly
    as it would have before, storing the same answer row, and leaves the
    completed submission as it is. *)
Theorem completing_a_quiz_does_not_close_it
  (now now' : datetime) (quiz_id submission_id : Z) (request request' : Request)
  (db db1 : Database.t) (done : QuizSubmission.t)
  (answer : Quizzes.QuizAnswerCreate) :
  Quizzes.complete_quiz now quiz_id submission_id request db = (db1, Ok done) ->
  get_current_user_payload request' = get_current_user_payload request ->
  QuizSubmission.completed_at done = Some now
  /\ snd (Quizzes.submit_answer now' quiz_id submission_id answer request' db1)
     = snd (Quizzes.submit_answer now' quiz_id submission_id answer request' db)
  /\ Database.quiz_answers
       (fst (Quizzes.submit_answer now' quiz_id submission_id answer request' db1))
     = Database.quiz_answers
         (fst (Quizzes.submit_answer now' quiz_id submission_id answer request' db))
  /\ Database.quiz_submissions
       (fst (Quizzes.submit_answer now' quiz_id submission_id answer request' db1))
     = Database.quiz_submissions db1.
Proof.
  intros H Hsame.
  destruct (ScoringFacts.complete_quiz_ok_inv _ _ _ _ _ _ _ H)
    as (u & s & quiz & score & threshold
        & Hu & Hr & Hs & Hq & _ & Hscore & _ & _ & -> & ->).
  split; [reflexivity|].
  unfold Quizzes.submit_answer. rewrite Hsame, Hu, Hr.
  cbn [String.eqb Ascii.eqb Bool.eqb negb Database.quiz_submissions set_quiz_submissions
       Database.quiz_questions Database.quiz_answers].
  destruct (Sqlite.bind [submission_id; _]); [|now repeat split].
  rewrite (first_update_first _ _ _ s
             (CompletionFacts.submission_of_completed
                now s score (threshold <=? score) submission_id (user_id u)
                (first_Some_holds _ _ _ Hs))
             Hs), Hs.
  destruct (Sqlite.bind [Quizzes.question_id answer; _]); [|now repeat split].
  destruct (Query.first _ (Database.quiz_questions db)); now repeat split.
Qed.

Lemma completing_a_quiz_does_not_close_it_witness :
  let completed :=
    fst (Quizzes.complete_quiz 70 1 10 (Examples.student_request 1 "complete")
                               Examples.answered) in
  exists stored,
    snd (Quizzes.submit_answer 75 1 10 (Examples.answer 12 (JStr "while"))
                               (Examples.student_request 1 "answer") completed)
    = Ok stored
    /\ QuizAnswer.is_correct stored = true
    /\ QuizAnswer.answered_at stored = 75.
Proof.
  cbv zeta.
  destruct (Quizzes.complete_quiz 70 1 10 (Examples.student_request 1 "complete")
                                  Examples.answered) as [db1 [done|e]] eqn:Hc;
    [|vm_compute in Hc; discriminate].
  destruct (completing_a_quiz_does_not_close_it
              70 75 1 10 (Examples.student_request 1 "complete")
              (Examples.student_request 1 "answer") Examples.answered db1 done
              (Examples.answer 12 (JStr "while")) Hc eq_refl)
    as (_ & Hsame & _).
  cbn [fst]. rewrite Hsame.
  eexists. split; [vm_compute; reflexivity|]. split; reflexivity.
Defined.

(* ================================================================== *)
(** * Which paths ask for a session, and what a failed send leaves behind *)
(* ================================================================== *)

Module GuardFacts.

Lemma prefix_of_prefix (a b s : string) :
  String.prefix (a ++ b) s = true -> String.prefix a s = true.
Proof.
  revert s. induction a as [|c a IH]; intros s; [now destruct s|].
  destruct s as [|c' s]; [discriminate|]. cbn [append String.prefix].
  destruct (ascii_dec c c'); [apply IH | discriminate].
Qed.

Lemma orb_absorb (a b : bool) : (b = true -> a = true) -> a || b = a.
Proof. destruct a, b; intros H; try reflexivity. now rewrite H. Qed.

End GuardFacts.

(** X23. [get_current_user_payload] reads the session header exactly on the
    paths that start with one of nine prefixes or contain "/teacher", and
    that do not start with /api/auth/login or /api/auth/register; the other
    entries of its two lists add nothing. *)
Theorem guarded_paths_are_the_listed_areas (path : string) :
  SessionSpec.guarded path
  = (existsb (Py.startswith path)
             [ "/api/auth/me"; "/api/auth/change-password"; "/api/quizzes/";
               "/api/analytics/students"; "/api/analytics/student/"; "/api/topics/";
               "/api/exercises"; "/api/chat/sessions"; "/api/chat/messages" ]
     || Py.contains "/teacher" path)
    && negb (Py.startswith path "/api/auth/login"
             || Py.startswith path "/api/auth/register").
Proof.
  unfold SessionSpec.guarded, is_protected, should_skip_auth. f_equal; [f_equal|f_equal].
  - apply eq_iff_eq_true. rewrite !existsb_exists. unfold protected_endpoints.
    split; intros (ep & Hin & Hep); cbn [In] in Hin.
    + repeat (destruct Hin as [<-|Hin];
              [first [ eexists; split; [|exact Hep]; cbn [In]; tauto
                     | exists "/api/auth/me"; split; [cbn [In]; tauto|];
                       exact (GuardFacts.prefix_of_prefix "/api/auth/me" "/teacher" path Hep)
                     | exists "/api/quizzes/"; split; [cbn [In]; tauto|];
                       exact (GuardFacts.prefix_of_prefix "/api/quizzes/" "teacher" path Hep)
                     | exists "/api/exercises"; split; [cbn [In]; tauto|];
                       exact (GuardFacts.prefix_of_prefix "/api/exercises" "/" path Hep) ]|]).
      contradiction.
    + repeat (destruct Hin as [<-|Hin];
              [eexists; split; [|exact Hep]; cbn [In]; tauto|]).
      contradiction.
  - cbn [existsb]. apply orb_false_r.
  - unfold skip_auth_endpoints, Py.startswith. cbn [existsb].
    pose proof (GuardFacts.prefix_of_prefix "/api/auth/login" "/teacher" path) as H4.
    pose proof (GuardFacts.prefix_of_prefix "/api/auth/register" "/teacher" path) as H5.
    cbn [append] in H4, H5.
    destruct (String.prefix "/api/auth/login/teacher" path); [rewrite (H4 eq_refl)|];
      (destruct (String.prefix "/api/auth/register/teacher" path);
       [rewrite (H5 eq_refl)|]);
      destruct (String.prefix "/api/auth/login" path);
      destruct (String.prefix "/api/auth/register" path); reflexivity.
Qed.

(** X24. A failed send is not held against the notifier: when a connected
    notifier cannot deliver an event, the failure is logged, the call
    returns, and the state is as before; every later publication goes out
    over the same connection without a new attempt to connect. *)
Theorem failed_send_keeps_the_connection
  (net : Kafka.Transport) (topic : string) (event : Kafka.Event) (key : option string)
  (cls : Kafka.KafkaService) :
  NotifierSpec.connected cls = true ->
  Kafka.send_succeeds net = false ->
  key <> Some EmptyString ->
  Kafka.publish_event net topic event key cls
  = (cls, [Kafka.Send topic key event false; Kafka.Log Kafka.ERROR], Ok tt)
  /\ (forall net' topic' event' key',
         key' <> Some EmptyString ->
         KafkaSpec.connection_attempts
           (snd (fst (Kafka.publish_event net' topic' event' key' cls))) = 0%nat
         /\ NotifierSpec.sends (snd (fst (Kafka.publish_event net' topic' event' key' cls)))
            = [Kafka.Send topic' key' event' (Kafka.send_succeeds net')]).
Proof.
  unfold NotifierSpec.connected. intros Hc Hsend Hkey.
  apply andb_true_iff in Hc as [Hd Hp]. apply negb_true_iff in Hd.
  destruct cls as [[p|] dis]; cbn [Kafka._producer Kafka._is_disabled] in *;
    [|discriminate]. subst dis.
  unfold Kafka.publish_event, Kafka.get_producer, Kafka.send_and_wait.
  cbn [Kafka._producer Kafka._is_disabled]. rewrite Hsend.
  split.
  - destruct key as [[|c k]|]; [congruence | reflexivity | reflexivity].
  - intros net' topic' event' key' Hkey'.
    destruct key' as [[|c k]|]; [congruence | |];
      now destruct (Kafka.send_succeeds net').
Qed.

Lemma failed_send_keeps_the_connection_witness :
  let connected :=
    fst (fst (Kafka.publish_event Examples.healthy "progress-updates" [] (Some "1:5")
                                  Kafka.initial)) in
  let flaky := {| Kafka.start_succeeds := false; Kafka.send_succeeds := false |} in
  Kafka.publish_event flaky "progress-updates" [] (Some "1:5") connected
  = (connected,
     [Kafka.Send "progress-updates" (Some "1:5") [] false; Kafka.Log Kafka.ERROR], Ok tt).
Proof.
  exact (proj1 (failed_send_keeps_the_connection
                  {| Kafka.start_succeeds := false; Kafka.send_succeeds := false |}
                  "progress-updates" [] (Some "1:5")
                  (fst (fst (Kafka.publish_event Examples.healthy "progress-updates" []
                                                 (Some "1:5") Kafka.initial)))
                  eq_refl eq_refl ltac:(discriminate))).
Defined.
